(** * Examline back end: code-execution routes and attempt grading

A shallow embedding of
  - [src/examline/src/routes/codeExecution.route.ts]
    (POST /code-execution/run, /validate, /execute), and
  - [src/examline/src/routes/examAttempt.route.ts]
    (PUT /exam-attempts/:attemptId/finish),
together with the fragment of JavaScript these handlers rely on:
dynamically typed values, truthiness, strict equality, property
access, [String.prototype.trim], exceptions and [try]/[catch].

The execution service ([CodeExecutionService]) and the database
client are collaborators of the routes; the service is a parameter
of the development (an arbitrary stateful oracle that may return
any value or throw any value), the database is a store of typed
rows queried the way the handlers query it. *)

From Stdlib Require Import List String Ascii Bool Arith ZArith NArith Lia.
From Stdlib Require Import Uint63 PrimFloat DecimalString.
Import ListNotations.

Set Implicit Arguments.
Set Warnings "-register-all".

(** ** JavaScript strings *)

Module JsString.

(** A JavaScript string is a sequence of UTF-16 code units. *)
Definition t := list N.

(** ASCII literals of the source, as code units. *)
Definition lit (s : string) : t :=
  map N_of_ascii (list_ascii_of_string s).

Definition eqb (a b : t) : bool :=
  if list_eq_dec N.eq_dec a b then true else false.

(** ECMAScript [WhiteSpace] and [LineTerminator] code points: the
    characters [String.prototype.trim] strips.  All of them are in
    the basic multilingual plane, hence single code units. *)
Definition is_white (c : N) : bool :=
  (  (c =? 9) || (c =? 10) || (c =? 11) || (c =? 12) || (c =? 13)
  || (c =? 32) || (c =? 160) || (c =? 5760)
  || ((8192 <=? c) && (c <=? 8202))
  || (c =? 8232) || (c =? 8233) || (c =? 8239) || (c =? 8287)
  || (c =? 12288) || (c =? 65279))%N.

Fixpoint trim_start (s : t) : t :=
  match s with
  | [] => []
  | c :: r => if is_white c then trim_start r else s
  end.

Definition trim_end (s : t) : t := rev (trim_start (rev s)).

(** [String.prototype.trim]. *)
Definition trim (s : t) : t := trim_end (trim_start s).


End JsString.

(** ** JavaScript values *)

(** Values as the handlers see them: what [JSON.parse] produces for a
    request body or a JSON column, what the execution service returns
    or throws, and the object literals the handlers build.  An object
    lists its properties once each, an object literal in source order.
    A number is an IEEE 754 double. *)
Inductive JSValue : Type :=
| JUndefined
| JNull
| JBool (b : bool)
| JNum (x : float)
| JStr (s : JsString.t)
| JArr (items : list JSValue)
| JObj (props : list (string * JSValue)).

(** Completion of an evaluation: a value, or a thrown value. *)
Inductive Outcome (A : Type) : Type :=
| Ok (a : A)
| Throw (err : JSValue).
Arguments Ok {A} a.
Arguments Throw {A} err.

Module Js.

Definition str (s : string) : JSValue := JStr (JsString.lit s).

(** The number for a count (an array length, a counter): exact, as
    an array holds fewer than 2^32 items. *)
Definition num_of_nat (n : nat) : float :=
  PrimFloat.of_uint63 (Uint63.of_Z (Z.of_nat n)).

(** [ToBoolean]. *)
Definition truthy (v : JSValue) : bool :=
  match v with
  | JUndefined | JNull => false
  | JBool b => b
  | JNum x => negb (PrimFloat.is_zero x || PrimFloat.is_nan x)
  | JStr s => match s with [] => false | _ => true end
  | JArr _ | JObj _ => true
  end.

(** [a || b] on values. *)
Definition or_else (a b : JSValue) : JSValue := if truthy a then a else b.

Definition is_nullish (v : JSValue) : bool :=
  match v with JUndefined | JNull => true | _ => false end.

(** [===].  Arrays and objects compare by identity; every comparison
    in the handlers has operands of different origin (a request or
    service value against a literal or a database value), so two
    objects are never the same reference. *)
Definition strict_eq (a b : JSValue) : bool :=
  match a, b with
  | JUndefined, JUndefined => true
  | JNull, JNull => true
  | JBool x, JBool y => Bool.eqb x y
  | JNum x, JNum y => PrimFloat.eqb x y
  | JStr x, JStr y => JsString.eqb x y
  | _, _ => false
  end.

(** [Array.prototype.includes] on an array of string literals. *)
Definition includes (lits : list string) (v : JSValue) : bool :=
  existsb (fun l => strict_eq (str l) v) lits.

Definition is_array (v : JSValue) : bool :=
  match v with JArr _ => true | _ => false end.

(** [v.length] for an array, as a count. *)
Definition array_items (v : JSValue) : list JSValue :=
  match v with JArr l => l | _ => [] end.

Fixpoint lookup (k : string) (props : list (string * JSValue)) : JSValue :=
  match props with
  | [] => JUndefined
  | (k', v) :: r => if String.eqb k k' then v else lookup k r
  end.

Fixpoint has_key (k : string) (props : list (string * JSValue)) : bool :=
  match props with
  | [] => false
  | (k', _) :: r => String.eqb k k' || has_key k r
  end.

(** [k in v] for an object value. *)
Definition has_field (k : string) (v : JSValue) : bool :=
  match v with JObj props => has_key k props | _ => false end.

(** A [TypeError] of the runtime; the message texts are V8's. *)
Definition type_error (msg : string) : JSValue :=
  JObj [("name", str "TypeError"); ("message", str msg)]%string.

Definition cannot_read (v : JSValue) (k : string) : JSValue :=
  type_error ("Cannot read properties of "
              ++ match v with JNull => "null" | _ => "undefined" end
              ++ " (reading '" ++ k ++ "')").

(** [v.k] for the data properties the handlers read ([code], [input],
    [output], [message], ...): none of them exists on the prototype
    of a string, number, boolean or array, so only objects carry
    them; reading a property of [undefined] or [null] throws. *)
Definition get_prop (v : JSValue) (k : string) : Outcome JSValue :=
  match v with
  | JUndefined | JNull => Throw (cannot_read v k)
  | JObj props => Ok (lookup k props)
  | _ => Ok JUndefined
  end.

(** The value [v.k] reads when [v] is neither [undefined] nor [null]. *)
Definition field (v : JSValue) (k : string) : JSValue :=
  match v with JObj props => lookup k props | _ => JUndefined end.

(** [v.trim()]: a string is trimmed; [undefined]/[null] has no
    property to read; any other value has no [trim] method. *)
Definition call_trim (v : JSValue) : Outcome JSValue :=
  match v with
  | JStr s => Ok (JStr (JsString.trim s))
  | JUndefined | JNull => Throw (cannot_read v "trim")
  | _ => Throw (type_error "trim is not a function")
  end.

(** [v?.trim()]. *)
Definition opt_trim (v : JSValue) : Outcome JSValue :=
  if is_nullish v then Ok JUndefined else call_trim v.

Definition num_of_Z (z : Z) : float :=
  if (z <? 0)%Z then PrimFloat.opp (PrimFloat.of_uint63 (Uint63.of_Z (- z)))
  else PrimFloat.of_uint63 (Uint63.of_Z z).

(** The decimal numeral of an array index, as a property key. *)
Definition index_key (i : nat) : string :=
  DecimalString.NilEmpty.string_of_uint (Nat.to_uint i).

(** [v?.[i]] for an array index [i]: an element of an array, a
    property of an object, a one-unit string of a string. *)
Definition opt_index (v : JSValue) (i : nat) : JSValue :=
  match v with
  | JArr l => nth i l JUndefined
  | JObj props => lookup (index_key i) props
  | JStr s => match nth_error s i with Some c => JStr [c] | None => JUndefined end
  | _ => JUndefined
  end.

(** How many of the entries carry [passed: true]. *)
Definition count_passed (entries : list JSValue) : nat :=
  List.length (filter (fun e => strict_eq (field e "passed") (JBool true)) entries).

(** [(a / b) * 100]. *)
Definition percent (a b : nat) : float :=
  PrimFloat.mul (PrimFloat.div (num_of_nat a) (num_of_nat b)) (num_of_nat 100).

End Js.

(** ** Exceptions and state *)

(** A computation over a state [S] that completes with a value or a
    thrown value; the state reached is kept either way, as assignments
    made inside a [try] block survive the [catch]. *)
Definition M (S A : Type) : Type := S -> Outcome A * S.

Module Eff.

Definition ret {S A} (a : A) : M S A := fun s => (Ok a, s).

Definition bind {S A B} (m : M S A) (k : A -> M S B) : M S B :=
  fun s =>
    match m s with
    | (Ok a, s') => k a s'
    | (Throw e, s') => (Throw e, s')
    end.

Definition throw {S A} (e : JSValue) : M S A := fun s => (Throw e, s).

(** [try { m } catch (e) { h e }]. *)
Definition try_catch {S A} (m : M S A) (h : JSValue -> M S A) : M S A :=
  fun s =>
    match m s with
    | (Ok a, s') => (Ok a, s')
    | (Throw e, s') => h e s'
    end.

(** A pure evaluation that may throw. *)
Definition eval {S A} (o : Outcome A) : M S A := fun s => (o, s).

Definition gets {S A} (f : S -> A) : M S A := fun s => (Ok (f s), s).

Definition modify {S} (f : S -> S) : M S unit := fun s => (Ok tt, f s).

(** [for (const x of l) { body x }]. *)
Fixpoint for_of {S} (l : list JSValue) (body : JSValue -> M S unit) : M S unit :=
  match l with
  | [] => ret tt
  | x :: r => bind (body x) (fun _ => for_of r body)
  end.

End Eff.

Declare Scope eff_scope.
Delimit Scope eff_scope with eff.
Notation "x <- m ;; k" := (Eff.bind m (fun x => k))
  (at level 61, m at next level, right associativity) : eff_scope.
Notation "m ;;; k" := (Eff.bind m (fun _ => k))
  (at level 61, right associativity) : eff_scope.

(** ** The database *)

(** Rows of the tables the handlers touch, with the columns they read
    or write.  String columns hold JavaScript strings; nullable and
    JSON columns hold values.  Queries are functions of the store: a
    failing connection is not part of the model. *)
Module Db.

Record Exam := {
  exam_id : Z;
  tipo : JsString.t;
  lenguajeProgramacion : JSValue;
  testCases : JSValue
}.

Record Pregunta := {
  pregunta_examId : Z;
  correcta : JSValue
}.

Record ExamFile := {
  file_examId : Z;
  file_userId : Z;
  filename : JsString.t;
  version : JsString.t;
  content : JSValue;
  updatedAt : Z
}.

Record ExamAttempt := {
  id : Z;
  userId : Z;
  examId : Z;
  estado : JsString.t;
  finishedAt : option Z;
  respuestas : JSValue;
  codigoProgramacion : JSValue;
  puntaje : JSValue;
  testResults : JSValue
}.

Record t := {
  exams : list Exam;
  preguntas : list Pregunta;
  examFiles : list ExamFile;
  examAttempts : list ExamAttempt
}.

(** [prisma.exam.findUnique({ where: { id } })]. *)
Definition exam_findUnique (i : Z) (d : t) : option Exam :=
  find (fun e => exam_id e =? i)%Z (exams d).

(** The [preguntas] relation of an exam ([include: { preguntas: true }]). *)
Definition exam_preguntas (i : Z) (d : t) : list Pregunta :=
  filter (fun p => pregunta_examId p =? i)%Z (preguntas d).

(** [prisma.examAttempt.findUnique({ where: { id } })]. *)
Definition examAttempt_findUnique (i : Z) (d : t) : option ExamAttempt :=
  find (fun a => id a =? i)%Z (examAttempts d).

(** The row with the greatest [updatedAt] among [l], the earliest
    such row on a tie. *)
Fixpoint latest (l : list ExamFile) : option ExamFile :=
  match l with
  | [] => None
  | f :: r =>
      match latest r with
      | Some g => if (updatedAt f <? updatedAt g)%Z then Some g else Some f
      | None => Some f
      end
  end.

(** [prisma.examFile.findFirst({ where: { examId, userId, filename,
    version }, orderBy: { updatedAt: 'desc' } })]. *)
Definition examFile_findFirst (eid uid : Z) (name ver : JsString.t) (d : t)
  : option ExamFile :=
  latest
    (filter (fun f => (file_examId f =? eid)%Z && (file_userId f =? uid)%Z
                      && JsString.eqb (filename f) name
                      && JsString.eqb (version f) ver)
            (examFiles d)).

(** The columns an [update] may set ([updateData] of the finish
    handler); [None] leaves the column as it is. *)
Record UpdateData := {
  set_finishedAt : option Z;
  set_estado : option JsString.t;
  set_respuestas : option JSValue;
  set_codigoProgramacion : option JSValue;
  set_puntaje : option JSValue;
  set_testResults : option JSValue
}.

Definition or_keep {A} (o : option A) (old : A) : A :=
  match o with Some x => x | None => old end.

Definition apply_update (u : UpdateData) (a : ExamAttempt) : ExamAttempt :=
  {| id := id a; userId := userId a; examId := examId a;
     estado := or_keep (set_estado u) (estado a);
     finishedAt := match set_finishedAt u with Some x => Some x | None => finishedAt a end;
     respuestas := or_keep (set_respuestas u) (respuestas a);
     codigoProgramacion := or_keep (set_codigoProgramacion u) (codigoProgramacion a);
     puntaje := or_keep (set_puntaje u) (puntaje a);
     testResults := or_keep (set_testResults u) (testResults a) |}.

(** [prisma.examAttempt.update({ where: { id }, data })]: the table
    after the update. *)
Definition examAttempt_update (i : Z) (u : UpdateData) (d : t) : t :=
  {| exams := exams d; preguntas := preguntas d; examFiles := examFiles d;
     examAttempts :=
       map (fun a => if (id a =? i)%Z then apply_update u a else a) (examAttempts d) |}.

End Db.

(** ** The execution service and the machine state *)

(** A call made on the [CodeExecutionService] instance. *)
Inductive Call : Type :=
| ExecuteCode (code language options : JSValue)
| ValidateSyntax (code language : JSValue).

(** What a handler runs on: the service's own state, the calls made
    on it so far, the database, and the handler's mutable locals. *)
Record State (World L : Type) : Type := {
  svc : World;
  calls : list Call;
  db : Db.t;
  locals : L
}.

Record Response : Type := {
  status : Z;
  body : JSValue
}.

Module Http.

(** [res.status(code).json(payload)]. *)
Definition respond (code : Z) (payload : JSValue) : Response :=
  {| status := code; body := payload |}.

(** [res.json(payload)]. *)
Definition json (payload : JSValue) : Response := respond 200 payload.

End Http.

(** Message literals of the routes.  The accented letter is U+00F3 and
    the double quote U+0022, written as code units. *)
Module Msg.

Definition requeridos : JSValue :=
  JStr (JsString.lit "C" ++ [243%N] ++ JsString.lit "digo y lenguaje son requeridos").

Definition no_soportado : JSValue :=
  JStr (JsString.lit "Lenguaje no soportado. Use " ++ [34%N] ++ JsString.lit "python"
        ++ [34%N] ++ JsString.lit " o " ++ [34%N] ++ JsString.lit "javascript" ++ [34%N]).

Definition examen_no_encontrado : JSValue := Js.str "Examen no encontrado".

Definition no_es_programacion : JSValue :=
  JStr (JsString.lit "Este examen no es de tipo programaci" ++ [243%N] ++ JsString.lit "n").

Definition error_ejecutar : JSValue :=
  JStr (JsString.lit "Error interno al ejecutar c" ++ [243%N] ++ JsString.lit "digo").

Definition error_validar : JSValue :=
  JStr (JsString.lit "Error interno al validar c" ++ [243%N] ++ JsString.lit "digo").

Definition error_desconocido : JSValue := Js.str "Error desconocido".

End Msg.

Section Service.

Variable World : Type.

(** [codeExecutionService.executeCode(code, language, options)] and
    [codeExecutionService.validateSyntax(code, language)]: each call
    resolves to a value or rejects with one, and moves the service to
    a new state. *)
Variable executeCode : JSValue -> JSValue -> JSValue -> World -> Outcome JSValue * World.
Variable validateSyntax : JSValue -> JSValue -> World -> Outcome JSValue * World.

Variable L : Type.

Definition await_executeCode (code language options : JSValue)
  : M (State World L) JSValue :=
  fun s =>
    let (o, w) := executeCode code language options (svc s) in
    (o, {| svc := w; calls := calls s ++ [ExecuteCode code language options];
           db := db s; locals := locals s |}).

Definition await_validateSyntax (code language : JSValue)
  : M (State World L) JSValue :=
  fun s =>
    let (o, w) := validateSyntax code language (svc s) in
    (o, {| svc := w; calls := calls s ++ [ValidateSyntax code language];
           db := db s; locals := locals s |}).

(** The service's side of a sequence of [executeCode] calls made one
    after the other with the given option objects: how each call
    completes, and the state the service is left in. *)
Fixpoint completions (code language : JSValue) (opts : list JSValue) (w : World)
  : list (Outcome JSValue) :=
  match opts with
  | [] => []
  | o :: r => fst (executeCode code language o w)
              :: completions code language r (snd (executeCode code language o w))
  end.

Fixpoint world_after (code language : JSValue) (opts : list JSValue) (w : World) : World :=
  match opts with
  | [] => w
  | o :: r => world_after code language r (snd (executeCode code language o w))
  end.

(** The service rejects with error values, never with [undefined]
    or [null]. *)
Definition throws_errors : Prop :=
  forall code language options w e,
    fst (executeCode code language options w) = Throw e -> Js.is_nullish e = false.

(** [v.k] inside a handler. *)
Definition prop (v : JSValue) (k : string) : M (State World L) JSValue :=
  Eff.eval (Js.get_prop v k).

Definition set_locals (f : L -> L) : M (State World L) unit :=
  Eff.modify (fun s => {| svc := svc s; calls := calls s; db := db s;
                          locals := f (locals s) |}).

End Service.

(** ** [codeExecution.route.ts] *)

Module CodeExecutionRoute.

(** [testResults] and [passedTests] of the batch branch. *)
Record Locals : Type := {
  testResults : list JSValue;
  passedTests : nat
}.

Definition supported : list string := ["python"; "javascript"]%string.

(** The properties of an entry of [testResults] that the [try] block
    of the batch loop builds. *)
Definition entry_fields : list string :=
  ["input"; "expectedOutput"; "actualOutput"; "passed"; "error"; "executionTime"]%string.

Section Handlers.

Variable World : Type.
Variable executeCode : JSValue -> JSValue -> JSValue -> World -> Outcome JSValue * World.
Variable validateSyntax : JSValue -> JSValue -> World -> Outcome JSValue * World.

(** [parseInt], a built-in: [None] stands for [NaN]. *)
Variable parseInt : JSValue -> option Z.

Local Open Scope eff_scope.
Local Open Scope string_scope.

Abbreviation St := (State World Locals).
Abbreviation await_exec := (await_executeCode executeCode (L := Locals)).
Abbreviation await_validate := (await_validateSyntax validateSyntax (L := Locals)).
Notation "v .[ k ]" := (prop (World := World) (L := Locals) v k)
  (at level 1, left associativity, format "v .[ k ]").

(** [{ timeout: 10000, maxMemory: '128m', input }]. *)
Definition options (input : JSValue) : JSValue :=
  JObj [("timeout", JNum 10000%float); ("maxMemory", Js.str "128m"); ("input", input)].

(** [prisma.exam.findUnique({ where: { id: parseInt(examId) } })];
    the client rejects a [NaN] id. *)
Definition find_exam (examId : JSValue) : M St (option Db.Exam) :=
  match parseInt examId with
  | Some i => Eff.gets (fun s => Db.exam_findUnique i (db s))
  | None => Eff.throw (JObj [("name", Js.str "PrismaClientValidationError");
                             ("message", Js.str "Invalid value for argument id")])
  end.

(** POST /code-execution/run *)
Definition run_handler (reqBody : JSValue) : M St Response :=
  Eff.try_catch
    (code <- reqBody.["code"] ;;
     language <- reqBody.["language"] ;;
     examId <- reqBody.["examId"] ;;
     input <- reqBody.["input"] ;;
     if negb (Js.truthy code) || negb (Js.truthy language) then
       Eff.ret (Http.respond 400 (JObj [("error", Msg.requeridos)]))
     else if negb (Js.includes supported language) then
       Eff.ret (Http.respond 400 (JObj [("error", Msg.no_soportado)]))
     else
       let execute :=
         result <- await_exec code language (options (Js.or_else input (Js.str ""))) ;;
         output <- result.["output"] ;;
         error <- result.["error"] ;;
         exitCode <- result.["exitCode"] ;;
         executionTime <- result.["executionTime"] ;;
         Eff.ret (Http.json (JObj [("success", JBool true); ("output", output);
                                   ("error", error); ("exitCode", exitCode);
                                   ("executionTime", executionTime)])) in
       if Js.truthy examId then
         exam <- find_exam examId ;;
         match exam with
         | None => Eff.ret (Http.respond 404 (JObj [("error", Msg.examen_no_encontrado)]))
         | Some e =>
             if negb (JsString.eqb (Db.tipo e) (JsString.lit "programming")) then
               Eff.ret (Http.respond 400 (JObj [("error", Msg.no_es_programacion)]))
             else execute
         end
       else execute)
    (fun error =>
       details <- error.["message"] ;;
       Eff.ret (Http.respond 500 (JObj [("error", Msg.error_ejecutar);
                                        ("details", details)]))).

(** POST /code-execution/validate *)
Definition validate_handler (reqBody : JSValue) : M St Response :=
  Eff.try_catch
    (code <- reqBody.["code"] ;;
     language <- reqBody.["language"] ;;
     if negb (Js.truthy code) || negb (Js.truthy language) then
       Eff.ret (Http.respond 400 (JObj [("error", Msg.requeridos)]))
     else
       result <- await_validate code language ;;
       valid <- result.["valid"] ;;
       errors <- result.["errors"] ;;
       Eff.ret (Http.json (JObj [("valid", valid); ("errors", errors)])))
    (fun error =>
       details <- error.["message"] ;;
       Eff.ret (Http.respond 500 (JObj [("error", Msg.error_validar);
                                        ("details", details)]))).

Definition push (entry : JSValue) : M St unit :=
  set_locals (World := World)
    (fun l => {| testResults := testResults l ++ [entry];
                 passedTests := passedTests l |}).

Definition increment_passedTests : M St unit :=
  set_locals (World := World)
    (fun l => {| testResults := testResults l;
                 passedTests := S (passedTests l) |}).

(** [result.output?.trim() === testCase.expectedOutput?.trim()]. *)
Definition output_matches (result testCase : JSValue) : M St bool :=
  output <- result.["output"] ;;
  actual <- Eff.eval (Js.opt_trim output) ;;
  expectedOutput <- testCase.["expectedOutput"] ;;
  expected <- Eff.eval (Js.opt_trim expectedOutput) ;;
  Eff.ret (Js.strict_eq actual expected).

(** The body of [for (const testCase of testCases)]. *)
Definition execute_case (code language testCase : JSValue) : M St unit :=
  Eff.try_catch
    (input <- testCase.["input"] ;;
     result <- await_exec code language (options (Js.or_else input (Js.str ""))) ;;
     passed <- output_matches result testCase ;;
     (if passed : bool then increment_passedTests else Eff.ret tt) ;;;
     input' <- testCase.["input"] ;;
     expectedOutput' <- testCase.["expectedOutput"] ;;
     output' <- result.["output"] ;;
     actualOutput <- Eff.eval (Js.opt_trim output') ;;
     error <- result.["error"] ;;
     executionTime <- result.["executionTime"] ;;
     push (JObj [("input", input'); ("expectedOutput", expectedOutput');
                 ("actualOutput", actualOutput); ("passed", JBool passed);
                 ("error", error); ("executionTime", executionTime)]))
    (fun err =>
       input <- testCase.["input"] ;;
       expectedOutput <- testCase.["expectedOutput"] ;;
       message <- err.["message"] ;;
       push (JObj [("input", input); ("expectedOutput", expectedOutput);
                   ("passed", JBool false);
                   ("error", Js.or_else message Msg.error_desconocido)])).

(** One iteration seen from outside: the entry [execute_case]
    appends for a test case whose service call completed with [o],
    and whether it counted as passed. *)
Definition catch_entry (testCase err : JSValue) : JSValue :=
  JObj [("input", Js.field testCase "input");
        ("expectedOutput", Js.field testCase "expectedOutput");
        ("passed", JBool false);
        ("error", Js.or_else (Js.field err "message") Msg.error_desconocido)].

Definition try_entry (testCase result actual : JSValue) (passed : bool) : JSValue :=
  JObj [("input", Js.field testCase "input");
        ("expectedOutput", Js.field testCase "expectedOutput");
        ("actualOutput", actual); ("passed", JBool passed);
        ("error", Js.field result "error");
        ("executionTime", Js.field result "executionTime")].

Definition case_entry (testCase : JSValue) (o : Outcome JSValue) : JSValue * bool :=
  match o with
  | Throw err => (catch_entry testCase err, false)
  | Ok result =>
      match Js.get_prop result "output" with
      | Throw err => (catch_entry testCase err, false)
      | Ok output =>
          match Js.opt_trim output with
          | Throw err => (catch_entry testCase err, false)
          | Ok actual =>
              match Js.opt_trim (Js.field testCase "expectedOutput") with
              | Throw err => (catch_entry testCase err, false)
              | Ok expected =>
                  (try_entry testCase result actual (Js.strict_eq actual expected),
                   Js.strict_eq actual expected)
              end
          end
      end
  end.

(** The option object of the call made for a test case. *)
Definition case_options (testCase : JSValue) : JSValue :=
  options (Js.or_else (Js.field testCase "input") (Js.str "")).

(** The entries of a whole batch, the service starting in [w]. *)
Fixpoint batch_entries (code language : JSValue) (testCases : list JSValue) (w : World)
  : list (JSValue * bool) :=
  match testCases with
  | [] => []
  | testCase :: r =>
      case_entry testCase (fst (executeCode code language (case_options testCase) w))
      :: batch_entries code language r
           (snd (executeCode code language (case_options testCase) w))
  end.

(** A request that reaches the batch branch: [code] and [language]
    pass the two guards, there is no [customInput], and
    [testCases] is a non-empty array. *)
Definition batch_request (reqBody code language : JSValue) (testCases : list JSValue)
  : Prop :=
  Js.get_prop reqBody "code" = Ok code /\
  Js.get_prop reqBody "language" = Ok language /\
  Js.truthy code = true /\
  Js.includes supported language = true /\
  Js.is_nullish (Js.field reqBody "customInput") = true /\
  Js.field reqBody "testCases" = JArr testCases /\
  testCases <> [].

(** The response of a single run in /execute. *)
Definition single_run (result : JSValue) : M St Response :=
  error <- result.["error"] ;;
  output <- result.["output"] ;;
  exitCode <- result.["exitCode"] ;;
  executionTime <- result.["executionTime"] ;;
  Eff.ret (Http.json (JObj [("success", JBool (negb (Js.truthy error)));
                            ("output", output); ("error", error);
                            ("exitCode", exitCode);
                            ("executionTime", executionTime)])).

(** POST /code-execution/execute *)
Definition execute_handler (reqBody : JSValue) : M St Response :=
  Eff.try_catch
    (code <- reqBody.["code"] ;;
     language <- reqBody.["language"] ;;
     filename <- reqBody.["filename"] ;;
     testCases <- reqBody.["testCases"] ;;
     customInput <- reqBody.["customInput"] ;;
     if negb (Js.truthy code) || negb (Js.truthy language) then
       Eff.ret (Http.respond 400 (JObj [("error", Msg.requeridos)]))
     else if negb (Js.includes supported language) then
       Eff.ret (Http.respond 400 (JObj [("error", Msg.no_soportado)]))
     else if negb (Js.strict_eq customInput JUndefined)
             && negb (Js.strict_eq customInput JNull) then
       result <- await_exec code language (options customInput) ;;
       single_run result
     else if Js.truthy testCases && Js.is_array testCases
             && Nat.ltb 0 (List.length (Js.array_items testCases)) then
       set_locals (World := World)
         (fun _ => {| testResults := []; passedTests := 0 |}) ;;;
       Eff.for_of (Js.array_items testCases) (execute_case code language) ;;;
       l <- Eff.gets (fun s : St => locals s) ;;
       let score := Js.percent (passedTests l) (List.length (Js.array_items testCases)) in
       Eff.ret (Http.json
                  (JObj [("success", JBool true);
                         ("score", JNum score);
                         ("passedTests", JNum (Js.num_of_nat (passedTests l)));
                         ("totalTests",
                           JNum (Js.num_of_nat (List.length (Js.array_items testCases))));
                         ("testResults", JArr (testResults l))]))
     else
       result <- await_exec code language (options (Js.str "")) ;;
       single_run result)
    (fun error =>
       details <- error.["message"] ;;
       Eff.ret (Http.respond 500 (JObj [("error", Msg.error_ejecutar);
                                        ("details", details)]))).

End Handlers.

End CodeExecutionRoute.

(** ** [examAttempt.route.ts]: PUT /exam-attempts/:attemptId/finish *)

Module ExamAttemptRoute.

(** The properties of an entry of [testResults] in this route. *)
Definition finish_fields : list string :=
  ["description"; "passed"; "expected"; "actual"; "error"; "executionTime"]%string.

(** [testResults] and [testsPasados] of the grading loop. *)
Record Locals : Type := {
  testResults : list JSValue;
  testsPasados : nat
}.

(** What the handler reads of the request: the route parameter, the
    authenticated user ([req.user.userId], set by the middleware)
    and the parsed body. *)
Record Request : Type := {
  params_attemptId : JsString.t;
  user_userId : Z;
  reqBody : JSValue
}.

Module Msg.

Definition id_invalido : JSValue :=
  JStr (JsString.lit "ID de intento inv" ++ [225%N] ++ JsString.lit "lido").

Definition no_encontrado : JSValue := Js.str "Intento no encontrado".

Definition no_autorizado : JSValue := Js.str "No autorizado".

Definition ya_finalizado : JSValue := Js.str "El intento ya fue finalizado".

Definition examen_no_encontrado : JSValue := Js.str "Examen no encontrado".

Definition debes_guardar (mainFileName : JsString.t) : JSValue :=
  JStr (JsString.lit "Debes guardar el archivo principal " ++ [34%N] ++ mainFileName
        ++ [34%N] ++ JsString.lit " antes de finalizar el examen").

Definition sin_descripcion : JSValue :=
  JStr (JsString.lit "Test sin descripci" ++ [243%N] ++ JsString.lit "n").

Definition error_finalizando : JSValue := Js.str "Error finalizando intento de examen".

End Msg.

Definition en_progreso : JsString.t := JsString.lit "en_progreso".
Definition finalizado : JsString.t := JsString.lit "finalizado".

(** The attempt row as the response carries it; a date is its
    epoch milliseconds. *)
Definition attempt_value (a : Db.ExamAttempt) : JSValue :=
  JObj [("id", JNum (Js.num_of_Z (Db.id a)));
        ("userId", JNum (Js.num_of_Z (Db.userId a)));
        ("examId", JNum (Js.num_of_Z (Db.examId a)));
        ("estado", JStr (Db.estado a));
        ("finishedAt", match Db.finishedAt a with
                       | Some d => JNum (Js.num_of_Z d)
                       | None => JNull
                       end);
        ("respuestas", Db.respuestas a);
        ("codigoProgramacion", Db.codigoProgramacion a);
        ("puntaje", Db.puntaje a);
        ("testResults", Db.testResults a)]%string.

Section Handlers.

Variable World : Type.
Variable executeCode : JSValue -> JSValue -> JSValue -> World -> Outcome JSValue * World.

(** [parseInt], a built-in: [None] stands for [NaN]. *)
Variable parseInt : JSValue -> option Z.

(** [new Date()] when the handler runs. *)
Variable now : Z.

Local Open Scope eff_scope.
Local Open Scope string_scope.

Abbreviation St := (State World Locals).
Abbreviation await_exec := (await_executeCode executeCode (L := Locals)).
Notation "v .[ k ]" := (prop (World := World) (L := Locals) v k)
  (at level 1, left associativity, format "v .[ k ]").

Definition push (entry : JSValue) : M St unit :=
  set_locals (World := World)
    (fun l => {| testResults := testResults l ++ [entry];
                 testsPasados := testsPasados l |}).

Definition increment_testsPasados : M St unit :=
  set_locals (World := World)
    (fun l => {| testResults := testResults l;
                 testsPasados := S (testsPasados l) |}).

(** [(testCase.expectedOutput || '').trim()]. *)
Definition trimmed_expected (testCase : JSValue) : M St JSValue :=
  expectedOutput <- testCase.["expectedOutput"] ;;
  Eff.eval (Js.call_trim (Js.or_else expectedOutput (Js.str ""))).

(** [(result.output || '').trim()]. *)
Definition trimmed_actual (result : JSValue) : M St JSValue :=
  output <- result.["output"] ;;
  Eff.eval (Js.call_trim (Js.or_else output (Js.str ""))).

(** [actualOutput === expectedOutput && result.exitCode === 0]. *)
Definition case_passed (actualOutput expectedOutput result : JSValue) : M St bool :=
  if Js.strict_eq actualOutput expectedOutput then
    exitCode <- result.["exitCode"] ;;
    Eff.ret (Js.strict_eq exitCode (JNum 0%float))
  else Eff.ret false.

(** The three steps above in the order [grade_case] takes them:
    the verdict on one test case. *)
Definition grade_comparison (result testCase : JSValue) : M St bool :=
  expectedOutput <- trimmed_expected testCase ;;
  actualOutput <- trimmed_actual result ;;
  case_passed actualOutput expectedOutput result.

(** The body of [for (const testCase of exam.testCases)]. *)
Definition grade_case (codigoParaEvaluar language testCase : JSValue) : M St unit :=
  Eff.try_catch
    (input <- testCase.["input"] ;;
     result <- await_exec codigoParaEvaluar language
                 (JObj [("input", Js.or_else input (Js.str ""));
                        ("timeout", JNum 10000%float)]) ;;
     expectedOutput <- trimmed_expected testCase ;;
     actualOutput <- trimmed_actual result ;;
     passed <- case_passed actualOutput expectedOutput result ;;
     (if passed : bool then increment_testsPasados else Eff.ret tt) ;;;
     description <- testCase.["description"] ;;
     error <- result.["error"] ;;
     executionTime <- result.["executionTime"] ;;
     push (JObj [("description", Js.or_else description Msg.sin_descripcion);
                 ("passed", JBool passed);
                 ("expected", expectedOutput);
                 ("actual", actualOutput);
                 ("error", error);
                 ("executionTime", executionTime)]))
    (fun error =>
       description <- testCase.["description"] ;;
       expectedOutput <- testCase.["expectedOutput"] ;;
       message <- error.["message"] ;;
       push (JObj [("description", Js.or_else description Msg.sin_descripcion);
                   ("passed", JBool false);
                   ("expected", expectedOutput);
                   ("actual", Js.str "");
                   ("error", message);
                   ("executionTime", JNum 0%float)])).

(** One iteration seen from outside: the entry [grade_case] appends
    for a test case whose service call completed with [o], and
    whether it counted as passed. *)
Definition catch_entry (testCase err : JSValue) : JSValue :=
  JObj [("description", Js.or_else (Js.field testCase "description") Msg.sin_descripcion);
        ("passed", JBool false);
        ("expected", Js.field testCase "expectedOutput");
        ("actual", Js.str "");
        ("error", Js.field err "message");
        ("executionTime", JNum 0%float)].

Definition try_entry (testCase result expectedOutput actualOutput : JSValue)
    (passed : bool) : JSValue :=
  JObj [("description", Js.or_else (Js.field testCase "description") Msg.sin_descripcion);
        ("passed", JBool passed);
        ("expected", expectedOutput);
        ("actual", actualOutput);
        ("error", Js.field result "error");
        ("executionTime", Js.field result "executionTime")].

Definition case_entry (testCase : JSValue) (o : Outcome JSValue) : JSValue * bool :=
  match o with
  | Throw err => (catch_entry testCase err, false)
  | Ok result =>
      match Js.call_trim (Js.or_else (Js.field testCase "expectedOutput") (Js.str "")) with
      | Throw err => (catch_entry testCase err, false)
      | Ok expectedOutput =>
          match Js.get_prop result "output" with
          | Throw err => (catch_entry testCase err, false)
          | Ok output =>
              match Js.call_trim (Js.or_else output (Js.str "")) with
              | Throw err => (catch_entry testCase err, false)
              | Ok actualOutput =>
                  let passed :=
                    Js.strict_eq actualOutput expectedOutput
                    && Js.strict_eq (Js.field result "exitCode") (JNum 0%float) in
                  (try_entry testCase result expectedOutput actualOutput passed, passed)
              end
          end
      end
  end.

(** The option object of the call made for a test case. *)
Definition case_options (testCase : JSValue) : JSValue :=
  JObj [("input", Js.or_else (Js.field testCase "input") (Js.str ""));
        ("timeout", JNum 10000%float)].

(** The entries of a whole grading run, the service starting in [w]. *)
Fixpoint grading_entries (code language : JSValue) (testCases : list JSValue) (w : World)
  : list (JSValue * bool) :=
  match testCases with
  | [] => []
  | testCase :: r =>
      case_entry testCase (fst (executeCode code language (case_options testCase) w))
      :: grading_entries code language r
           (snd (executeCode code language (case_options testCase) w))
  end.

(** [correctas] after [exam.preguntas.forEach(...)]. *)
Fixpoint count_correctas (respuestas : JSValue) (ps : list Db.Pregunta) (index : nat) : nat :=
  match ps with
  | [] => 0
  | pregunta :: r =>
      let respuestaEstudiante :=
        if Js.is_nullish respuestas then JUndefined else Js.opt_index respuestas index in
      (if negb (Js.strict_eq respuestaEstudiante JUndefined)
          && Js.strict_eq respuestaEstudiante (Db.correcta pregunta)
       then 1 else 0) + count_correctas respuestas r (S index)
  end.

Definition update_and_reply (attemptId : Z) (updateData : Db.UpdateData)
  : M St Response :=
  Eff.modify (fun s : St =>
                {| svc := svc s; calls := calls s;
                   db := Db.examAttempt_update attemptId updateData (db s);
                   locals := locals s |}) ;;;
  updatedAttempt <- Eff.gets (fun s : St => Db.examAttempt_findUnique attemptId (db s)) ;;
  match updatedAttempt with
  | Some a => Eff.ret (Http.json (attempt_value a))
  | None => Eff.throw (JObj [("name", Js.str "PrismaClientKnownRequestError");
                             ("message", Js.str "Record to update not found.")])
  end.

(** [exam.lenguajeProgramacion === 'python' ? 'main.py' : 'main.js']. *)
Definition mainFileName (exam : Db.Exam) : JsString.t :=
  if Js.strict_eq (Db.lenguajeProgramacion exam) (Js.str "python")
  then JsString.lit "main.py" else JsString.lit "main.js".

Definition finish_handler (req : Request) : M St Response :=
  let attemptId := parseInt (JStr (params_attemptId req)) in
  let userId := user_userId req in
  respuestas <- (reqBody req).["respuestas"] ;;
  codigoProgramacion <- (reqBody req).["codigoProgramacion"] ;;
  match attemptId with
  | None => Eff.ret (Http.respond 400 (JObj [("error", Msg.id_invalido)]))
  | Some attemptId =>
    Eff.try_catch
      (attempt <- Eff.gets (fun s : St => Db.examAttempt_findUnique attemptId (db s)) ;;
       match attempt with
       | None => Eff.ret (Http.respond 404 (JObj [("error", Msg.no_encontrado)]))
       | Some attempt =>
         if negb (Db.userId attempt =? userId)%Z then
           Eff.ret (Http.respond 403 (JObj [("error", Msg.no_autorizado)]))
         else if negb (JsString.eqb (Db.estado attempt) en_progreso) then
           Eff.ret (Http.respond 400 (JObj [("error", Msg.ya_finalizado)]))
         else
           let updateData :=
             {| Db.set_finishedAt := Some now; Db.set_estado := Some finalizado;
                Db.set_respuestas := None; Db.set_codigoProgramacion := None;
                Db.set_puntaje := None; Db.set_testResults := None |} in
           attempt_exam <- Eff.gets (fun s : St => Db.exam_findUnique (Db.examId attempt) (db s)) ;;
           match attempt_exam with
           | None => Eff.throw (Js.cannot_read JNull "tipo")
           | Some attempt_exam =>
             if JsString.eqb (Db.tipo attempt_exam) (JsString.lit "programming") then
               exam <- Eff.gets (fun s : St => Db.exam_findUnique (Db.examId attempt) (db s)) ;;
               match exam with
               | None => Eff.ret (Http.respond 404 (JObj [("error", Msg.examen_no_encontrado)]))
               | Some exam =>
                 mainFile <- Eff.gets (fun s : St =>
                               Db.examFile_findFirst (Db.examId attempt) userId
                                 (mainFileName exam) (JsString.lit "manual") (db s)) ;;
                 match mainFile with
                 | None =>
                     Eff.ret (Http.respond 400
                                (JObj [("error", Msg.debes_guardar (mainFileName exam))]))
                 | Some mainFile =>
                   let codigoParaEvaluar := Js.or_else (Db.content mainFile) (Js.str "") in
                   let updateData :=
                     {| Db.set_finishedAt := Db.set_finishedAt updateData;
                        Db.set_estado := Db.set_estado updateData;
                        Db.set_respuestas := Db.set_respuestas updateData;
                        Db.set_codigoProgramacion := Some codigoParaEvaluar;
                        Db.set_puntaje := Db.set_puntaje updateData;
                        Db.set_testResults := Db.set_testResults updateData |} in
                   if Js.truthy (Db.testCases exam) && Js.is_array (Db.testCases exam)
                      && Nat.ltb 0 (List.length (Js.array_items (Db.testCases exam))) then
                     set_locals (World := World)
                       (fun _ => {| testResults := []; testsPasados := 0 |}) ;;;
                     let totalTests := List.length (Js.array_items (Db.testCases exam)) in
                     Eff.for_of (Js.array_items (Db.testCases exam))
                       (grade_case codigoParaEvaluar (Db.lenguajeProgramacion exam)) ;;;
                     l <- Eff.gets (fun s : St => locals s) ;;
                     let puntajePorcentaje := Js.percent (testsPasados l) totalTests in
                     update_and_reply attemptId
                       {| Db.set_finishedAt := Db.set_finishedAt updateData;
                          Db.set_estado := Db.set_estado updateData;
                          Db.set_respuestas := Db.set_respuestas updateData;
                          Db.set_codigoProgramacion := Db.set_codigoProgramacion updateData;
                          Db.set_puntaje := Some (JNum puntajePorcentaje);
                          Db.set_testResults := Some (JArr (testResults l)) |}
                   else update_and_reply attemptId updateData
                 end
               end
             else if JsString.eqb (Db.tipo attempt_exam) (JsString.lit "multiple_choice") then
               let updateData :=
                 {| Db.set_finishedAt := Db.set_finishedAt updateData;
                    Db.set_estado := Db.set_estado updateData;
                    Db.set_respuestas := Some (Js.or_else respuestas (JObj []));
                    Db.set_codigoProgramacion := Db.set_codigoProgramacion updateData;
                    Db.set_puntaje := Db.set_puntaje updateData;
                    Db.set_testResults := Db.set_testResults updateData |} in
               exam <- Eff.gets (fun s : St => Db.exam_findUnique (Db.examId attempt) (db s)) ;;
               preguntas <- Eff.gets (fun s : St => Db.exam_preguntas (Db.examId attempt) (db s)) ;;
               match exam with
               | Some _ =>
                 if Nat.ltb 0 (List.length preguntas) then
                   let correctas := count_correctas respuestas preguntas 0 in
                   let totalPreguntas := List.length preguntas in
                   let puntaje := Js.percent correctas totalPreguntas in
                   update_and_reply attemptId
                     {| Db.set_finishedAt := Db.set_finishedAt updateData;
                        Db.set_estado := Db.set_estado updateData;
                        Db.set_respuestas := Db.set_respuestas updateData;
                        Db.set_codigoProgramacion := Db.set_codigoProgramacion updateData;
                        Db.set_puntaje := Some (JNum puntaje);
                        Db.set_testResults := Db.set_testResults updateData |}
                 else update_and_reply attemptId updateData
               | None => update_and_reply attemptId updateData
               end
             else update_and_reply attemptId updateData
           end
       end)
      (fun error =>
         Eff.ret (Http.respond 500 (JObj [("error", Msg.error_finalizando)])))
  end.

(** A finish request of the owner [req] on the in-progress attempt
    [attempt] of the programming exam [exam]. *)
Definition programming_finish (req : Request) (d : Db.t)
    (attemptId : Z) (attempt : Db.ExamAttempt) (exam : Db.Exam) : Prop :=
  Js.is_nullish (reqBody req) = false /\
  parseInt (JStr (params_attemptId req)) = Some attemptId /\
  Db.examAttempt_findUnique attemptId d = Some attempt /\
  Db.userId attempt = user_userId req /\
  Db.estado attempt = en_progreso /\
  Db.exam_findUnique (Db.examId attempt) d = Some exam /\
  Db.tipo exam = JsString.lit "programming".

(** The files of the student for the exam that carry the main
    file's name and the version [manual]. *)
Definition saved_main_files (req : Request) (exam : Db.Exam) (attempt : Db.ExamAttempt)
    (d : Db.t) : list Db.ExamFile :=
  filter (fun f => (Db.file_examId f =? Db.examId attempt)%Z
                   && (Db.file_userId f =? user_userId req)%Z
                   && JsString.eqb (Db.filename f) (mainFileName exam)
                   && JsString.eqb (Db.version f) (JsString.lit "manual"))
         (Db.examFiles d).

(** [updateData] of a graded attempt whose grading left the entries
    [entries] for [totalTests] test cases. *)
Definition graded_update (codigoParaEvaluar : JSValue) (entries : list JSValue)
    (totalTests : nat) : Db.UpdateData :=
  {| Db.set_finishedAt := Some now;
     Db.set_estado := Some finalizado;
     Db.set_respuestas := None;
     Db.set_codigoProgramacion := Some codigoParaEvaluar;
     Db.set_puntaje := Some (JNum (Js.percent (Js.count_passed entries) totalTests));
     Db.set_testResults := Some (JArr entries) |}.

End Handlers.

End ExamAttemptRoute.

(** ** [examAttempt.route.ts]: PUT /exam-attempts/:attemptId/save-code *)

Module SaveCodeRoute.

Import ExamAttemptRoute.

Module Msg.

Definition solo_programacion : JSValue :=
  JStr (JsString.lit "Esta ruta es solo para ex" ++ [225%N] ++ JsString.lit "menes de programaci"
        ++ [243%N] ++ JsString.lit "n").

Definition guardado : JSValue :=
  JStr (JsString.lit "C" ++ [243%N] ++ JsString.lit "digo guardado exitosamente").

Definition error_guardando : JSValue :=
  JStr (JsString.lit "Error guardando c" ++ [243%N] ++ JsString.lit "digo").

End Msg.

(** [data: { codigoProgramacion }] as the client reads it for the
    optional string column: [undefined] sets nothing, a string or
    [null] is written, any other value is refused by the client's
    validation of the query. *)
Definition code_update (codigoProgramacion : JSValue) : Outcome Db.UpdateData :=
  let set (c : option JSValue) :=
    {| Db.set_finishedAt := None; Db.set_estado := None; Db.set_respuestas := None;
       Db.set_codigoProgramacion := c; Db.set_puntaje := None;
       Db.set_testResults := None |} in
  match codigoProgramacion with
  | JUndefined => Ok (set None)
  | JStr _ | JNull => Ok (set (Some codigoProgramacion))
  | _ => Throw (JObj [("name", Js.str "PrismaClientValidationError");
                      ("message", Js.str "Invalid value for argument codigoProgramacion")]%string)
  end.

Section Handlers.

Variable World : Type.

(** [parseInt], a built-in: [None] stands for [NaN]. *)
Variable parseInt : JSValue -> option Z.

Local Open Scope eff_scope.
Local Open Scope string_scope.

Abbreviation St := (State World Locals).

Definition save_code_handler (req : Request) : M St Response :=
  let attemptId := parseInt (JStr (params_attemptId req)) in
  let userId := user_userId req in
  codigoProgramacion <- prop (World := World) (L := Locals) (reqBody req) "codigoProgramacion" ;;
  match attemptId with
  | None => Eff.ret (Http.respond 400 (JObj [("error", ExamAttemptRoute.Msg.id_invalido)]))
  | Some attemptId =>
    Eff.try_catch
      (attempt <- Eff.gets (fun s : St => Db.examAttempt_findUnique attemptId (db s)) ;;
       match attempt with
       | None =>
           Eff.ret (Http.respond 404 (JObj [("error", ExamAttemptRoute.Msg.no_encontrado)]))
       | Some attempt =>
         if negb (Db.userId attempt =? userId)%Z then
           Eff.ret (Http.respond 403 (JObj [("error", ExamAttemptRoute.Msg.no_autorizado)]))
         else if negb (JsString.eqb (Db.estado attempt) en_progreso) then
           Eff.ret (Http.respond 400 (JObj [("error", ExamAttemptRoute.Msg.ya_finalizado)]))
         else
           attempt_exam <- Eff.gets (fun s : St =>
                             Db.exam_findUnique (Db.examId attempt) (db s)) ;;
           match attempt_exam with
           | None => Eff.throw (Js.cannot_read JNull "tipo")
           | Some attempt_exam =>
             if negb (JsString.eqb (Db.tipo attempt_exam) (JsString.lit "programming")) then
               Eff.ret (Http.respond 400 (JObj [("error", Msg.solo_programacion)]))
             else
               data <- Eff.eval (code_update codigoProgramacion) ;;
               Eff.modify (fun s : St =>
                             {| svc := svc s; calls := calls s;
                                db := Db.examAttempt_update attemptId data (db s);
                                locals := locals s |}) ;;;
               updatedAttempt <- Eff.gets (fun s : St =>
                                   Db.examAttempt_findUnique attemptId (db s)) ;;
               match updatedAttempt with
               | Some a =>
                   Eff.ret (Http.json (JObj [("message", Msg.guardado);
                                             ("attempt", attempt_value a)]))
               | None =>
                   Eff.throw (JObj [("name", Js.str "PrismaClientKnownRequestError");
                                    ("message", Js.str "Record to update not found.")])
               end
           end
       end)
      (fun error =>
         Eff.ret (Http.respond 500 (JObj [("error", Msg.error_guardando)])))
  end.

End Handlers.

End SaveCodeRoute.

(** ** What a handler may end with *)

Module Answer.

(** A computation that, when it throws, throws an error value. *)
Definition throws_only_errors {S A : Type} (m : M S A) : Prop :=
  forall s e, fst (m s) = Throw e -> Js.is_nullish e = false.

(** A handler body that answers with one of the status codes [codes],
    or throws an error value. *)
Definition answers {S : Type} (codes : list Z) (m : M S Response) : Prop :=
  forall s,
    match fst (m s) with
    | Ok r => In (status r) codes
    | Throw e => Js.is_nullish e = false
    end.

(** A handler body whose answers, when it gives one, carry one of the
    status codes [codes]. *)
Definition answers_within {S : Type} (codes : list Z) (m : M S Response) : Prop :=
  forall s r, fst (m s) = Ok r -> In (status r) codes.

(** A computation that leaves the database as it found it, whether
    it returns or throws. *)
Definition keeps_db {World L A : Type} (m : M (State World L) A) : Prop :=
  forall s, db (snd (m s)) = db s.

(** [validateSyntax] rejects with error values, as [throws_errors]
    says of [executeCode]. *)
Definition validate_throws_errors {World : Type}
    (validateSyntax : JSValue -> JSValue -> World -> Outcome JSValue * World) : Prop :=
  forall code language w e,
    fst (validateSyntax code language w) = Throw e -> Js.is_nullish e = false.

End Answer.

(** ** Concrete runs *)

(** A service whose state counts the calls made on it, two small
    programs for it, and a database with one programming exam, used to
    run the handlers on explicit requests. *)
Module Scenario.

Local Open Scope string_scope.

Definition World : Type := nat.

Definition result (output : JsString.t) (error : JSValue) (exitCode : float) : JSValue :=
  JObj [("output", JStr output); ("error", error); ("exitCode", JNum exitCode);
        ("executionTime", JNum 3%float)].

Definition error_object (message : string) : JSValue :=
  JObj [("name", Js.str "Error"); ("message", Js.str message)].

(** [print(input())]: the input comes back, followed by a newline. *)
Definition echo (code language options : JSValue) (w : World) : Outcome JSValue * World :=
  (Ok (result ((match Js.field options "input" with JStr i => i | _ => [] end)
                 ++ [10%N])%list
              JNull 0%float),
   S w).

(** The same program on an engine whose second call fails. *)
Definition flaky (code language options : JSValue) (w : World) : Outcome JSValue * World :=
  match w with
  | 1 => (Throw (error_object "spawn failed"), S w)
  | _ => echo code language options w
  end.

(** A program that prints [2] and then crashes: exit code 1. *)
Definition crashing (code language options : JSValue) (w : World)
  : Outcome JSValue * World :=
  (Ok (result (JsString.lit "2" ++ [10%N])%list (Js.str "Traceback (most recent call last)")
              1%float),
   S w).

Definition validator (code language : JSValue) (w : World) : Outcome JSValue * World :=
  (Ok (JObj [("valid", JBool true); ("errors", JArr [])]), S w).

(** [parseInt] on a numeral of decimal digits. *)
Fixpoint digits (acc : Z) (s : JsString.t) : option Z :=
  match s with
  | [] => Some acc
  | c :: r => if ((48 <=? c) && (c <=? 57))%N
              then digits (10 * acc + Z.of_N (c - 48)) r else None
  end.

Definition parseInt (v : JSValue) : option Z :=
  match v with
  | JStr (c :: r) => digits 0 (c :: r)
  | _ => None
  end.

Definition testCase (input expectedOutput : string) : JSValue :=
  JObj [("input", Js.str input); ("expectedOutput", Js.str expectedOutput)].

Definition three_cases : list JSValue :=
  [testCase "a" "a"; testCase "b" "c"; testCase "d" "d"].

Definition exam7 : Db.Exam :=
  {| Db.exam_id := 7; Db.tipo := JsString.lit "programming";
     Db.lenguajeProgramacion := Js.str "python";
     Db.testCases := JArr three_cases |}.

Definition attempt1 : Db.ExamAttempt :=
  {| Db.id := 1; Db.userId := 10; Db.examId := 7;
     Db.estado := JsString.lit "en_progreso"; Db.finishedAt := None;
     Db.respuestas := JObj []; Db.codigoProgramacion := JNull;
     Db.puntaje := JNull; Db.testResults := JNull |}.

Definition file (name version content : string) (updatedAt : Z) : Db.ExamFile :=
  {| Db.file_examId := 7; Db.file_userId := 10;
     Db.filename := JsString.lit name; Db.version := JsString.lit version;
     Db.content := Js.str content; Db.updatedAt := updatedAt |}.

Definition old_main : Db.ExamFile := file "main.py" "manual" "print(1)" 100.
Definition new_main : Db.ExamFile := file "main.py" "manual" "print(input())" 200.
Definition auto_main : Db.ExamFile := file "main.py" "auto" "print(0)" 300.

Definition database (files : list Db.ExamFile) : Db.t :=
  {| Db.exams := [exam7]; Db.preguntas := []; Db.examFiles := files;
     Db.examAttempts := [attempt1] |}.

Definition start {L : Type} (d : Db.t) (l : L) : State World L :=
  {| svc := 0; calls := []; db := d; locals := l |}.

Definition route_start : State World CodeExecutionRoute.Locals :=
  start (database [])
    {| CodeExecutionRoute.testResults := []; CodeExecutionRoute.passedTests := 0 |}.

Definition finish_start (files : list Db.ExamFile) : State World ExamAttemptRoute.Locals :=
  start (database files)
    {| ExamAttemptRoute.testResults := []; ExamAttemptRoute.testsPasados := 0 |}.

(** The [testResults] of the answer a handler run ended with. *)
Definition answered_entries {S : Type} (run : Outcome Response * S) : list JSValue :=
  match fst run with
  | Ok resp => Js.array_items (Js.field (body resp) "testResults")
  | Throw _ => []
  end.

(** Request bodies. *)
Definition batch_body (code : string) (testCases : list JSValue) : JSValue :=
  JObj [("code", Js.str code); ("language", Js.str "python");
        ("testCases", JArr testCases)].

Definition custom_body (code language customInput : string) : JSValue :=
  JObj [("code", Js.str code); ("language", Js.str language);
        ("testCases", JArr three_cases); ("customInput", Js.str customInput)].

Definition plain_body (code language : string) : JSValue :=
  JObj [("code", Js.str code); ("language", Js.str language)].

Definition finish_request : ExamAttemptRoute.Request :=
  {| ExamAttemptRoute.params_attemptId := JsString.lit "1";
     ExamAttemptRoute.user_userId := 10;
     ExamAttemptRoute.reqBody := JObj [("codigoProgramacion", Js.str "print(42)")] |}.

End Scenario.

(** A second database for the attempt routes: besides the programming
    exam 7, a multiple-choice exam with three questions and a
    programming exam without test cases, each with an attempt in
    progress of student 10. *)
Module Campus.

Local Open Scope string_scope.

Definition quiz : Db.Exam :=
  {| Db.exam_id := 8; Db.tipo := JsString.lit "multiple_choice";
     Db.lenguajeProgramacion := JNull; Db.testCases := JNull |}.

Definition ungraded : Db.Exam :=
  {| Db.exam_id := 9; Db.tipo := JsString.lit "programming";
     Db.lenguajeProgramacion := Js.str "javascript"; Db.testCases := JArr [] |}.

Definition pregunta (correcta : nat) : Db.Pregunta :=
  {| Db.pregunta_examId := 8; Db.correcta := JNum (Js.num_of_nat correcta) |}.

Definition attempt (id examId : Z) : Db.ExamAttempt :=
  {| Db.id := id; Db.userId := 10; Db.examId := examId;
     Db.estado := JsString.lit "en_progreso"; Db.finishedAt := None;
     Db.respuestas := JObj []; Db.codigoProgramacion := JNull;
     Db.puntaje := JNull; Db.testResults := JNull |}.

Definition main_js : Db.ExamFile :=
  {| Db.file_examId := 9; Db.file_userId := 10;
     Db.filename := JsString.lit "main.js"; Db.version := JsString.lit "manual";
     Db.content := Js.str "console.log(1)"; Db.updatedAt := 50 |}.

Definition database : Db.t :=
  {| Db.exams := [Scenario.exam7; quiz; ungraded];
     Db.preguntas := [pregunta 2; pregunta 0; pregunta 1];
     Db.examFiles := [Scenario.new_main; main_js];
     Db.examAttempts := [Scenario.attempt1; attempt 2 8; attempt 3 9] |}.

Definition start : State Scenario.World ExamAttemptRoute.Locals :=
  Scenario.start database
    {| ExamAttemptRoute.testResults := []; ExamAttemptRoute.testsPasados := 0 |}.

Definition route_start : State Scenario.World CodeExecutionRoute.Locals :=
  Scenario.start database
    {| CodeExecutionRoute.testResults := []; CodeExecutionRoute.passedTests := 0 |}.

Definition request (attemptId : string) (userId : Z) (body : JSValue)
  : ExamAttemptRoute.Request :=
  {| ExamAttemptRoute.params_attemptId := JsString.lit attemptId;
     ExamAttemptRoute.user_userId := userId;
     ExamAttemptRoute.reqBody := body |}.

(** [{ respuestas: [...] }], the chosen option of each question. *)
Definition answers (chosen : list nat) : JSValue :=
  JObj [("respuestas", JArr (map (fun n => JNum (Js.num_of_nat n)) chosen))].

(** A /run body that names an exam. *)
Definition run_body (examId input : string) : JSValue :=
  JObj [("code", Js.str "print(input())"); ("language", Js.str "python");
        ("examId", Js.str examId); ("input", Js.str input)].

(** The answer of a run, or an empty answer when it threw. *)
Definition answer_of {S : Type} (run : Outcome Response * S) : Response :=
  match fst run with
  | Ok r => r
  | Throw _ => {| status := 0; body := JUndefined |}
  end.

End Campus.

(** ** What a client receives *)

Module Wire.

(** A property whose value is [undefined] is left out by
    [JSON.stringify]; every other value is written. *)
Definition kept (v : JSValue) : bool :=
  match v with JUndefined => false | _ => true end.

(** What [JSON.stringify] keeps of a value, read back by [JSON.parse]:
    the payload of [res.json] as the client receives it, and a value
    written to a Json column as it is stored.  A property holding
    [undefined] is dropped; inside an array [undefined] becomes [null];
    [NaN] and the infinities become [null]; [-0] is written [0]. *)
Fixpoint to_json (v : JSValue) : JSValue :=
  match v with
  | JUndefined => JNull
  | JNum x =>
      if PrimFloat.is_nan x || PrimFloat.is_infinity x then JNull
      else if PrimFloat.is_zero x then JNum 0%float else JNum x
  | JArr items => JArr (map to_json items)
  | JObj props =>
      JObj ((fix keep (ps : list (string * JSValue)) : list (string * JSValue) :=
               match ps with
               | [] => []
               | (k, x) :: r => if kept x then (k, to_json x) :: keep r else keep r
               end) props)
  | _ => v
  end.

(** The properties of an object that are written. *)
Fixpoint keep (ps : list (string * JSValue)) : list (string * JSValue) :=
  match ps with
  | [] => []
  | (k, x) :: r => if kept x then (k, to_json x) :: keep r else keep r
  end.

(** The payload of an answer, as received. *)
Definition sent (r : Response) : JSValue := to_json (body r).

(** The [testResults] of the answer a handler run ended with, as
    received. *)
Definition sent_entries {S : Type} (run : Outcome Response * S) : list JSValue :=
  match fst run with
  | Ok resp => Js.array_items (Js.field (sent resp) "testResults")
  | Throw _ => []
  end.

End Wire.

(** ** White space around a string *)

Module Padding.



End Padding.

(** Runs outside the data model: an engine that rejects with [null],
    and results that carry only part of their fields. *)
Module Probe.

Local Open Scope string_scope.

(** The engine of [Scenario.echo], whose second call rejects with
    [null] instead of an error object. *)
Definition mute (code language options : JSValue) (w : Scenario.World)
  : Outcome JSValue * Scenario.World :=
  match w with
  | 1 => (Throw JNull, S w)
  | _ => Scenario.echo code language options w
  end.

(** An engine whose results carry [output] and [exitCode] only, as the
    test double of [test/examAttempt.test.js] does. *)
Definition terse (code language options : JSValue) (w : Scenario.World)
  : Outcome JSValue * Scenario.World :=
  (Ok (JObj [("output", Js.str ""); ("exitCode", JNum 0%float)]), S w).

(** The status of the answer a run ended with, if it ended with one. *)
Definition status_of {S : Type} (run : Outcome Response * S) : option Z :=
  match fst run with
  | Ok r => Some (status r)
  | Throw _ => None
  end.

End Probe.

(** * Properties *)

Unset Implicit Arguments.

(** ** JavaScript strings and values *)

Module JsFacts.

Lemma eqb_eq (a b : JsString.t) : JsString.eqb a b = true <-> a = b.
Proof.
  unfold JsString.eqb. destruct (list_eq_dec N.eq_dec a b); split; congruence.
Qed.

Lemma eqb_refl (a : JsString.t) : JsString.eqb a a = true.
Proof. now apply eqb_eq. Qed.








Lemma get_prop_field (v : JSValue) :
  Js.is_nullish v = false -> forall k, Js.get_prop v k = Ok (Js.field v k).
Proof. destruct v; simpl; intros H k; try discriminate; reflexivity. Qed.

Lemma get_prop_ok (v x : JSValue) (k : string) :
  Js.get_prop v k = Ok x -> Js.is_nullish v = false /\ x = Js.field v k.
Proof. destruct v; simpl; intros H; try discriminate; inversion H; auto. Qed.

Lemma get_prop_throw (v e : JSValue) (k : string) :
  Js.get_prop v k = Throw e -> Js.is_nullish e = false.
Proof. destruct v; simpl; intros H; try discriminate; inversion H; reflexivity. Qed.

Lemma opt_trim_throw (v e : JSValue) :
  Js.opt_trim v = Throw e -> Js.is_nullish e = false.
Proof.
  unfold Js.opt_trim.
  destruct v; simpl; intros H; try discriminate; inversion H; reflexivity.
Qed.

Lemma call_trim_throw (v e : JSValue) :
  Js.call_trim v = Throw e -> Js.is_nullish e = false.
Proof. destruct v; simpl; intros H; try discriminate; inversion H; reflexivity. Qed.

Lemma nth_error_lt {A : Type} (l : list A) (i : nat) (x : A) :
  nth_error l i = Some x -> i < List.length l.
Proof. intros H. apply nth_error_Some. rewrite H. discriminate. Qed.

End JsFacts.

(** ** The batch branch of POST /code-execution/execute *)

Module CodeExecutionFacts.

Import CodeExecutionRoute.

Section Batch.

Variable World : Type.
Variable executeCode : JSValue -> JSValue -> JSValue -> World -> Outcome JSValue * World.

Abbreviation St := (State World Locals).

(** One iteration: the call is made, the entry of [case_entry] is
    appended, and the counter moves exactly when it says passed. *)
Lemma execute_case_run (code language testCase : JSValue) (s : St) :
  Js.is_nullish testCase = false ->
  (forall e, fst (executeCode code language (case_options testCase) (svc s)) = Throw e ->
             Js.is_nullish e = false) ->
  execute_case executeCode code language testCase s =
  (Ok tt,
   {| svc := snd (executeCode code language (case_options testCase) (svc s));
      calls := calls s ++ [ExecuteCode code language (case_options testCase)];
      db := db s;
      locals :=
        let r := case_entry testCase
                   (fst (executeCode code language (case_options testCase) (svc s))) in
        {| testResults := testResults (locals s) ++ [fst r];
           passedTests := passedTests (locals s) + (if snd r then 1 else 0) |} |}).
Proof.
  intros Htc Herr.
  unfold execute_case, output_matches, Eff.try_catch, Eff.bind, prop, Eff.eval,
    await_executeCode, push, increment_passedTests, set_locals, Eff.modify, Eff.ret.
  rewrite !(JsFacts.get_prop_field _ Htc).
  unfold case_options in *.
  destruct (executeCode code language
              (options (Js.or_else (Js.field testCase "input") (Js.str ""))) (svc s))
    as [o w] eqn:E.
  simpl in Herr. simpl fst. simpl snd.
  destruct o as [result|err].
  - unfold case_entry.
    destruct (Js.get_prop result "output") as [output|e1] eqn:E1.
    + apply JsFacts.get_prop_ok in E1 as E1'. destruct E1' as [Hr _].
      destruct (Js.opt_trim output) as [actual|e2] eqn:E2.
      * destruct (Js.opt_trim (Js.field testCase "expectedOutput")) as [expected|e3] eqn:E3.
        -- rewrite !(JsFacts.get_prop_field _ Hr).
           destruct (Js.strict_eq actual expected); simpl;
             rewrite ?E1, ?E2; simpl; rewrite ?Nat.add_0_r, ?Nat.add_1_r; reflexivity.
        -- apply JsFacts.opt_trim_throw in E3.
           rewrite (JsFacts.get_prop_field _ E3). simpl.
           rewrite Nat.add_0_r. reflexivity.
      * apply JsFacts.opt_trim_throw in E2.
        rewrite (JsFacts.get_prop_field _ E2). simpl.
        rewrite Nat.add_0_r. reflexivity.
    + apply JsFacts.get_prop_throw in E1.
      rewrite (JsFacts.get_prop_field _ E1). simpl.
      rewrite Nat.add_0_r. reflexivity.
  - rewrite (JsFacts.get_prop_field _ (Herr err eq_refl)). simpl.
    rewrite Nat.add_0_r. reflexivity.
Qed.

Lemma case_entry_passed (testCase : JSValue) (o : Outcome JSValue) :
  Js.field (fst (case_entry testCase o)) "passed" = JBool (snd (case_entry testCase o)).
Proof.
  unfold case_entry.
  destruct o as [result|err]; [|reflexivity].
  destruct (Js.get_prop result "output"); [|reflexivity].
  destruct (Js.opt_trim a); [|reflexivity].
  destruct (Js.opt_trim (Js.field testCase "expectedOutput")); reflexivity.
Qed.

Lemma count_passed_cons (testCase : JSValue) (o : Outcome JSValue) (l : list JSValue) :
  Js.count_passed (fst (case_entry testCase o) :: l) =
  (if snd (case_entry testCase o) then 1 else 0) + Js.count_passed l.
Proof.
  unfold Js.count_passed. simpl filter. rewrite case_entry_passed.
  destruct (snd (case_entry testCase o)); reflexivity.
Qed.

Lemma for_of_run (code language : JSValue) (testCases : list JSValue) :
  throws_errors executeCode ->
  Forall (fun testCase => Js.is_nullish testCase = false) testCases ->
  forall s : St,
  Eff.for_of testCases (execute_case executeCode code language) s =
  (Ok tt,
   {| svc := world_after executeCode code language (map case_options testCases) (svc s);
      calls := calls s ++ map (ExecuteCode code language) (map case_options testCases);
      db := db s;
      locals :=
        let entries := batch_entries executeCode code language testCases (svc s) in
        {| testResults := testResults (locals s) ++ map fst entries;
           passedTests := passedTests (locals s) + Js.count_passed (map fst entries) |} |}).
Proof.
  intros Hthrow Hall. induction Hall as [|testCase r Htc _ IH]; intros s.
  - simpl. unfold Eff.ret, Js.count_passed. simpl.
    rewrite !app_nil_r, Nat.add_0_r. destruct s as [w c d [rs n]]. reflexivity.
  - simpl Eff.for_of. unfold Eff.bind.
    rewrite execute_case_run;
      [ | exact Htc | intros e He; exact (Hthrow _ _ _ _ _ He) ].
    rewrite IH. cbn [svc calls db locals testResults passedTests batch_entries map].
    rewrite count_passed_cons, <- !app_assoc, Nat.add_assoc. reflexivity.
Qed.

Lemma strict_eq_undefined (v : JSValue) :
  Js.is_nullish v = true ->
  negb (Js.strict_eq v JUndefined) && negb (Js.strict_eq v JNull) = false.
Proof. destruct v; simpl; intros H; try discriminate; reflexivity. Qed.

Lemma strict_eq_present (v : JSValue) :
  Js.is_nullish v = false ->
  negb (Js.strict_eq v JUndefined) && negb (Js.strict_eq v JNull) = true.
Proof. destruct v; simpl; intros H; try discriminate; reflexivity. Qed.

Lemma includes_truthy (language : JSValue) :
  Js.includes supported language = true -> Js.truthy language = true.
Proof.
  unfold Js.includes, supported. simpl.
  destruct language; simpl; try discriminate.
  destruct s; [discriminate | reflexivity].
Qed.

(** The whole handler on a request that reaches the batch branch. *)
Lemma execute_handler_batch (reqBody code language : JSValue) (testCases : list JSValue)
    (s : St) :
  batch_request reqBody code language testCases ->
  throws_errors executeCode ->
  Forall (fun testCase => Js.is_nullish testCase = false) testCases ->
  execute_handler executeCode reqBody s =
  (let entries := batch_entries executeCode code language testCases (svc s) in
   let testResults := map fst entries in
   let passedTests := Js.count_passed testResults in
   (Ok (Http.json
          (JObj [("success", JBool true);
                 ("score", JNum (Js.percent passedTests (List.length testCases)));
                 ("passedTests", JNum (Js.num_of_nat passedTests));
                 ("totalTests", JNum (Js.num_of_nat (List.length testCases)));
                 ("testResults", JArr testResults)]%string)),
    {| svc := world_after executeCode code language (map case_options testCases) (svc s);
       calls := calls s ++ map (ExecuteCode code language) (map case_options testCases);
       db := db s;
       locals := {| CodeExecutionRoute.testResults := testResults;
                    CodeExecutionRoute.passedTests := passedTests |} |})).
Proof.
  intros (Hcode & Hlang & Tcode & Tlang & Hci & Htcs & Hne) Hthrow Hall.
  destruct (JsFacts.get_prop_ok _ _ _ Hcode) as [Hbody ->].
  destruct (JsFacts.get_prop_ok _ _ _ Hlang) as [_ ->].
  unfold execute_handler, Eff.try_catch, Eff.bind at 1 2 3 4 5, prop, Eff.eval.
  rewrite !(JsFacts.get_prop_field _ Hbody).
  rewrite Tcode, (includes_truthy _ Tlang), Tlang, (strict_eq_undefined _ Hci), Htcs.
  cbn [negb orb andb Js.truthy Js.is_array Js.array_items].
  destruct testCases as [|t0 r]; [congruence|].
  cbn [List.length Nat.ltb Nat.leb].
  unfold Eff.bind, set_locals, Eff.modify, Eff.gets, Eff.ret.
  rewrite for_of_run by assumption.
  reflexivity.
Qed.

Lemma batch_entries_length (code language : JSValue) (testCases : list JSValue) (w : World) :
  List.length (batch_entries executeCode code language testCases w) = List.length testCases.
Proof.
  revert w. induction testCases as [|testCase r IH]; intros w; simpl; [reflexivity|].
  now rewrite IH.
Qed.

(** The [i]-th entry is the entry of the [i]-th test case and of the
    completion of the [i]-th call. *)
Lemma batch_entries_nth (code language : JSValue) (testCases : list JSValue) (w : World)
    (i : nat) (testCase : JSValue) :
  nth_error testCases i = Some testCase ->
  exists o,
    nth_error (completions executeCode code language (map case_options testCases) w) i
    = Some o
    /\ nth_error (map fst (batch_entries executeCode code language testCases w)) i
       = Some (fst (case_entry testCase o)).
Proof.
  revert w i. induction testCases as [|t0 r IH]; intros w i H.
  - destruct i; discriminate.
  - destruct i as [|i]; simpl in H.
    + inversion H; subst t0. eexists; split; reflexivity.
    + simpl. apply IH. exact H.
Qed.

Lemma completions_length (code language : JSValue) (opts : list JSValue) (w : World) :
  List.length (completions executeCode code language opts w) = List.length opts.
Proof.
  revert w. induction opts as [|o r IH]; intros w; simpl; [reflexivity|].
  now rewrite IH.
Qed.

(** An entry repeats the input and the expected output of its test
    case, whichever branch built it. *)
Lemma case_entry_echoes (testCase : JSValue) (o : Outcome JSValue) :
  Js.field (fst (case_entry testCase o)) "input" = Js.field testCase "input"
  /\ Js.field (fst (case_entry testCase o)) "expectedOutput"
     = Js.field testCase "expectedOutput".
Proof.
  unfold case_entry.
  destruct o as [result|err]; [|split; reflexivity].
  destruct (Js.get_prop result "output"); [|split; reflexivity].
  destruct (Js.opt_trim a); [|split; reflexivity].
  destruct (Js.opt_trim (Js.field testCase "expectedOutput")); split; reflexivity.
Qed.

Lemma skipn_calls {A : Type} (a b : list A) : skipn (List.length a) (a ++ b) = b.
Proof. induction a as [|x a IH]; simpl; [reflexivity | exact IH]. Qed.

End Batch.

End CodeExecutionFacts.

(** ** The grading loop of PUT /exam-attempts/:attemptId/finish *)

Module ExamAttemptFacts.

Import ExamAttemptRoute.

Section Grading.

Variable World : Type.
Variable executeCode : JSValue -> JSValue -> JSValue -> World -> Outcome JSValue * World.
Variable parseInt : JSValue -> option Z.
Variable now : Z.

Abbreviation St := (State World Locals).

Lemma grade_entry_passed (testCase : JSValue) (o : Outcome JSValue) :
  Js.field (fst (case_entry testCase o)) "passed" = JBool (snd (case_entry testCase o)).
Proof.
  unfold case_entry.
  destruct o as [result|err]; [|reflexivity].
  destruct (Js.call_trim _); [|reflexivity].
  destruct (Js.get_prop result "output"); [|reflexivity].
  destruct (Js.call_trim _); reflexivity.
Qed.

Lemma grade_count_cons (testCase : JSValue) (o : Outcome JSValue) (l : list JSValue) :
  Js.count_passed (fst (case_entry testCase o) :: l) =
  (if snd (case_entry testCase o) then 1 else 0) + Js.count_passed l.
Proof.
  unfold Js.count_passed. simpl filter. rewrite grade_entry_passed.
  destruct (snd (case_entry testCase o)); reflexivity.
Qed.

(** One iteration of the grading loop. *)
Lemma grade_case_run (code language testCase : JSValue) (s : St) :
  Js.is_nullish testCase = false ->
  (forall e, fst (executeCode code language (case_options testCase) (svc s)) = Throw e ->
             Js.is_nullish e = false) ->
  grade_case executeCode code language testCase s =
  (Ok tt,
   {| svc := snd (executeCode code language (case_options testCase) (svc s));
      calls := calls s ++ [ExecuteCode code language (case_options testCase)];
      db := db s;
      locals :=
        let r := case_entry testCase
                   (fst (executeCode code language (case_options testCase) (svc s))) in
        {| testResults := testResults (locals s) ++ [fst r];
           testsPasados := testsPasados (locals s) + (if snd r then 1 else 0) |} |}).
Proof.
  intros Htc Herr.
  unfold grade_case, trimmed_expected, trimmed_actual, case_passed,
    Eff.try_catch, Eff.bind, prop, Eff.eval,
    await_executeCode, push, increment_testsPasados, set_locals, Eff.modify, Eff.ret.
  rewrite !(JsFacts.get_prop_field _ Htc).
  unfold case_options in *.
  destruct (executeCode code language
              (JObj [("input"%string, Js.or_else (Js.field testCase "input") (Js.str ""));
                     ("timeout"%string, JNum 10000%float)]) (svc s))
    as [o w] eqn:E.
  simpl in Herr. simpl fst. simpl snd.
  destruct o as [result|err].
  - unfold case_entry.
    destruct (Js.call_trim (Js.or_else (Js.field testCase "expectedOutput") (Js.str "")))
      as [expectedOutput|e1] eqn:E1.
    + destruct (Js.get_prop result "output") as [output|e2] eqn:E2.
      * apply JsFacts.get_prop_ok in E2 as E2'. destruct E2' as [Hr _].
        destruct (Js.call_trim (Js.or_else output (Js.str ""))) as [actualOutput|e3] eqn:E3.
        -- rewrite !(JsFacts.get_prop_field _ Hr).
           destruct (Js.strict_eq actualOutput expectedOutput); simpl;
             [destruct (Js.strict_eq (Js.field result "exitCode") (JNum 0%float)); simpl|];
             rewrite ?Nat.add_0_r, ?Nat.add_1_r; reflexivity.
        -- apply JsFacts.call_trim_throw in E3.
           rewrite (JsFacts.get_prop_field _ E3). simpl.
           rewrite Nat.add_0_r. reflexivity.
      * apply JsFacts.get_prop_throw in E2.
        rewrite (JsFacts.get_prop_field _ E2). simpl.
        rewrite Nat.add_0_r. reflexivity.
    + apply JsFacts.call_trim_throw in E1.
      rewrite (JsFacts.get_prop_field _ E1). simpl.
      rewrite Nat.add_0_r. reflexivity.
  - rewrite (JsFacts.get_prop_field _ (Herr err eq_refl)). simpl.
    rewrite Nat.add_0_r. reflexivity.
Qed.

Lemma grading_run (code language : JSValue) (testCases : list JSValue) :
  throws_errors executeCode ->
  Forall (fun testCase => Js.is_nullish testCase = false) testCases ->
  forall s : St,
  Eff.for_of testCases (grade_case executeCode code language) s =
  (Ok tt,
   {| svc := world_after executeCode code language (map case_options testCases) (svc s);
      calls := calls s ++ map (ExecuteCode code language) (map case_options testCases);
      db := db s;
      locals :=
        let entries := grading_entries executeCode code language testCases (svc s) in
        {| testResults := testResults (locals s) ++ map fst entries;
           testsPasados := testsPasados (locals s) + Js.count_passed (map fst entries) |} |}).
Proof.
  intros Hthrow Hall. induction Hall as [|testCase r Htc _ IH]; intros s.
  - simpl. unfold Eff.ret, Js.count_passed. simpl.
    rewrite !app_nil_r, Nat.add_0_r. destruct s as [w c d [rs n]]. reflexivity.
  - simpl Eff.for_of. unfold Eff.bind.
    rewrite grade_case_run;
      [ | exact Htc | intros e He; exact (Hthrow _ _ _ _ _ He) ].
    rewrite IH. cbn [svc calls db locals testResults testsPasados grading_entries map].
    rewrite grade_count_cons, <- !app_assoc, Nat.add_assoc. reflexivity.
Qed.

Lemma findUnique_update (attemptId : Z) (u : Db.UpdateData) (d : Db.t)
    (a : Db.ExamAttempt) :
  Db.examAttempt_findUnique attemptId d = Some a ->
  Db.examAttempt_findUnique attemptId (Db.examAttempt_update attemptId u d)
  = Some (Db.apply_update u a).
Proof.
  unfold Db.examAttempt_findUnique, Db.examAttempt_update. simpl.
  induction (Db.examAttempts d) as [|a0 l IH]; simpl; [discriminate|].
  destruct (Db.id a0 =? attemptId)%Z eqn:E; simpl.
  - rewrite E. intros H. inversion H. reflexivity.
  - rewrite E. exact IH.
Qed.

(** Without a saved main file the request is refused and nothing
    changes. *)
Lemma finish_without_main_file (req : Request) (s : St)
    (attemptId : Z) (attempt : Db.ExamAttempt) (exam : Db.Exam) :
  programming_finish parseInt req (db s) attemptId attempt exam ->
  Db.examFile_findFirst (Db.examId attempt) (user_userId req)
    (mainFileName exam) (JsString.lit "manual") (db s) = None ->
  finish_handler executeCode parseInt now req s =
  (Ok (Http.respond 400 (JObj [("error"%string, Msg.debes_guardar (mainFileName exam))])), s).
Proof.
  intros (Hbody & Hid & Hatt & Huser & Hest & Hex & Htipo) Hfile.
  unfold finish_handler, Eff.bind at 1 2, prop, Eff.eval.
  rewrite !(JsFacts.get_prop_field _ Hbody), Hid.
  unfold Eff.try_catch, Eff.bind, Eff.gets, Eff.ret.
  rewrite Hatt. cbv beta iota.
  rewrite Huser, Z.eqb_refl, Hest, JsFacts.eqb_refl. cbn [negb]. cbv beta iota.
  rewrite Hex. cbv beta iota.
  rewrite Htipo, JsFacts.eqb_refl. cbv beta iota.
  rewrite Hex. cbv beta iota.
  rewrite Hfile. reflexivity.
Qed.

(** With a saved main file and a non-empty list of test cases the
    attempt is graded on the file's content and finalized. *)
Lemma finish_graded (req : Request) (s : St)
    (attemptId : Z) (attempt : Db.ExamAttempt) (exam : Db.Exam)
    (mainFile : Db.ExamFile) (testCases : list JSValue) :
  programming_finish parseInt req (db s) attemptId attempt exam ->
  Db.examFile_findFirst (Db.examId attempt) (user_userId req)
    (mainFileName exam) (JsString.lit "manual") (db s) = Some mainFile ->
  Db.testCases exam = JArr testCases ->
  testCases <> [] ->
  throws_errors executeCode ->
  Forall (fun testCase => Js.is_nullish testCase = false) testCases ->
  finish_handler executeCode parseInt now req s =
  (let codigoParaEvaluar := Js.or_else (Db.content mainFile) (Js.str "") in
   let language := Db.lenguajeProgramacion exam in
   let entries :=
     map fst (grading_entries executeCode codigoParaEvaluar language testCases (svc s)) in
   let u := graded_update now codigoParaEvaluar entries (List.length testCases) in
   (Ok (Http.json (attempt_value (Db.apply_update u attempt))),
    {| svc := world_after executeCode codigoParaEvaluar language
                (map case_options testCases) (svc s);
       calls := calls s ++ map (ExecuteCode codigoParaEvaluar language)
                               (map case_options testCases);
       db := Db.examAttempt_update attemptId u (db s);
       locals := {| testResults := entries;
                    testsPasados := Js.count_passed entries |} |})).
Proof.
  intros (Hbody & Hid & Hatt & Huser & Hest & Hex & Htipo) Hfile Htcs Hne Hthrow Hall.
  unfold finish_handler, Eff.bind at 1 2, prop, Eff.eval.
  rewrite !(JsFacts.get_prop_field _ Hbody), Hid.
  unfold Eff.try_catch, Eff.bind, Eff.gets, Eff.ret.
  rewrite Hatt. cbv beta iota.
  rewrite Huser, Z.eqb_refl, Hest, JsFacts.eqb_refl. cbn [negb]. cbv beta iota.
  rewrite Hex. cbv beta iota.
  rewrite Htipo, JsFacts.eqb_refl. cbv beta iota.
  rewrite Hex. cbv beta iota.
  rewrite Hfile. cbv beta iota. rewrite Htcs.
  cbn [Js.truthy Js.is_array Js.array_items andb].
  destruct testCases as [|t0 r]; [congruence|].
  cbn [List.length Nat.ltb Nat.leb]. cbv beta iota.
  unfold set_locals, Eff.modify. cbv beta iota.
  rewrite grading_run by assumption.
  cbn [svc calls db locals testResults testsPasados app Nat.add].
  unfold update_and_reply, Eff.bind, Eff.modify, Eff.gets, Eff.throw, Eff.ret.
  cbn [svc calls db locals].
  erewrite findUnique_update by eassumption.
  reflexivity.
Qed.

Lemma grading_entries_length (code language : JSValue) (testCases : list JSValue)
    (w : World) :
  List.length (grading_entries executeCode code language testCases w)
  = List.length testCases.
Proof.
  revert w. induction testCases as [|testCase r IH]; intros w; simpl; [reflexivity|].
  now rewrite IH.
Qed.

Lemma grading_entries_nth (code language : JSValue) (testCases : list JSValue) (w : World)
    (i : nat) (testCase : JSValue) :
  nth_error testCases i = Some testCase ->
  exists o,
    nth_error (completions executeCode code language (map case_options testCases) w) i
    = Some o
    /\ nth_error (map fst (grading_entries executeCode code language testCases w)) i
       = Some (fst (case_entry testCase o)).
Proof.
  revert w i. induction testCases as [|t0 r IH]; intros w i H.
  - destruct i; discriminate.
  - destruct i as [|i]; simpl in H.
    + inversion H; subst t0. eexists; split; reflexivity.
    + simpl. apply IH. exact H.
Qed.

(** An entry carries the description of its test case, and as
    [expected] the expected output of the test case, trimmed by the
    [try] block or as it is by the [catch] block. *)
Lemma grade_entry_echoes (testCase : JSValue) (o : Outcome JSValue) :
  Js.field (fst (case_entry testCase o)) "description"
  = Js.or_else (Js.field testCase "description") Msg.sin_descripcion
  /\ (Js.field (fst (case_entry testCase o)) "expected" = Js.field testCase "expectedOutput"
      \/ Js.call_trim (Js.or_else (Js.field testCase "expectedOutput") (Js.str ""))
         = Ok (Js.field (fst (case_entry testCase o)) "expected")).
Proof.
  unfold case_entry.
  destruct o as [result|err]; [|split; [reflexivity | left; reflexivity]].
  destruct (Js.call_trim _) eqn:E; [|split; [reflexivity | left; reflexivity]].
  destruct (Js.get_prop result "output"); [|split; [reflexivity | left; reflexivity]].
  destruct (Js.call_trim (Js.or_else a0 _));
    split; try reflexivity; [right | left]; reflexivity.
Qed.

Lemma latest_none (l : list Db.ExamFile) : Db.latest l = None -> l = [].
Proof.
  destruct l as [|f r]; [reflexivity|]. simpl.
  destruct (Db.latest r) as [g|]; [|discriminate].
  destruct (Db.updatedAt f <? Db.updatedAt g)%Z; discriminate.
Qed.

(** [latest] picks a row of the list, and no row of the list was
    updated after it. *)
Lemma latest_some (l : list Db.ExamFile) (f : Db.ExamFile) :
  Db.latest l = Some f ->
  In f l /\ forall g, In g l -> (Db.updatedAt g <= Db.updatedAt f)%Z.
Proof.
  revert f. induction l as [|f0 r IH]; intros f; simpl; [discriminate|].
  destruct (Db.latest r) as [g0|] eqn:E.
  - destruct (IH g0 eq_refl) as [Hin Hmax].
    destruct (Db.updatedAt f0 <? Db.updatedAt g0)%Z eqn:C; intros H; inversion H; subst f.
    + apply Z.ltb_lt in C. split; [now right|].
      intros g [<-|Hg]; [lia | now apply Hmax].
    + apply Z.ltb_ge in C. split; [now left|].
      intros g [<-|Hg]; [lia | specialize (Hmax g Hg); lia].
  - apply latest_none in E. subst r. intros H; inversion H; subst f.
    split; [now left|]. intros g [<-|[]]. lia.
Qed.

End Grading.

End ExamAttemptFacts.

(** ** Guards and single runs of [codeExecution.route.ts] *)

Module GuardFacts.

Import CodeExecutionRoute.

Section Guards.

Variable World : Type.
Variable executeCode : JSValue -> JSValue -> JSValue -> World -> Outcome JSValue * World.
Variable validateSyntax : JSValue -> JSValue -> World -> Outcome JSValue * World.
Variable parseInt : JSValue -> option Z.

Abbreviation St := (State World Locals).

(** /run answers 400 without touching the service when the code is
    falsy or the language is not a supported one. *)
Lemma run_rejects (reqBody : JSValue) (s : St) :
  Js.is_nullish reqBody = false ->
  Js.truthy (Js.field reqBody "code") = false
  \/ Js.includes supported (Js.field reqBody "language") = false ->
  exists msg,
    run_handler executeCode parseInt reqBody s
    = (Ok (Http.respond 400 (JObj [("error"%string, msg)])), s).
Proof.
  intros Hbody H.
  unfold run_handler, Eff.try_catch, Eff.bind at 1 2 3 4, prop, Eff.eval.
  rewrite !(JsFacts.get_prop_field _ Hbody).
  destruct (Js.truthy (Js.field reqBody "code")) eqn:Tc; cbn [negb orb].
  - destruct H as [H|H]; [discriminate|]. rewrite H.
    destruct (negb (Js.truthy (Js.field reqBody "language")));
      cbn [negb]; eexists; reflexivity.
  - eexists; reflexivity.
Qed.

(** So does /execute. *)
Lemma execute_rejects (reqBody : JSValue) (s : St) :
  Js.is_nullish reqBody = false ->
  Js.truthy (Js.field reqBody "code") = false
  \/ Js.includes supported (Js.field reqBody "language") = false ->
  exists msg,
    execute_handler executeCode reqBody s
    = (Ok (Http.respond 400 (JObj [("error"%string, msg)])), s).
Proof.
  intros Hbody H.
  unfold execute_handler, Eff.try_catch, Eff.bind at 1 2 3 4 5, prop, Eff.eval.
  rewrite !(JsFacts.get_prop_field _ Hbody).
  destruct (Js.truthy (Js.field reqBody "code")) eqn:Tc; cbn [negb orb].
  - destruct H as [H|H]; [discriminate|]. rewrite H.
    destruct (negb (Js.truthy (Js.field reqBody "language")));
      cbn [negb]; eexists; reflexivity.
  - eexists; reflexivity.
Qed.

Lemma single_run_state (result : JSValue) (s : St) :
  snd (single_run (World := World) result s) = s.
Proof.
  unfold single_run, Eff.bind, prop, Eff.eval, Eff.ret.
  destruct (Js.get_prop result "error"); [|reflexivity].
  destruct (Js.get_prop result "output"); [|reflexivity].
  destruct (Js.get_prop result "exitCode"); [|reflexivity].
  destruct (Js.get_prop result "executionTime"); reflexivity.
Qed.

Lemma single_run_value (result : JSValue) (s : St) :
  Js.is_nullish result = false ->
  single_run (World := World) result s =
  (Ok (Http.json (JObj [("success", JBool (negb (Js.truthy (Js.field result "error"))));
                        ("output", Js.field result "output");
                        ("error", Js.field result "error");
                        ("exitCode", Js.field result "exitCode");
                        ("executionTime", Js.field result "executionTime")]%string)), s).
Proof.
  intros H. unfold single_run, Eff.bind, prop, Eff.eval, Eff.ret.
  rewrite !(JsFacts.get_prop_field _ H). reflexivity.
Qed.

(** /execute on a valid request with a [customInput]: one call,
    then the single-run report, inside the route's [try]. *)
Lemma execute_handler_custom (reqBody code language : JSValue) (s : St) :
  Js.get_prop reqBody "code" = Ok code ->
  Js.get_prop reqBody "language" = Ok language ->
  Js.truthy code = true ->
  Js.includes supported language = true ->
  Js.is_nullish (Js.field reqBody "customInput") = false ->
  execute_handler executeCode reqBody s
  = Eff.try_catch
      (Eff.bind (await_executeCode executeCode (L := Locals) code language
                   (options (Js.field reqBody "customInput")))
                (single_run (World := World)))
      (fun error =>
         Eff.bind (prop error "message")
           (fun details =>
              Eff.ret (Http.respond 500 (JObj [("error"%string, Msg.error_ejecutar);
                                               ("details"%string, details)])))) s.
Proof.
  intros Hcode Hlang Tcode Tlang Hci.
  destruct (JsFacts.get_prop_ok _ _ _ Hcode) as [Hbody ->].
  destruct (JsFacts.get_prop_ok _ _ _ Hlang) as [_ ->].
  unfold execute_handler, Eff.try_catch, Eff.bind at 1 2 3 4 5, prop at 1 2 3 4 5,
    Eff.eval.
  rewrite !(JsFacts.get_prop_field _ Hbody).
  rewrite Tcode, (CodeExecutionFacts.includes_truthy _ Tlang), Tlang,
    (CodeExecutionFacts.strict_eq_present _ Hci).
  reflexivity.
Qed.

End Guards.

End GuardFacts.

(** ** White space and [trim] *)

Module PaddingFacts.










End PaddingFacts.

(** ** Entries as the client receives them *)

Module WireFacts.

Lemma to_json_obj (props : list (string * JSValue)) :
  Wire.to_json (JObj props) = JObj (Wire.keep props).
Proof. reflexivity. Qed.

Lemma has_field_sent (k : string) (props : list (string * JSValue)) :
  Js.has_field k (Wire.to_json (JObj props)) = Js.has_key k (Wire.keep props).
Proof. rewrite to_json_obj. reflexivity. Qed.

Lemma has_key_keep_cons (k k' : string) (x : JSValue) (r : list (string * JSValue)) :
  Js.has_key k (Wire.keep ((k', x) :: r))
  = (Wire.kept x && String.eqb k k') || Js.has_key k (Wire.keep r).
Proof. simpl. destruct (Wire.kept x); reflexivity. Qed.

(** A property that is written is read back as its value, written. *)
Lemma lookup_keep (k : string) (props : list (string * JSValue)) :
  Wire.kept (Js.lookup k props) = true ->
  Js.lookup k (Wire.keep props) = Wire.to_json (Js.lookup k props).
Proof.
  induction props as [|[k' x] r IH]; simpl; [discriminate|].
  destruct (String.eqb k k') eqn:E.
  - intros H. rewrite H. simpl. rewrite E. reflexivity.
  - intros H. destruct (Wire.kept x); [simpl; rewrite E|]; exact (IH H).
Qed.

Lemma call_trim_kept (v x : JSValue) : Js.call_trim v = Ok x -> Wire.kept x = true.
Proof. destruct v; simpl; intros H; inversion H; reflexivity. Qed.

Lemma opt_trim_kept (v x : JSValue) :
  Js.opt_trim v = Ok x -> Wire.kept x = negb (Js.is_nullish v).
Proof.
  unfold Js.opt_trim. destruct (Js.is_nullish v) eqn:E.
  - intros H. inversion H. reflexivity.
  - intros H. exact (call_trim_kept _ _ H).
Qed.

Lemma or_else_kept (a b : JSValue) : Wire.kept b = true -> Wire.kept (Js.or_else a b) = true.
Proof.
  intros H. unfold Js.or_else. destruct (Js.truthy a) eqn:E; [|exact H].
  destruct a; try reflexivity; discriminate.
Qed.

Ltac fields :=
  rewrite ?has_field_sent, ?has_key_keep_cons; simpl;
  repeat match goal with |- context [Wire.kept ?v] => destruct (Wire.kept v) end;
  repeat split; reflexivity.

(** The entry of a completed [try] block of /execute, as received. *)
Lemma execute_try_entry_sent (testCase result actual : JSValue) (passed : bool) :
  let entry := Wire.to_json (CodeExecutionRoute.try_entry testCase result actual passed) in
  Js.has_field "passed" entry = true
  /\ Js.has_field "input" entry = Wire.kept (Js.field testCase "input")
  /\ Js.has_field "expectedOutput" entry = Wire.kept (Js.field testCase "expectedOutput")
  /\ Js.has_field "actualOutput" entry = Wire.kept actual
  /\ Js.has_field "error" entry = Wire.kept (Js.field result "error")
  /\ Js.has_field "executionTime" entry = Wire.kept (Js.field result "executionTime").
Proof. cbv zeta. unfold CodeExecutionRoute.try_entry. fields. Qed.

(** The entry of a completed [try] block of the finish route. *)
Lemma finish_try_entry_sent (testCase result expected actual : JSValue) (passed : bool) :
  Wire.kept expected = true -> Wire.kept actual = true ->
  let entry :=
    Wire.to_json (ExamAttemptRoute.try_entry testCase result expected actual passed) in
  forallb (fun k => Js.has_field k entry) ["description"; "passed"; "actual"]%string = true
  /\ Js.has_field "expected" entry = true
  /\ Js.has_field "error" entry = Wire.kept (Js.field result "error")
  /\ Js.has_field "executionTime" entry = Wire.kept (Js.field result "executionTime").
Proof.
  intros He Ha. cbv zeta. unfold ExamAttemptRoute.try_entry.
  pose proof (or_else_kept (Js.field testCase "description")
                ExamAttemptRoute.Msg.sin_descripcion eq_refl) as Hd.
  rewrite ?has_field_sent. cbn [forallb]. rewrite ?has_field_sent, ?has_key_keep_cons.
  rewrite Hd, He, Ha. simpl.
  repeat match goal with |- context [Wire.kept ?v] => destruct (Wire.kept v) end;
    repeat split; reflexivity.
Qed.

(** The entry of a [catch] block of the finish route. *)
Lemma finish_catch_entry_sent (testCase err : JSValue) :
  let entry := Wire.to_json (ExamAttemptRoute.catch_entry testCase err) in
  forallb (fun k => Js.has_field k entry) ["description"; "passed"; "actual"]%string = true
  /\ Js.has_field "executionTime" entry = true
  /\ Js.has_field "expected" entry = Wire.kept (Js.field testCase "expectedOutput")
  /\ Js.has_field "error" entry = Wire.kept (Js.field err "message").
Proof.
  cbv zeta. unfold ExamAttemptRoute.catch_entry.
  pose proof (or_else_kept (Js.field testCase "description")
                ExamAttemptRoute.Msg.sin_descripcion eq_refl) as Hd.
  rewrite ?has_field_sent. cbn [forallb]. rewrite ?has_field_sent, ?has_key_keep_cons.
  rewrite Hd. simpl.
  repeat match goal with |- context [Wire.kept ?v] => destruct (Wire.kept v) end;
    repeat split; reflexivity.
Qed.

(** Whichever block built it, an entry of the finish route is
    received with its description, its verdict and its output. *)
Lemma finish_entry_sent (testCase : JSValue) (o : Outcome JSValue) :
  forallb (fun k => Js.has_field k
                      (Wire.to_json (fst (ExamAttemptRoute.case_entry testCase o))))
          ["description"; "passed"; "actual"]%string = true.
Proof.
  unfold ExamAttemptRoute.case_entry.
  destruct o as [result|err]; [|apply finish_catch_entry_sent].
  destruct (Js.call_trim _) as [expected|e1] eqn:E1; [|apply finish_catch_entry_sent].
  destruct (Js.get_prop result "output") as [output|e2]; [|apply finish_catch_entry_sent].
  destruct (Js.call_trim (Js.or_else output _)) as [actual|e3] eqn:E3;
    [|apply finish_catch_entry_sent].
  apply finish_try_entry_sent; eapply call_trim_kept; eassumption.
Qed.

End WireFacts.

(** * The claims *)

Section OutputComparison.

Import CodeExecutionRoute.

Variable World : Type.

Abbreviation grade_comparison :=
  (ExamAttemptRoute.grade_comparison (World := World)).




End OutputComparison.


(** C1.  POST /execute marks a test case as passed on the comparison of
    the trimmed outputs alone.  A program that prints the expected [2]
    and then exits with code 1 is counted as passed (score 100), while
    the comparison of the finish route rejects the very same run. *)
Theorem execute_counts_crashed_run_as_passed :
  fst (CodeExecutionRoute.execute_handler Scenario.crashing
         (Scenario.batch_body "print(2); exit(1)" [Scenario.testCase "" "2"])
         Scenario.route_start)
  = Ok (Http.json
          (JObj [("success", JBool true); ("score", JNum 100%float);
                 ("passedTests", JNum 1%float); ("totalTests", JNum 1%float);
                 ("testResults",
                   JArr [JObj [("input", Js.str ""); ("expectedOutput", Js.str "2");
                               ("actualOutput", Js.str "2"); ("passed", JBool true);
                               ("error", Js.str "Traceback (most recent call last)");
                               ("executionTime", JNum 3%float)]])]%string))
  /\ ExamAttemptRoute.grade_comparison
       (Scenario.result (JsString.lit "2" ++ [10%N])
          (Js.str "Traceback (most recent call last)") 1%float)
       (Scenario.testCase "" "2") (Scenario.finish_start [])
     = (Ok false, Scenario.finish_start []).
Proof. split; reflexivity. Qed.

Section LanguageGuard.

Import CodeExecutionRoute.

Variable World : Type.
Variable executeCode : JSValue -> JSValue -> JSValue -> World -> Outcome JSValue * World.
Variable validateSyntax : JSValue -> JSValue -> World -> Outcome JSValue * World.
Variable parseInt : JSValue -> option Z.

(** C4.  /run and /execute refuse the language ["ruby"] with status 400
    and leave the service alone, but /validate has no such guard: it
    hands the request to [validateSyntax] and never answers 400. *)
Theorem validate_forwards_unsupported_language (s : State World Locals) :
  let reqBody := Scenario.plain_body "x = 1" "ruby" in
  (calls (snd (validate_handler validateSyntax reqBody s))
   = calls s ++ [ValidateSyntax (Js.str "x = 1") (Js.str "ruby")]
   /\ forall r, fst (validate_handler validateSyntax reqBody s) = Ok r -> status r <> 400%Z)
  /\ run_handler executeCode parseInt reqBody s
     = (Ok (Http.respond 400 (JObj [("error"%string, Msg.no_soportado)])), s)
  /\ execute_handler executeCode reqBody s
     = (Ok (Http.respond 400 (JObj [("error"%string, Msg.no_soportado)])), s).
Proof.
  cbv zeta. split; [|split; reflexivity].
  unfold validate_handler, Eff.try_catch, Eff.bind, prop, Eff.eval, Eff.ret,
    await_validateSyntax.
  cbn [Scenario.plain_body Js.get_prop Js.lookup String.eqb Ascii.eqb Bool.eqb
       Js.truthy Js.str JsString.lit list_ascii_of_string map negb orb].
  destruct (validateSyntax _ _ (svc s)) as [[result|err] w]; cbn [fst snd calls].
  - destruct (Js.get_prop result "valid") as [valid|e1] eqn:E1.
    + apply JsFacts.get_prop_ok in E1 as [Hr _].
      rewrite (JsFacts.get_prop_field _ Hr). cbn [fst snd calls].
      split; [reflexivity|]. intros r H. inversion H. discriminate.
    + apply JsFacts.get_prop_throw in E1.
      rewrite (JsFacts.get_prop_field _ E1). cbn [fst snd calls].
      split; [reflexivity|]. intros r H. inversion H. discriminate.
  - destruct (Js.get_prop err "message"); cbn [fst snd calls].
    + split; [reflexivity|]. intros r H. inversion H. discriminate.
    + split; [reflexivity|]. intros r H. discriminate.
Qed.

(** C5 (as amended).  A /run or /execute request whose code is the empty
    string is refused with status 400 and the message about the
    required fields; the state, and with it the list of service calls,
    is left as it was. *)
Theorem empty_code_is_rejected (reqBody : JSValue) (s : State World Locals) :
  Js.get_prop reqBody "code" = Ok (JStr []) ->
  run_handler executeCode parseInt reqBody s
  = (Ok (Http.respond 400 (JObj [("error"%string, Msg.requeridos)])), s)
  /\ execute_handler executeCode reqBody s
     = (Ok (Http.respond 400 (JObj [("error"%string, Msg.requeridos)])), s).
Proof.
  intros H. destruct (JsFacts.get_prop_ok _ _ _ H) as [Hbody Hcode].
  unfold run_handler, execute_handler, Eff.try_catch, Eff.bind, prop, Eff.eval.
  rewrite !(JsFacts.get_prop_field _ Hbody), <- Hcode.
  split; reflexivity.
Qed.

(** C9 (as amended).  On a /execute request that passes the two guards
    and carries a [customInput] other than [undefined] and [null], the
    service is called exactly once, with [customInput] as the input,
    whatever [testCases] holds; when that call resolves to a result,
    the answer is the single-run report of that result. *)
Theorem custom_input_runs_once (reqBody code language : JSValue) (s : State World Locals) :
  Js.get_prop reqBody "code" = Ok code ->
  Js.get_prop reqBody "language" = Ok language ->
  Js.truthy code = true ->
  Js.includes supported language = true ->
  Js.is_nullish (Js.field reqBody "customInput") = false ->
  let call := options (Js.field reqBody "customInput") in
  calls (snd (execute_handler executeCode reqBody s))
  = calls s ++ [ExecuteCode code language call]
  /\ forall result,
       fst (executeCode code language call (svc s)) = Ok result ->
       Js.is_nullish result = false ->
       fst (execute_handler executeCode reqBody s)
       = Ok (Http.json
               (JObj [("success", JBool (negb (Js.truthy (Js.field result "error"))));
                      ("output", Js.field result "output");
                      ("error", Js.field result "error");
                      ("exitCode", Js.field result "exitCode");
                      ("executionTime", Js.field result "executionTime")]%string)).
Proof.
  intros Hcode Hlang Tcode Tlang Hci. cbv zeta.
  rewrite (GuardFacts.execute_handler_custom World executeCode reqBody code language s)
    by assumption.
  split.
  - unfold Eff.try_catch, Eff.bind at 1, await_executeCode.
    destruct (executeCode _ _ _ (svc s)) as [[result|err] w]; cbn [fst snd].
    + pose proof (GuardFacts.single_run_state World result) as P.
      match goal with |- context [single_run result ?st] => specialize (P st) end.
      destruct (single_run result _) as [[r|e] s1] eqn:E; simpl in P; subst s1.
      * reflexivity.
      * unfold Eff.bind, prop, Eff.eval, Eff.ret.
        destruct (Js.get_prop e "message"); reflexivity.
    + unfold Eff.bind, prop, Eff.eval, Eff.ret.
      destruct (Js.get_prop err "message"); reflexivity.
  - intros result Hr Hn.
    unfold Eff.try_catch, Eff.bind at 1, await_executeCode.
    destruct (executeCode _ _ _ (svc s)) as [o w]. simpl in Hr. subst o.
    rewrite GuardFacts.single_run_value by assumption. reflexivity.
Qed.

End LanguageGuard.

(** C5, the claim as stated: a /run request with the empty program is
    answered 400 and no call reaches the service. *)
Lemma empty_code_is_not_executed :
  let run := CodeExecutionRoute.run_handler Scenario.echo Scenario.parseInt
               (Scenario.plain_body "" "python") Scenario.route_start in
  fst run = Ok (Http.respond 400 (JObj [("error"%string, Msg.requeridos)]))
  /\ calls (snd run) = [].
Proof. split; reflexivity. Qed.

Lemma empty_code_is_rejected_witness :
  CodeExecutionRoute.run_handler Scenario.echo Scenario.parseInt
    (Scenario.plain_body "" "javascript") Scenario.route_start
  = (Ok (Http.respond 400 (JObj [("error"%string, Msg.requeridos)])), Scenario.route_start)
  /\ CodeExecutionRoute.execute_handler Scenario.echo
       (Scenario.plain_body "" "javascript") Scenario.route_start
     = (Ok (Http.respond 400 (JObj [("error"%string, Msg.requeridos)])), Scenario.route_start).
Proof.
  apply (@empty_code_is_rejected Scenario.World Scenario.echo Scenario.parseInt
           (Scenario.plain_body "" "javascript") Scenario.route_start).
  reflexivity.
Defined.

(** C9, the claim as stated: a /execute request with a [customInput]
    but an unsupported language is answered 400 and the code is never
    executed. *)
Lemma custom_input_does_not_force_a_run :
  let run := CodeExecutionRoute.execute_handler Scenario.echo
               (Scenario.custom_body "puts gets" "ruby" "5") Scenario.route_start in
  fst run = Ok (Http.respond 400 (JObj [("error"%string, Msg.no_soportado)]))
  /\ calls (snd run) = [].
Proof. split; reflexivity. Qed.

Lemma custom_input_runs_once_witness :
  calls (snd (CodeExecutionRoute.execute_handler Scenario.echo
                (Scenario.custom_body "print(input())" "python" "5") Scenario.route_start))
  = [ExecuteCode (Js.str "print(input())") (Js.str "python")
       (CodeExecutionRoute.options (Js.str "5"))].
Proof.
  refine (proj1 (@custom_input_runs_once Scenario.World Scenario.echo
                   (Scenario.custom_body "print(input())" "python" "5")
                   (Js.str "print(input())") (Js.str "python") Scenario.route_start
                   _ _ _ _ _)); reflexivity.
Defined.

Lemma flaky_throws_errors : throws_errors Scenario.flaky.
Proof.
  intros code language options w e.
  destruct w as [|[|w]]; simpl; intros H; inversion H; reflexivity.
Qed.

Lemma three_cases_are_objects :
  Forall (fun testCase => Js.is_nullish testCase = false) Scenario.three_cases.
Proof. repeat constructor. Qed.

Lemma scenario_batch_request :
  CodeExecutionRoute.batch_request
    (Scenario.batch_body "print(input())" Scenario.three_cases)
    (Js.str "print(input())") (Js.str "python") Scenario.three_cases.
Proof. repeat split; discriminate. Qed.

Lemma scenario_programming_finish (files : list Db.ExamFile) :
  ExamAttemptRoute.programming_finish Scenario.parseInt Scenario.finish_request
    (Scenario.database files) 1 Scenario.attempt1 Scenario.exam7.
Proof. repeat split. Qed.

Section BatchClaims.

Variable World : Type.
Variable executeCode : JSValue -> JSValue -> JSValue -> World -> Outcome JSValue * World.
Variable parseInt : JSValue -> option Z.
Variable now : Z.

Hypothesis service_throws_errors : throws_errors executeCode.

Variable testCases : list JSValue.

Hypothesis test_cases_are_values :
  Forall (fun testCase => Js.is_nullish testCase = false) testCases.

(** C2 (as amended).  In a batch of N test cases, none of them
    [undefined] or [null], on a service that rejects with values other
    than [undefined] and [null], every case is executed, in order, and
    the answer holds N entries, also when calls to the service throw:
    the entry of a case whose call threw [err] has [passed: false] and
    carries [err.message] as its [error] (in /execute,
    ['Error desconocido'] when the message is empty or missing).  This
    holds for the batch branch of POST /execute and for the grading
    loop of the finish route. *)
Theorem batch_survives_throwing_case :
  (forall reqBody code language (s : State World CodeExecutionRoute.Locals),
     CodeExecutionRoute.batch_request reqBody code language testCases ->
     exists resp s' testResults,
       CodeExecutionRoute.execute_handler executeCode reqBody s = (Ok resp, s')
       /\ status resp = 200%Z
       /\ Js.field (body resp) "testResults" = JArr testResults
       /\ List.length testResults = List.length testCases
       /\ calls s' = calls s ++ map (fun testCase =>
                                       ExecuteCode code language
                                         (CodeExecutionRoute.case_options testCase))
                                    testCases
       /\ forall i err,
            nth_error (completions executeCode code language
                         (map CodeExecutionRoute.case_options testCases) (svc s)) i
            = Some (Throw err) ->
            exists entry,
              nth_error testResults i = Some entry
              /\ Js.field entry "passed" = JBool false
              /\ Js.field entry "error"
                 = Js.or_else (Js.field err "message") Msg.error_desconocido)
  /\
  (forall req (s : State World ExamAttemptRoute.Locals) attemptId attempt exam mainFile,
     ExamAttemptRoute.programming_finish parseInt req (db s) attemptId attempt exam ->
     Db.examFile_findFirst (Db.examId attempt) (ExamAttemptRoute.user_userId req)
       (ExamAttemptRoute.mainFileName exam) (JsString.lit "manual") (db s)
     = Some mainFile ->
     Db.testCases exam = JArr testCases ->
     testCases <> [] ->
     let code := Js.or_else (Db.content mainFile) (Js.str "") in
     let language := Db.lenguajeProgramacion exam in
     exists resp s' updated testResults,
       ExamAttemptRoute.finish_handler executeCode parseInt now req s = (Ok resp, s')
       /\ status resp = 200%Z
       /\ Db.examAttempt_findUnique attemptId (db s') = Some updated
       /\ Db.testResults updated = JArr testResults
       /\ List.length testResults = List.length testCases
       /\ calls s' = calls s ++ map (fun testCase =>
                                       ExecuteCode code language
                                         (ExamAttemptRoute.case_options testCase))
                                    testCases
       /\ forall i err,
            nth_error (completions executeCode code language
                         (map ExamAttemptRoute.case_options testCases) (svc s)) i
            = Some (Throw err) ->
            exists entry,
              nth_error testResults i = Some entry
              /\ Js.field entry "passed" = JBool false
              /\ Js.field entry "error" = Js.field err "message").
Proof.
  split.
  - intros reqBody code language s Hreq.
    rewrite (CodeExecutionFacts.execute_handler_batch World executeCode
               reqBody code language testCases s Hreq
               service_throws_errors test_cases_are_values).
    cbv zeta. do 3 eexists. split; [reflexivity|].
    split; [reflexivity|]. split; [reflexivity|].
    split; [now rewrite length_map, CodeExecutionFacts.batch_entries_length|].
    split; [cbn [calls]; now rewrite map_map|].
    intros i err Hi.
    assert (Hlt : i < List.length testCases).
    { apply JsFacts.nth_error_lt in Hi.
      now rewrite CodeExecutionFacts.completions_length, length_map in Hi. }
    destruct (nth_error testCases i) as [testCase|] eqn:Htc;
      [|apply nth_error_None in Htc; lia].
    destruct (CodeExecutionFacts.batch_entries_nth World executeCode code language
                testCases (svc s) i testCase Htc) as (o & Ho & He).
    rewrite Ho in Hi. inversion Hi; subst o.
    eexists. split; [exact He|]. split; reflexivity.
  - intros req s attemptId attempt exam mainFile Hreq Hfile Htcs Hne. cbv zeta.
    rewrite (ExamAttemptFacts.finish_graded World executeCode parseInt now
               req s attemptId attempt exam mainFile testCases
               Hreq Hfile Htcs Hne service_throws_errors test_cases_are_values).
    cbv zeta. destruct Hreq as (_ & _ & Hatt & _).
    do 4 eexists. split; [reflexivity|].
    split; [reflexivity|].
    split; [cbn [db]; apply ExamAttemptFacts.findUnique_update; exact Hatt|].
    split; [reflexivity|].
    split; [now rewrite length_map, ExamAttemptFacts.grading_entries_length|].
    split; [cbn [calls]; now rewrite map_map|].
    intros i err Hi.
    assert (Hlt : i < List.length testCases).
    { apply JsFacts.nth_error_lt in Hi.
      now rewrite CodeExecutionFacts.completions_length, length_map in Hi. }
    destruct (nth_error testCases i) as [testCase|] eqn:Htc;
      [|apply nth_error_None in Htc; lia].
    destruct (ExamAttemptFacts.grading_entries_nth World executeCode
                (Js.or_else (Db.content mainFile) (Js.str ""))
                (Db.lenguajeProgramacion exam)
                testCases (svc s) i testCase Htc) as (o & Ho & He).
    rewrite Ho in Hi. inversion Hi; subst o.
    eexists. split; [exact He|]. split; reflexivity.
Qed.

(** C3.  For a batch over N test cases (N > 0), POST /execute answers
    [totalTests] = N, [passedTests] = the number of entries of the
    returned [testResults] with [passed: true], and [score] = the
    double [passedTests / totalTests * 100], the quotient and the
    product being those of IEEE 754 doubles, computed from the counter
    the loop ended with.  The finish route stores as [puntaje] the same
    quotient of the number of passed entries of the stored
    [testResults] and N. *)
Theorem batch_totals_and_score :
  (forall reqBody code language (s : State World CodeExecutionRoute.Locals),
     CodeExecutionRoute.batch_request reqBody code language testCases ->
     exists s' testResults,
       let passed :=
         List.length (filter (fun entry =>
                                Js.strict_eq (Js.field entry "passed") (JBool true))
                             testResults) in
       let number (n : nat) := PrimFloat.of_uint63 (Uint63.of_Z (Z.of_nat n)) in
       CodeExecutionRoute.execute_handler executeCode reqBody s
       = (Ok (Http.json
                (JObj [("success", JBool true);
                       ("score",
                         JNum (number passed / number (List.length testCases) * 100)%float);
                       ("passedTests", JNum (number passed));
                       ("totalTests", JNum (number (List.length testCases)));
                       ("testResults", JArr testResults)]%string)), s')
       /\ List.length testResults = List.length testCases
       /\ CodeExecutionRoute.passedTests (locals s') = passed)
  /\
  (forall req (s : State World ExamAttemptRoute.Locals) attemptId attempt exam mainFile,
     ExamAttemptRoute.programming_finish parseInt req (db s) attemptId attempt exam ->
     Db.examFile_findFirst (Db.examId attempt) (ExamAttemptRoute.user_userId req)
       (ExamAttemptRoute.mainFileName exam) (JsString.lit "manual") (db s)
     = Some mainFile ->
     Db.testCases exam = JArr testCases ->
     testCases <> [] ->
     exists s' updated testResults,
       let passed :=
         List.length (filter (fun entry =>
                                Js.strict_eq (Js.field entry "passed") (JBool true))
                             testResults) in
       let number (n : nat) := PrimFloat.of_uint63 (Uint63.of_Z (Z.of_nat n)) in
       ExamAttemptRoute.finish_handler executeCode parseInt now req s
       = (Ok (Http.json (ExamAttemptRoute.attempt_value updated)), s')
       /\ Db.examAttempt_findUnique attemptId (db s') = Some updated
       /\ Db.testResults updated = JArr testResults
       /\ List.length testResults = List.length testCases
       /\ ExamAttemptRoute.testsPasados (locals s') = passed
       /\ Db.puntaje updated
          = JNum (number passed / number (List.length testCases) * 100)%float).
Proof.
  split.
  - intros reqBody code language s Hreq.
    rewrite (CodeExecutionFacts.execute_handler_batch World executeCode
               reqBody code language testCases s Hreq
               service_throws_errors test_cases_are_values).
    cbv zeta. do 2 eexists. split; [reflexivity|].
    split; [now rewrite length_map, CodeExecutionFacts.batch_entries_length|].
    reflexivity.
  - intros req s attemptId attempt exam mainFile Hreq Hfile Htcs Hne.
    rewrite (ExamAttemptFacts.finish_graded World executeCode parseInt now
               req s attemptId attempt exam mainFile testCases
               Hreq Hfile Htcs Hne service_throws_errors test_cases_are_values).
    cbv zeta. destruct Hreq as (_ & _ & Hatt & _).
    do 3 eexists. split; [reflexivity|].
    split; [cbn [db]; apply ExamAttemptFacts.findUnique_update; exact Hatt|].
    split; [reflexivity|].
    split; [now rewrite length_map, ExamAttemptFacts.grading_entries_length|].
    split; reflexivity.
Qed.

(** C7.  The entries come in the order of the test cases: the [i]-th
    entry of the answer belongs to the [i]-th test case (it repeats its
    [input] and [expectedOutput]; in the finish route its [description]
    and its expected output, trimmed or as given), and the [i]-th call
    made on the service is the one for the [i]-th test case. *)
Theorem entries_follow_test_case_order :
  (forall reqBody code language (s : State World CodeExecutionRoute.Locals),
     CodeExecutionRoute.batch_request reqBody code language testCases ->
     exists resp s' testResults,
       CodeExecutionRoute.execute_handler executeCode reqBody s = (Ok resp, s')
       /\ Js.field (body resp) "testResults" = JArr testResults
       /\ forall i testCase,
            nth_error testCases i = Some testCase ->
            exists entry,
              nth_error testResults i = Some entry
              /\ Js.field entry "input" = Js.field testCase "input"
              /\ Js.field entry "expectedOutput" = Js.field testCase "expectedOutput"
              /\ nth_error (skipn (List.length (calls s)) (calls s')) i
                 = Some (ExecuteCode code language
                           (CodeExecutionRoute.case_options testCase)))
  /\
  (forall req (s : State World ExamAttemptRoute.Locals) attemptId attempt exam mainFile,
     ExamAttemptRoute.programming_finish parseInt req (db s) attemptId attempt exam ->
     Db.examFile_findFirst (Db.examId attempt) (ExamAttemptRoute.user_userId req)
       (ExamAttemptRoute.mainFileName exam) (JsString.lit "manual") (db s)
     = Some mainFile ->
     Db.testCases exam = JArr testCases ->
     testCases <> [] ->
     exists resp s' testResults,
       ExamAttemptRoute.finish_handler executeCode parseInt now req s = (Ok resp, s')
       /\ Js.field (body resp) "testResults" = JArr testResults
       /\ forall i testCase,
            nth_error testCases i = Some testCase ->
            exists entry,
              nth_error testResults i = Some entry
              /\ Js.field entry "description"
                 = Js.or_else (Js.field testCase "description")
                              ExamAttemptRoute.Msg.sin_descripcion
              /\ (Js.field entry "expected" = Js.field testCase "expectedOutput"
                  \/ Js.call_trim (Js.or_else (Js.field testCase "expectedOutput")
                                              (Js.str ""))
                     = Ok (Js.field entry "expected"))
              /\ nth_error (skipn (List.length (calls s)) (calls s')) i
                 = Some (ExecuteCode (Js.or_else (Db.content mainFile) (Js.str ""))
                           (Db.lenguajeProgramacion exam)
                           (ExamAttemptRoute.case_options testCase))).
Proof.
  split.
  - intros reqBody code language s Hreq.
    rewrite (CodeExecutionFacts.execute_handler_batch World executeCode
               reqBody code language testCases s Hreq
               service_throws_errors test_cases_are_values).
    cbv zeta. do 3 eexists. split; [reflexivity|]. split; [reflexivity|].
    intros i testCase Htc.
    destruct (CodeExecutionFacts.batch_entries_nth World executeCode code language
                testCases (svc s) i testCase Htc) as (o & _ & He).
    destruct (CodeExecutionFacts.case_entry_echoes testCase o) as [Hin Hex].
    eexists. split; [exact He|]. split; [exact Hin|]. split; [exact Hex|].
    cbn [calls]. rewrite CodeExecutionFacts.skipn_calls, map_map.
    now apply map_nth_error with (f := fun t => ExecuteCode code language
                                                  (CodeExecutionRoute.case_options t)).
  - intros req s attemptId attempt exam mainFile Hreq Hfile Htcs Hne.
    rewrite (ExamAttemptFacts.finish_graded World executeCode parseInt now
               req s attemptId attempt exam mainFile testCases
               Hreq Hfile Htcs Hne service_throws_errors test_cases_are_values).
    cbv zeta. do 3 eexists. split; [reflexivity|]. split; [reflexivity|].
    intros i testCase Htc.
    destruct (ExamAttemptFacts.grading_entries_nth World executeCode
                (Js.or_else (Db.content mainFile) (Js.str ""))
                (Db.lenguajeProgramacion exam)
                testCases (svc s) i testCase Htc) as (o & _ & He).
    destruct (ExamAttemptFacts.grade_entry_echoes testCase o) as [Hd Hex].
    eexists. split; [exact He|]. split; [exact Hd|]. split; [exact Hex|].
    cbn [calls]. rewrite CodeExecutionFacts.skipn_calls, map_map.
    now apply map_nth_error with
      (f := fun t => ExecuteCode (Js.or_else (Db.content mainFile) (Js.str ""))
                       (Db.lenguajeProgramacion exam) (ExamAttemptRoute.case_options t)).
Qed.

(** C8 (as amended).  Entries are taken as the client receives them:
    [res.json] and the Json column write a property only when its value
    is not [undefined].  In a batch of POST /execute, the entry of every
    test case whose [try] block ran to its end (the call resolved and
    both outputs could be trimmed) has the field [passed], and has each
    of [input], [expectedOutput], [actualOutput], [error] and
    [executionTime] exactly when the test case or the result supplies
    it: all six for a test case with an [input] and an [expectedOutput]
    and a result with an [output], an [error] and an [executionTime].
    In the finish route every entry, also the one of a test case whose
    call threw, has the fields [description], [passed] and [actual]; an
    entry of a completed [try] block has [expected] besides, and [error]
    and [executionTime] when the result supplies them; an entry of a
    call that threw has [executionTime] besides, and [expected] and
    [error] when the test case and the thrown value supply them. *)
Theorem entries_carry_their_route_fields :
  (forall reqBody code language (s : State World CodeExecutionRoute.Locals),
     CodeExecutionRoute.batch_request reqBody code language testCases ->
     exists resp s',
       CodeExecutionRoute.execute_handler executeCode reqBody s = (Ok resp, s')
       /\ forall i testCase result output actual expected,
            nth_error testCases i = Some testCase ->
            nth_error (completions executeCode code language
                         (map CodeExecutionRoute.case_options testCases) (svc s)) i
            = Some (Ok result) ->
            Js.get_prop result "output" = Ok output ->
            Js.opt_trim output = Ok actual ->
            Js.opt_trim (Js.field testCase "expectedOutput") = Ok expected ->
            exists entry,
              nth_error (Js.array_items (Js.field (Wire.sent resp) "testResults")) i
              = Some entry
              /\ Js.has_field "passed" entry = true
              /\ Js.has_field "input" entry = Wire.kept (Js.field testCase "input")
              /\ Js.has_field "expectedOutput" entry
                 = Wire.kept (Js.field testCase "expectedOutput")
              /\ Js.has_field "actualOutput" entry = negb (Js.is_nullish output)
              /\ Js.has_field "error" entry = Wire.kept (Js.field result "error")
              /\ Js.has_field "executionTime" entry
                 = Wire.kept (Js.field result "executionTime"))
  /\
  (forall req (s : State World ExamAttemptRoute.Locals) attemptId attempt exam mainFile,
     ExamAttemptRoute.programming_finish parseInt req (db s) attemptId attempt exam ->
     Db.examFile_findFirst (Db.examId attempt) (ExamAttemptRoute.user_userId req)
       (ExamAttemptRoute.mainFileName exam) (JsString.lit "manual") (db s)
     = Some mainFile ->
     Db.testCases exam = JArr testCases ->
     testCases <> [] ->
     let code := Js.or_else (Db.content mainFile) (Js.str "") in
     let language := Db.lenguajeProgramacion exam in
     exists resp s' received,
       ExamAttemptRoute.finish_handler executeCode parseInt now req s = (Ok resp, s')
       /\ Js.field (Wire.sent resp) "testResults" = JArr received
       /\ List.length received = List.length testCases
       /\ Forall (fun entry =>
                    forallb (fun k => Js.has_field k entry)
                            ["description"; "passed"; "actual"]%string = true)
                 received
       /\ (forall i testCase result expected output actual,
             nth_error testCases i = Some testCase ->
             nth_error (completions executeCode code language
                          (map ExamAttemptRoute.case_options testCases) (svc s)) i
             = Some (Ok result) ->
             Js.call_trim (Js.or_else (Js.field testCase "expectedOutput") (Js.str ""))
             = Ok expected ->
             Js.get_prop result "output" = Ok output ->
             Js.call_trim (Js.or_else output (Js.str "")) = Ok actual ->
             exists entry,
               nth_error received i = Some entry
               /\ Js.has_field "expected" entry = true
               /\ Js.has_field "error" entry = Wire.kept (Js.field result "error")
               /\ Js.has_field "executionTime" entry
                  = Wire.kept (Js.field result "executionTime"))
       /\ (forall i testCase err,
             nth_error testCases i = Some testCase ->
             nth_error (completions executeCode code language
                          (map ExamAttemptRoute.case_options testCases) (svc s)) i
             = Some (Throw err) ->
             exists entry,
               nth_error received i = Some entry
               /\ Js.has_field "executionTime" entry = true
               /\ Js.has_field "expected" entry
                  = Wire.kept (Js.field testCase "expectedOutput")
               /\ Js.has_field "error" entry = Wire.kept (Js.field err "message"))).
Proof.
  split.
  - intros reqBody code language s Hreq.
    rewrite (CodeExecutionFacts.execute_handler_batch World executeCode
               reqBody code language testCases s Hreq
               service_throws_errors test_cases_are_values).
    cbv zeta. do 2 eexists. split; [reflexivity|].
    intros i testCase result output actual expected Htc Hi H1 H2 H3.
    destruct (CodeExecutionFacts.batch_entries_nth World executeCode code language
                testCases (svc s) i testCase Htc) as (o & Ho & He).
    rewrite Ho in Hi. inversion Hi; subst o.
    exists (Wire.to_json (fst (CodeExecutionRoute.case_entry testCase (Ok result)))).
    split.
    { change (nth_error (map Wire.to_json
                           (map fst (CodeExecutionRoute.batch_entries executeCode code language
                                       testCases (svc s)))) i
              = Some (Wire.to_json
                        (fst (CodeExecutionRoute.case_entry testCase (Ok result))))).
      apply map_nth_error. exact He. }
    unfold CodeExecutionRoute.case_entry. rewrite H1, H2, H3. cbn [fst].
    rewrite <- (WireFacts.opt_trim_kept output actual H2).
    apply WireFacts.execute_try_entry_sent.
  - intros req s attemptId attempt exam mainFile Hreq Hfile Htcs Hne. cbv zeta.
    rewrite (ExamAttemptFacts.finish_graded World executeCode parseInt now
               req s attemptId attempt exam mainFile testCases
               Hreq Hfile Htcs Hne service_throws_errors test_cases_are_values).
    cbv zeta.
    set (code := Js.or_else (Db.content mainFile) (Js.str "")).
    set (language := Db.lenguajeProgramacion exam).
    set (entries := map fst (ExamAttemptRoute.grading_entries executeCode code language
                               testCases (svc s))).
    exists (Http.json
              (ExamAttemptRoute.attempt_value
                 (Db.apply_update
                    (ExamAttemptRoute.graded_update now code entries (List.length testCases))
                    attempt))).
    eexists. exists (map Wire.to_json entries).
    split; [reflexivity|].
    split.
    { unfold Wire.sent, Http.json, Http.respond, body, ExamAttemptRoute.attempt_value.
      rewrite WireFacts.to_json_obj. unfold Js.field.
      rewrite WireFacts.lookup_keep; reflexivity. }
    split; [unfold entries;
            now rewrite !length_map, ExamAttemptFacts.grading_entries_length|].
    split.
    { apply Forall_forall. intros entry Hin.
      apply in_map_iff in Hin as (e0 & <- & Hin).
      unfold entries in Hin. apply in_map_iff in Hin as ([e1 b1] & <- & Hin).
      clear - Hin. revert Hin. generalize (svc s).
      induction testCases as [|testCase r IH]; intros w Hin; [contradiction|].
      simpl in Hin. destruct Hin as [Hin|Hin].
      - rewrite <- Hin. apply WireFacts.finish_entry_sent.
      - exact (IH _ Hin). }
    split.
    + intros i testCase result expected output actual Htc Hi H1 H2 H3.
      destruct (ExamAttemptFacts.grading_entries_nth World executeCode code language
                  testCases (svc s) i testCase Htc) as (o & Ho & He).
      rewrite Ho in Hi. inversion Hi; subst o.
      exists (Wire.to_json (fst (ExamAttemptRoute.case_entry testCase (Ok result)))).
      split; [apply map_nth_error; exact He|].
      unfold ExamAttemptRoute.case_entry. rewrite H1, H2, H3. cbn [fst].
      apply WireFacts.finish_try_entry_sent; eapply WireFacts.call_trim_kept; eassumption.
    + intros i testCase err Htc Hi.
      destruct (ExamAttemptFacts.grading_entries_nth World executeCode code language
                  testCases (svc s) i testCase Htc) as (o & Ho & He).
      rewrite Ho in Hi. inversion Hi; subst o.
      exists (Wire.to_json (fst (ExamAttemptRoute.case_entry testCase (Throw err)))).
      split; [apply map_nth_error; exact He|].
      apply WireFacts.finish_catch_entry_sent.
Qed.

End BatchClaims.

(** C8, the claim as stated: the finish route answers the scenario
    with three entries, none of which has an [input], an
    [expectedOutput] or an [actualOutput]; and on an engine whose
    results carry only [output] and [exitCode], the entry that POST
    /execute returns has neither [error] nor [executionTime]. *)
Lemma returned_entries_lack_claimed_fields :
  map (fun entry => map (fun k => Js.has_field k entry)
                        ["input"; "expectedOutput"; "actualOutput"]%string)
      (Wire.sent_entries
         (ExamAttemptRoute.finish_handler Scenario.flaky Scenario.parseInt 5000
            Scenario.finish_request (Scenario.finish_start [Scenario.new_main])))
  = [[false; false; false]; [false; false; false]; [false; false; false]]
  /\ map (fun entry => map (fun k => Js.has_field k entry) CodeExecutionRoute.entry_fields)
         (Wire.sent_entries
            (CodeExecutionRoute.execute_handler Probe.terse
               (Scenario.batch_body "print()" [Scenario.testCase "1" ""])
               Scenario.route_start))
     = [[true; true; true; true; false; false]].
Proof. split; vm_compute; reflexivity. Qed.

(** C2, the claim as stated: when the second of three calls rejects
    with [null], reading the message of the rejection throws inside the
    [catch] block; the loop is left, the third test case is never
    executed and the answer is a 500 without entries, in POST /execute
    and in the finish route (which leaves the attempt as it was).  A
    test case that is [null] ends a batch the same way. *)
Lemma batch_aborted_by_null_rejection :
  let run := CodeExecutionRoute.execute_handler Probe.mute
               (Scenario.batch_body "print(input())" Scenario.three_cases)
               Scenario.route_start in
  let grading := ExamAttemptRoute.finish_handler Probe.mute Scenario.parseInt 5000
                   Scenario.finish_request (Scenario.finish_start [Scenario.new_main]) in
  let broken := CodeExecutionRoute.execute_handler Scenario.echo
                  (Scenario.batch_body "print(input())" [Scenario.testCase "a" "a"; JNull])
                  Scenario.route_start in
  (Probe.status_of run = Some 500%Z
   /\ Wire.sent_entries run = []
   /\ List.length (calls (snd run)) = 2)
  /\ (Probe.status_of grading = Some 500%Z
      /\ List.length (calls (snd grading)) = 2
      /\ db (snd grading) = Scenario.database [Scenario.new_main])
  /\ (Probe.status_of broken = Some 500%Z
      /\ Wire.sent_entries broken = []
      /\ List.length (calls (snd broken)) = 1).
Proof. cbv zeta. repeat split; vm_compute; reflexivity. Qed.

Lemma batch_survives_throwing_case_witness :
  exists resp s',
    CodeExecutionRoute.execute_handler Scenario.flaky
      (Scenario.batch_body "print(input())" Scenario.three_cases) Scenario.route_start
    = (Ok resp, s')
    /\ status resp = 200%Z.
Proof.
  destruct (proj1 (@batch_survives_throwing_case Scenario.World Scenario.flaky
                     Scenario.parseInt 5000 flaky_throws_errors
                     Scenario.three_cases three_cases_are_objects)
              _ _ _ Scenario.route_start scenario_batch_request)
    as (resp & s' & testResults & H & Hs & _).
  exists resp, s'. split; assumption.
Defined.

Lemma batch_totals_and_score_witness :
  exists testResults,
    fst (CodeExecutionRoute.execute_handler Scenario.flaky
           (Scenario.batch_body "print(input())" Scenario.three_cases) Scenario.route_start)
    = Ok (Http.json
            (JObj [("success", JBool true);
                   ("score", JNum 0x1.0aaaaaaaaaaaap+6%float);
                   ("passedTests", JNum 2%float);
                   ("totalTests", JNum 3%float);
                   ("testResults", JArr testResults)]%string))
    /\ (2 / 3 * 100 = 0x1.0aaaaaaaaaaaap+6)%float.
Proof.
  destruct (proj1 (@batch_totals_and_score Scenario.World Scenario.flaky
                     Scenario.parseInt 5000 flaky_throws_errors
                     Scenario.three_cases three_cases_are_objects)
              _ _ _ Scenario.route_start scenario_batch_request)
    as (s' & testResults & H & _).
  exists testResults. cbv zeta in H. split; [|reflexivity].
  rewrite H. cbn [fst].
  assert (E : testResults
              = Scenario.answered_entries
                  (CodeExecutionRoute.execute_handler Scenario.flaky
                     (Scenario.batch_body "print(input())" Scenario.three_cases)
                     Scenario.route_start)).
  { rewrite H. reflexivity. }
  rewrite E. vm_compute. reflexivity.
Defined.

Lemma entries_follow_test_case_order_witness :
  exists resp s' testResults,
    CodeExecutionRoute.execute_handler Scenario.flaky
      (Scenario.batch_body "print(input())" Scenario.three_cases) Scenario.route_start
    = (Ok resp, s')
    /\ Js.field (body resp) "testResults" = JArr testResults.
Proof.
  destruct (proj1 (@entries_follow_test_case_order Scenario.World Scenario.flaky
                     Scenario.parseInt 5000 flaky_throws_errors
                     Scenario.three_cases three_cases_are_objects)
              _ _ _ Scenario.route_start scenario_batch_request)
    as (resp & s' & testResults & H & Hr & _).
  exists resp, s', testResults. split; assumption.
Defined.

Lemma entries_carry_their_route_fields_witness :
  exists resp s',
    CodeExecutionRoute.execute_handler Scenario.flaky
      (Scenario.batch_body "print(input())" Scenario.three_cases) Scenario.route_start
    = (Ok resp, s')
    /\ map (fun entry => forallb (fun k => Js.has_field k entry)
                                 CodeExecutionRoute.entry_fields)
           (Js.array_items (Js.field (Wire.sent resp) "testResults"))
       = [true; false; true].
Proof.
  destruct (proj1 (@entries_carry_their_route_fields Scenario.World Scenario.flaky
                     Scenario.parseInt 5000 flaky_throws_errors
                     Scenario.three_cases three_cases_are_objects)
              _ _ _ Scenario.route_start scenario_batch_request)
    as (resp & s' & H & _).
  exists resp, s'. split; [exact H|].
  assert (E : resp = Campus.answer_of
                       (CodeExecutionRoute.execute_handler Scenario.flaky
                          (Scenario.batch_body "print(input())" Scenario.three_cases)
                          Scenario.route_start)).
  { rewrite H. reflexivity. }
  rewrite E. vm_compute. reflexivity.
Defined.

Section GradedCode.

Import ExamAttemptRoute.

Variable World : Type.
Variable executeCode : JSValue -> JSValue -> JSValue -> World -> Outcome JSValue * World.
Variable parseInt : JSValue -> option Z.
Variable now : Z.

Lemma findFirst_saved (req : Request) (exam : Db.Exam) (attempt : Db.ExamAttempt)
    (d : Db.t) :
  Db.examFile_findFirst (Db.examId attempt) (user_userId req) (mainFileName exam)
    (JsString.lit "manual") d
  = Db.latest (saved_main_files req exam attempt d).
Proof. reflexivity. Qed.

(** C10.  For a finish request of the owner on an in-progress attempt of
    a programming exam, with [saved] the student's files for the exam
    named [main.py] (Python exam) or [main.js] (JavaScript exam) in
    version [manual]:
    - when [saved] is empty the answer is 400 and the state is left as
      it was, so the attempt is still [en_progreso];
    - otherwise the handler takes a file of [saved] that none of them
      was updated after; the code run against the test cases and stored
      with the attempt is that file's content, and a request that
      differs only in its body gets the same answer. *)
Theorem finish_grades_saved_main_file
    (req : Request) (s : State World Locals)
    (attemptId : Z) (attempt : Db.ExamAttempt) (exam : Db.Exam) :
  programming_finish parseInt req (db s) attemptId attempt exam ->
  let saved := saved_main_files req exam attempt (db s) in
  (forall f, In f saved ->
     Db.version f = JsString.lit "manual"
     /\ Db.filename f = mainFileName exam
     /\ Db.file_userId f = user_userId req /\ Db.file_examId f = Db.examId attempt)
  /\ (Db.lenguajeProgramacion exam = Js.str "python" ->
      mainFileName exam = JsString.lit "main.py")
  /\ (Db.lenguajeProgramacion exam = Js.str "javascript" ->
      mainFileName exam = JsString.lit "main.js")
  /\ (saved = [] ->
      exists resp,
        finish_handler executeCode parseInt now req s = (Ok resp, s)
        /\ status resp = 400%Z
        /\ Db.examAttempt_findUnique attemptId (db s) = Some attempt
        /\ Db.estado attempt = en_progreso)
  /\ (saved <> [] ->
      exists mainFile,
        In mainFile saved
        /\ (forall f, In f saved -> (Db.updatedAt f <= Db.updatedAt mainFile)%Z)
        /\ (forall c, Db.content mainFile = JStr c ->
                      Js.or_else (Db.content mainFile) (Js.str "") = JStr c)
        /\ forall testCases,
             Db.testCases exam = JArr testCases ->
             testCases <> [] ->
             throws_errors executeCode ->
             Forall (fun testCase => Js.is_nullish testCase = false) testCases ->
             let code := Js.or_else (Db.content mainFile) (Js.str "") in
             (exists resp s' updated,
                finish_handler executeCode parseInt now req s = (Ok resp, s')
                /\ status resp = 200%Z
                /\ calls s' = calls s ++ map (fun testCase =>
                                                ExecuteCode code (Db.lenguajeProgramacion exam)
                                                  (case_options testCase))
                                             testCases
                /\ Db.examAttempt_findUnique attemptId (db s') = Some updated
                /\ Db.codigoProgramacion updated = code
                /\ Db.estado updated = finalizado)
             /\ forall req',
                  params_attemptId req' = params_attemptId req ->
                  user_userId req' = user_userId req ->
                  Js.is_nullish (reqBody req') = false ->
                  finish_handler executeCode parseInt now req' s
                  = finish_handler executeCode parseInt now req s).
Proof.
  intros Hreq saved.
  split; [|split; [|split; [|split]]].
  - intros f Hf. apply filter_In in Hf as [_ Hf].
    apply andb_true_iff in Hf as [Hf Hv].
    apply andb_true_iff in Hf as [Hf Hn].
    apply andb_true_iff in Hf as [He Hu].
    apply JsFacts.eqb_eq in Hv, Hn. apply Z.eqb_eq in He, Hu. auto.
  - intros H. unfold mainFileName. rewrite H. reflexivity.
  - intros H. unfold mainFileName. rewrite H. reflexivity.
  - intros Hnone.
    assert (Hfile : Db.examFile_findFirst (Db.examId attempt) (user_userId req)
                      (mainFileName exam) (JsString.lit "manual") (db s) = None).
    { rewrite findFirst_saved. fold saved. rewrite Hnone. reflexivity. }
    rewrite (ExamAttemptFacts.finish_without_main_file World executeCode parseInt now
               req s attemptId attempt exam Hreq Hfile).
    destruct Hreq as (_ & _ & Hatt & _ & Hest & _).
    eexists. repeat split; assumption.
  - intros Hsome.
    destruct (Db.latest saved) as [mainFile|] eqn:E;
      [|apply ExamAttemptFacts.latest_none in E; contradiction].
    destruct (ExamAttemptFacts.latest_some saved mainFile E) as [Hin Hmax].
    exists mainFile. split; [exact Hin|]. split; [exact Hmax|].
    split; [intros c Hc; rewrite Hc; destruct c; reflexivity|].
    intros testCases Htcs Hne Hthrow Hall. cbv zeta.
    assert (Hfile : Db.examFile_findFirst (Db.examId attempt) (user_userId req)
                      (mainFileName exam) (JsString.lit "manual") (db s) = Some mainFile).
    { rewrite findFirst_saved. exact E. }
    split.
    + rewrite (ExamAttemptFacts.finish_graded World executeCode parseInt now
                 req s attemptId attempt exam mainFile testCases
                 Hreq Hfile Htcs Hne Hthrow Hall).
      cbv zeta. destruct Hreq as (_ & _ & Hatt & _).
      do 3 eexists. split; [reflexivity|]. split; [reflexivity|].
      split; [cbn [calls]; now rewrite map_map|].
      split; [cbn [db]; apply ExamAttemptFacts.findUnique_update; exact Hatt|].
      split; reflexivity.
    + intros req' Hp Hu Hb.
      assert (Hreq' : programming_finish parseInt req' (db s) attemptId attempt exam).
      { destruct Hreq as (H1 & H2 & H3 & H4 & H5 & H6 & H7).
        unfold programming_finish. rewrite Hp, Hu. repeat split; assumption. }
      assert (Hfile' : Db.examFile_findFirst (Db.examId attempt) (user_userId req')
                         (mainFileName exam) (JsString.lit "manual") (db s)
                       = Some mainFile) by (rewrite Hu; exact Hfile).
      rewrite (ExamAttemptFacts.finish_graded World executeCode parseInt now
                 req s attemptId attempt exam mainFile testCases
                 Hreq Hfile Htcs Hne Hthrow Hall).
      rewrite (ExamAttemptFacts.finish_graded World executeCode parseInt now
                 req' s attemptId attempt exam mainFile testCases
                 Hreq' Hfile' Htcs Hne Hthrow Hall).
      reflexivity.
Qed.

End GradedCode.

Lemma finish_grades_saved_main_file_witness :
  exists resp,
    ExamAttemptRoute.finish_handler Scenario.flaky Scenario.parseInt 5000
      Scenario.finish_request (Scenario.finish_start [Scenario.auto_main])
    = (Ok resp, Scenario.finish_start [Scenario.auto_main])
    /\ status resp = 400%Z.
Proof.
  destruct (proj1 (proj2 (proj2 (proj2
              (@finish_grades_saved_main_file Scenario.World Scenario.flaky
                 Scenario.parseInt 5000 Scenario.finish_request
                 (Scenario.finish_start [Scenario.auto_main])
                 1%Z Scenario.attempt1 Scenario.exam7
                 (scenario_programming_finish [Scenario.auto_main]))))) eq_refl)
    as (resp & H & Hs & _).
  exists resp. split; assumption.
Defined.

(** * Further properties of the handlers *)

(** ** Every request is answered *)

Module AnswerFacts.

Import Answer.

Section Rules.

Variable World : Type.
Variable L : Type.

Abbreviation St := (State World L).

Lemma ret_answers (codes : list Z) (r : Response) :
  In (status r) codes -> answers (S := St) codes (Eff.ret r).
Proof. intros H s. exact H. Qed.

Lemma throw_answers (codes : list Z) (e : JSValue) :
  Js.is_nullish e = false -> answers (S := St) codes (Eff.throw e).
Proof. intros H s. exact H. Qed.

Lemma bind_answers {A : Type} (codes : list Z) (m : M St A) (k : A -> M St Response) :
  throws_only_errors m -> (forall a, answers codes (k a)) ->
  answers codes (Eff.bind m k).
Proof.
  intros Hm Hk s. unfold Eff.bind.
  specialize (Hm s). destruct (m s) as [[a|e] s']; simpl in *.
  - apply Hk.
  - now apply Hm.
Qed.

Lemma bind_throws {A B : Type} (m : M St A) (k : A -> M St B) :
  throws_only_errors m -> (forall a, throws_only_errors (k a)) ->
  throws_only_errors (Eff.bind m k).
Proof.
  intros Hm Hk s e. unfold Eff.bind.
  specialize (Hm s). destruct (m s) as [[a|e'] s']; simpl in *.
  - apply Hk.
  - intros H. inversion H; subst. now apply Hm.
Qed.

Lemma ret_throws {A : Type} (a : A) : throws_only_errors (S := St) (Eff.ret a).
Proof. intros s e H. discriminate. Qed.

Lemma gets_throws {A : Type} (f : St -> A) : throws_only_errors (Eff.gets f).
Proof. intros s e H. discriminate. Qed.

Lemma modify_throws (f : St -> St) : throws_only_errors (Eff.modify f).
Proof. intros s e H. discriminate. Qed.

Lemma set_locals_throws (f : L -> L) :
  throws_only_errors (set_locals (World := World) f).
Proof. intros s e H. discriminate. Qed.

Lemma throw_throws {A : Type} (e : JSValue) :
  Js.is_nullish e = false -> throws_only_errors (S := St) (A := A) (Eff.throw e).
Proof. intros H s e' H'. inversion H'; subst. exact H. Qed.

Lemma prop_throws (v : JSValue) (k : string) :
  throws_only_errors (prop (World := World) (L := L) v k).
Proof. intros s e H. exact (JsFacts.get_prop_throw v e k H). Qed.

Lemma opt_trim_eval_throws (v : JSValue) :
  throws_only_errors (S := St) (Eff.eval (Js.opt_trim v)).
Proof. intros s e H. exact (JsFacts.opt_trim_throw v e H). Qed.

Lemma call_trim_eval_throws (v : JSValue) :
  throws_only_errors (S := St) (Eff.eval (Js.call_trim v)).
Proof. intros s e H. exact (JsFacts.call_trim_throw v e H). Qed.

(** Whatever the [try] block throws, a [catch] block that throws only
    error values makes the whole statement throw only error values. *)
Lemma try_catch_throws {A : Type} (m : M St A) (h : JSValue -> M St A) :
  (forall e, throws_only_errors (h e)) -> throws_only_errors (Eff.try_catch m h).
Proof.
  intros Hh s e. unfold Eff.try_catch.
  destruct (m s) as [[a|e'] s']; simpl.
  - discriminate.
  - apply Hh.
Qed.

Lemma for_of_throws (l : list JSValue) (body : JSValue -> M St unit) :
  (forall x, throws_only_errors (body x)) -> throws_only_errors (Eff.for_of l body).
Proof.
  intros Hb. induction l as [|x r IH]; simpl.
  - apply ret_throws.
  - apply bind_throws; [apply Hb | intros _; exact IH].
Qed.

Lemma await_executeCode_throws
    (executeCode : JSValue -> JSValue -> JSValue -> World -> Outcome JSValue * World)
    (code language options : JSValue) :
  throws_errors executeCode ->
  throws_only_errors (await_executeCode executeCode (L := L) code language options).
Proof.
  intros H s e. unfold await_executeCode.
  specialize (H code language options (svc s) e).
  destruct (executeCode code language options (svc s)) as [o w]. exact H.
Qed.

Lemma await_validateSyntax_throws
    (validateSyntax : JSValue -> JSValue -> World -> Outcome JSValue * World)
    (code language : JSValue) :
  validate_throws_errors validateSyntax ->
  throws_only_errors (await_validateSyntax validateSyntax (L := L) code language).
Proof.
  intros H s e. unfold await_validateSyntax.
  specialize (H code language (svc s) e).
  destruct (validateSyntax code language (svc s)) as [o w]. exact H.
Qed.

(** A route whose [try] block answers with [codes] and whose [catch]
    block answers 500 always answers. *)
Lemma route_answers (codes : list Z) (m : M St Response) (h : JSValue -> M St Response) :
  answers codes m ->
  (forall e, Js.is_nullish e = false ->
             forall s, exists r, fst (h e s) = Ok r /\ status r = 500%Z) ->
  forall s, exists r,
    fst (Eff.try_catch m h s) = Ok r /\ In (status r) (500%Z :: codes).
Proof.
  intros Hm Hh s. unfold Eff.try_catch.
  specialize (Hm s). destruct (m s) as [[r|e] s']; simpl in *.
  - exists r. auto.
  - destruct (Hh e Hm s') as (r & Hr & Hs). exists r. rewrite Hs. auto.
Qed.

Lemma details_answer (msg e : JSValue) (s : St) :
  Js.is_nullish e = false ->
  exists r,
    fst (Eff.bind (prop (World := World) (L := L) e "message")
           (fun details =>
              Eff.ret (Http.respond 500 (JObj [("error"%string, msg);
                                               ("details"%string, details)]))) s) = Ok r
    /\ status r = 500%Z.
Proof.
  intros H. unfold Eff.bind, prop, Eff.eval, Eff.ret.
  rewrite (JsFacts.get_prop_field e H). eexists. split; reflexivity.
Qed.

End Rules.

End AnswerFacts.

Section RoutesAnswer.

Import Answer CodeExecutionRoute.

Variable World : Type.
Variable executeCode : JSValue -> JSValue -> JSValue -> World -> Outcome JSValue * World.
Variable validateSyntax : JSValue -> JSValue -> World -> Outcome JSValue * World.
Variable parseInt : JSValue -> option Z.

Hypothesis service_throws_errors : throws_errors executeCode.
Hypothesis validator_throws_errors : validate_throws_errors validateSyntax.

Lemma output_matches_throws (result testCase : JSValue) :
  throws_only_errors (output_matches (World := World) result testCase).
Proof.
  unfold output_matches.
  repeat first
    [ apply AnswerFacts.ret_throws
    | apply AnswerFacts.bind_throws; [|intros ?]
    | apply AnswerFacts.prop_throws
    | apply AnswerFacts.opt_trim_eval_throws ].
Qed.

Lemma execute_case_throws (code language testCase : JSValue) :
  throws_only_errors (execute_case executeCode code language testCase).
Proof.
  unfold execute_case. apply AnswerFacts.try_catch_throws. intros err.
  unfold push.
  repeat first
    [ apply AnswerFacts.set_locals_throws
    | apply AnswerFacts.bind_throws; [|intros ?]
    | apply AnswerFacts.prop_throws ].
Qed.

Lemma single_run_answers (result : JSValue) :
  answers [200%Z; 400%Z] (single_run (World := World) result).
Proof.
  unfold single_run.
  repeat first
    [ apply AnswerFacts.ret_answers; simpl; tauto
    | apply AnswerFacts.bind_answers; [|intros ?]
    | apply AnswerFacts.prop_throws ].
Qed.

(** X1.  The three handlers of [codeExecution.route.ts] answer every
    request, whatever its body holds: with 200, 400 or 500, and /run
    with 404 besides.  No rejection escapes a handler, provided the
    service rejects with error values. *)
Theorem code_execution_routes_always_answer (reqBody : JSValue) (s : State World Locals) :
  (exists r, fst (run_handler executeCode parseInt reqBody s) = Ok r
             /\ In (status r) [500%Z; 200%Z; 400%Z; 404%Z])
  /\ (exists r, fst (validate_handler validateSyntax reqBody s) = Ok r
                /\ In (status r) [500%Z; 200%Z; 400%Z])
  /\ (exists r, fst (execute_handler executeCode reqBody s) = Ok r
                /\ In (status r) [500%Z; 200%Z; 400%Z]).
Proof.
  split; [|split].
  - unfold run_handler. apply AnswerFacts.route_answers;
      [|intros e He s0; now apply AnswerFacts.details_answer].
    repeat (apply AnswerFacts.bind_answers; [apply AnswerFacts.prop_throws | intros ?]).
    cbv zeta.
    assert (E : forall input,
               answers [200%Z; 400%Z; 404%Z]
                 (Eff.bind (await_executeCode executeCode (L := Locals) a a0
                              (options (Js.or_else input (Js.str ""))))
                    (fun result =>
                       Eff.bind (prop result "output") (fun output =>
                       Eff.bind (prop result "error") (fun error =>
                       Eff.bind (prop result "exitCode") (fun exitCode =>
                       Eff.bind (prop result "executionTime") (fun executionTime =>
                       Eff.ret (Http.json
                                  (JObj [("success", JBool true); ("output", output);
                                         ("error", error); ("exitCode", exitCode);
                                         ("executionTime", executionTime)]%string))))))))).
    { intros input.
      apply AnswerFacts.bind_answers;
        [now apply AnswerFacts.await_executeCode_throws | intros result].
      repeat (apply AnswerFacts.bind_answers; [apply AnswerFacts.prop_throws | intros ?]).
      apply AnswerFacts.ret_answers. simpl. tauto. }
    destruct (negb (Js.truthy a) || negb (Js.truthy a0));
      [apply AnswerFacts.ret_answers; simpl; tauto|].
    destruct (negb (Js.includes supported a0));
      [apply AnswerFacts.ret_answers; simpl; tauto|].
    destruct (Js.truthy a1); [|apply E].
    apply AnswerFacts.bind_answers.
    + unfold find_exam. destruct (parseInt a1).
      * apply AnswerFacts.gets_throws.
      * now apply AnswerFacts.throw_throws.
    + intros [exam|]; [|apply AnswerFacts.ret_answers; simpl; tauto].
      destruct (negb (JsString.eqb (Db.tipo exam) (JsString.lit "programming")));
        [apply AnswerFacts.ret_answers; simpl; tauto | apply E].
  - unfold validate_handler. apply AnswerFacts.route_answers;
      [|intros e He s0; now apply AnswerFacts.details_answer].
    repeat (apply AnswerFacts.bind_answers; [apply AnswerFacts.prop_throws | intros ?]).
    destruct (negb (Js.truthy a) || negb (Js.truthy a0));
      [apply AnswerFacts.ret_answers; simpl; tauto|].
    apply AnswerFacts.bind_answers;
      [now apply AnswerFacts.await_validateSyntax_throws | intros result].
    repeat (apply AnswerFacts.bind_answers; [apply AnswerFacts.prop_throws | intros ?]).
    apply AnswerFacts.ret_answers. simpl. tauto.
  - unfold execute_handler. apply AnswerFacts.route_answers;
      [|intros e He s0; now apply AnswerFacts.details_answer].
    repeat (apply AnswerFacts.bind_answers; [apply AnswerFacts.prop_throws | intros ?]).
    destruct (negb (Js.truthy a) || negb (Js.truthy a0));
      [apply AnswerFacts.ret_answers; simpl; tauto|].
    destruct (negb (Js.includes supported a0));
      [apply AnswerFacts.ret_answers; simpl; tauto|].
    destruct (negb (Js.strict_eq a3 JUndefined) && negb (Js.strict_eq a3 JNull)).
    { apply AnswerFacts.bind_answers;
        [now apply AnswerFacts.await_executeCode_throws | intros result].
      apply single_run_answers. }
    destruct (Js.truthy a2 && Js.is_array a2 && Nat.ltb 0 (List.length (Js.array_items a2))).
    + apply AnswerFacts.bind_answers; [apply AnswerFacts.set_locals_throws | intros _].
      apply AnswerFacts.bind_answers;
        [apply AnswerFacts.for_of_throws; intros x; apply execute_case_throws | intros _].
      apply AnswerFacts.bind_answers; [apply AnswerFacts.gets_throws | intros l].
      apply AnswerFacts.ret_answers. simpl. tauto.
    + apply AnswerFacts.bind_answers;
        [now apply AnswerFacts.await_executeCode_throws | intros result].
      apply single_run_answers.
Qed.

End RoutesAnswer.

Section AttemptRoutesAnswer.

Import Answer ExamAttemptRoute.

Variable World : Type.
Variable executeCode : JSValue -> JSValue -> JSValue -> World -> Outcome JSValue * World.
Variable parseInt : JSValue -> option Z.
Variable now : Z.

Abbreviation St := (State World Locals).

Lemma ret_within (codes : list Z) (r : Response) :
  In (status r) codes -> answers_within (S := St) codes (Eff.ret r).
Proof. intros H s r' E. inversion E; subst. exact H. Qed.

Lemma throw_within (codes : list Z) (e : JSValue) :
  answers_within (S := St) codes (Eff.throw e).
Proof. intros s r E. discriminate. Qed.

Lemma bind_within {A : Type} (codes : list Z) (m : M St A) (k : A -> M St Response) :
  (forall a, answers_within codes (k a)) -> answers_within codes (Eff.bind m k).
Proof.
  intros Hk s r. unfold Eff.bind.
  destruct (m s) as [[a|e] s']; simpl; [apply Hk | discriminate].
Qed.

(** A route whose [catch] block answers 500 without looking at what
    was thrown answers whatever its [try] block does. *)
Lemma guarded_route_answers (codes : list Z) (m : M St Response) (msg : JSValue) (s : St) :
  answers_within codes m ->
  exists r,
    fst (Eff.try_catch m
           (fun _ => Eff.ret (Http.respond 500 (JObj [("error"%string, msg)]))) s) = Ok r
    /\ In (status r) (500%Z :: codes).
Proof.
  intros Hm. unfold Eff.try_catch. specialize (Hm s).
  destruct (m s) as [[r|e] s']; simpl in *.
  - exists r. split; [reflexivity | right; now apply Hm].
  - eexists. split; [reflexivity | left; reflexivity].
Qed.

Lemma update_and_reply_within (attemptId : Z) (u : Db.UpdateData) :
  answers_within [200%Z; 400%Z; 403%Z; 404%Z]
    (update_and_reply (World := World) attemptId u).
Proof.
  unfold update_and_reply.
  apply bind_within; intros _. apply bind_within; intros [a|].
  - apply ret_within. simpl. tauto.
  - apply throw_within.
Qed.

(** X2.  PUT /:attemptId/finish and PUT /:attemptId/save-code answer every
    request that has a body, with 200, 400, 403, 404 or 500: whatever
    the execution service or the grading loop throws ends in the
    route's own 500. *)
Theorem attempt_routes_always_answer (req : Request) (s : St) :
  Js.is_nullish (reqBody req) = false ->
  (exists r, fst (finish_handler executeCode parseInt now req s) = Ok r
             /\ In (status r) [500%Z; 200%Z; 400%Z; 403%Z; 404%Z])
  /\ (exists r, fst (SaveCodeRoute.save_code_handler parseInt req s) = Ok r
                /\ In (status r) [500%Z; 200%Z; 400%Z; 403%Z; 404%Z]).
Proof.
  intros Hbody. split.
  - unfold finish_handler, Eff.bind at 1 2, prop, Eff.eval.
    rewrite !(JsFacts.get_prop_field _ Hbody).
    destruct (parseInt (JStr (params_attemptId req))) as [attemptId|].
    + apply guarded_route_answers.
      apply bind_within; intros [attempt|]; [|apply ret_within; simpl; tauto].
      destruct (negb (Db.userId attempt =? user_userId req)%Z);
        [apply ret_within; simpl; tauto|].
      destruct (negb (JsString.eqb (Db.estado attempt) en_progreso));
        [apply ret_within; simpl; tauto|].
      cbv zeta.
      apply bind_within; intros [attempt_exam|]; [|apply throw_within].
      destruct (JsString.eqb (Db.tipo attempt_exam) (JsString.lit "programming")).
      * apply bind_within; intros [exam|]; [|apply ret_within; simpl; tauto].
        apply bind_within; intros [mainFile|]; [|apply ret_within; simpl; tauto].
        destruct (Js.truthy (Db.testCases exam) && Js.is_array (Db.testCases exam)
                  && Nat.ltb 0 (List.length (Js.array_items (Db.testCases exam)))).
        -- do 3 (apply bind_within; intros ?). apply update_and_reply_within.
        -- apply update_and_reply_within.
      * destruct (JsString.eqb (Db.tipo attempt_exam) (JsString.lit "multiple_choice")).
        -- apply bind_within; intros exam. apply bind_within; intros preguntas.
           destruct exam; [|apply update_and_reply_within].
           destruct (Nat.ltb 0 (List.length preguntas)); apply update_and_reply_within.
        -- apply update_and_reply_within.
    + eexists. split; [reflexivity | simpl; tauto].
  - unfold SaveCodeRoute.save_code_handler, Eff.bind at 1, prop, Eff.eval.
    rewrite !(JsFacts.get_prop_field _ Hbody).
    destruct (parseInt (JStr (params_attemptId req))) as [attemptId|].
    + apply guarded_route_answers.
      apply bind_within; intros [attempt|]; [|apply ret_within; simpl; tauto].
      destruct (negb (Db.userId attempt =? user_userId req)%Z);
        [apply ret_within; simpl; tauto|].
      destruct (negb (JsString.eqb (Db.estado attempt) en_progreso));
        [apply ret_within; simpl; tauto|].
      apply bind_within; intros [attempt_exam|]; [|apply throw_within].
      destruct (negb (JsString.eqb (Db.tipo attempt_exam) (JsString.lit "programming")));
        [apply ret_within; simpl; tauto|].
      do 2 (apply bind_within; intros ?). apply bind_within; intros [a1|].
      * apply ret_within. simpl. tauto.
      * apply throw_within.
    + eexists. split; [reflexivity | simpl; tauto].
Qed.

End AttemptRoutesAnswer.

(** ** What reaches the database *)

Module DbFacts.

Import Answer.

Section Frame.

Variable World : Type.
Variable L : Type.

Abbreviation St := (State World L).

Lemma bind_keeps_db {A B : Type} (m : M St A) (k : A -> M St B) :
  keeps_db m -> (forall a, keeps_db (k a)) -> keeps_db (Eff.bind m k).
Proof.
  intros Hm Hk s. unfold Eff.bind. specialize (Hm s).
  destruct (m s) as [[a|e] s']; simpl in *.
  - rewrite Hk. exact Hm.
  - exact Hm.
Qed.

Lemma try_catch_keeps_db {A : Type} (m : M St A) (h : JSValue -> M St A) :
  keeps_db m -> (forall e, keeps_db (h e)) -> keeps_db (Eff.try_catch m h).
Proof.
  intros Hm Hh s. unfold Eff.try_catch. specialize (Hm s).
  destruct (m s) as [[a|e] s']; simpl in *.
  - exact Hm.
  - rewrite Hh. exact Hm.
Qed.

Lemma ret_keeps_db {A : Type} (a : A) : keeps_db (World := World) (L := L) (Eff.ret a).
Proof. intros s. reflexivity. Qed.

Lemma throw_keeps_db {A : Type} (e : JSValue) :
  keeps_db (World := World) (L := L) (A := A) (Eff.throw e).
Proof. intros s. reflexivity. Qed.

Lemma eval_keeps_db {A : Type} (o : Outcome A) :
  keeps_db (World := World) (L := L) (Eff.eval o).
Proof. intros s. reflexivity. Qed.

Lemma gets_keeps_db {A : Type} (f : St -> A) : keeps_db (Eff.gets f).
Proof. intros s. reflexivity. Qed.

Lemma prop_keeps_db (v : JSValue) (k : string) :
  keeps_db (prop (World := World) (L := L) v k).
Proof. intros s. reflexivity. Qed.

Lemma set_locals_keeps_db (f : L -> L) : keeps_db (set_locals (World := World) f).
Proof. intros s. reflexivity. Qed.

Lemma await_executeCode_keeps_db
    (executeCode : JSValue -> JSValue -> JSValue -> World -> Outcome JSValue * World)
    (code language options : JSValue) :
  keeps_db (await_executeCode executeCode (L := L) code language options).
Proof.
  intros s. unfold await_executeCode.
  destruct (executeCode code language options (svc s)). reflexivity.
Qed.

Lemma await_validateSyntax_keeps_db
    (validateSyntax : JSValue -> JSValue -> World -> Outcome JSValue * World)
    (code language : JSValue) :
  keeps_db (await_validateSyntax validateSyntax (L := L) code language).
Proof.
  intros s. unfold await_validateSyntax.
  destruct (validateSyntax code language (svc s)). reflexivity.
Qed.

Lemma for_of_keeps_db (l : list JSValue) (body : JSValue -> M St unit) :
  (forall x, keeps_db (body x)) -> keeps_db (Eff.for_of l body).
Proof.
  intros Hb. induction l as [|x r IH]; simpl.
  - apply ret_keeps_db.
  - apply bind_keeps_db; [apply Hb | intros _; exact IH].
Qed.

End Frame.

(** An update touches the row of its id and no other row or table. *)
Lemma update_frame (attemptId : Z) (u : Db.UpdateData) (d : Db.t) :
  Db.exams (Db.examAttempt_update attemptId u d) = Db.exams d
  /\ Db.preguntas (Db.examAttempt_update attemptId u d) = Db.preguntas d
  /\ Db.examFiles (Db.examAttempt_update attemptId u d) = Db.examFiles d
  /\ forall i, i <> attemptId ->
       Db.examAttempt_findUnique i (Db.examAttempt_update attemptId u d)
       = Db.examAttempt_findUnique i d.
Proof.
  repeat split. intros i Hi.
  unfold Db.examAttempt_findUnique, Db.examAttempt_update. simpl.
  induction (Db.examAttempts d) as [|a l IH]; simpl; [reflexivity|].
  destruct (Db.id a =? attemptId)%Z eqn:E; simpl.
  - apply Z.eqb_eq in E.
    destruct (Db.id a =? i)%Z eqn:E'; [apply Z.eqb_eq in E'; congruence | exact IH].
  - destruct (Db.id a =? i)%Z; [reflexivity | exact IH].
Qed.

End DbFacts.

Section FinishOutcome.

Import Answer ExamAttemptRoute.

Variable World : Type.
Variable executeCode : JSValue -> JSValue -> JSValue -> World -> Outcome JSValue * World.
Variable parseInt : JSValue -> option Z.
Variable now : Z.

Abbreviation St := (State World Locals).

Lemma grade_case_keeps_db (code language testCase : JSValue) :
  keeps_db (grade_case executeCode code language testCase).
Proof.
  unfold grade_case, trimmed_expected, trimmed_actual, case_passed, push,
    increment_testsPasados.
  apply DbFacts.try_catch_keeps_db; [|intros e];
    repeat first
      [ apply DbFacts.bind_keeps_db; [|intros ?]
      | apply DbFacts.prop_keeps_db
      | apply DbFacts.eval_keeps_db
      | apply DbFacts.ret_keeps_db
      | apply DbFacts.set_locals_keeps_db
      | apply DbFacts.await_executeCode_keeps_db
      | match goal with |- keeps_db (if ?c then _ else _) => destruct c end ].
Qed.

Lemma update_and_reply_run (attemptId : Z) (u : Db.UpdateData) (attempt : Db.ExamAttempt)
    (s : St) :
  Db.examAttempt_findUnique attemptId (db s) = Some attempt ->
  update_and_reply (World := World) attemptId u s
  = (Ok (Http.json (attempt_value (Db.apply_update u attempt))),
     {| svc := svc s; calls := calls s;
        db := Db.examAttempt_update attemptId u (db s); locals := locals s |}).
Proof.
  intros H. unfold update_and_reply, Eff.bind, Eff.modify, Eff.gets, Eff.ret. cbn [db].
  rewrite (ExamAttemptFacts.findUnique_update attemptId u (db s) attempt H).
  reflexivity.
Qed.

(** The outcome of a finish request: a refusal or failure that leaves
    the database alone, or the update of the requester's in-progress
    attempt. *)
Lemma finish_outcome (req : Request) (s : St) :
  let run := finish_handler executeCode parseInt now req s in
  (db (snd run) = db s /\ forall r, fst run = Ok r -> status r <> 200%Z)
  \/ exists attemptId attempt u,
       parseInt (JStr (params_attemptId req)) = Some attemptId
       /\ Db.examAttempt_findUnique attemptId (db s) = Some attempt
       /\ Db.userId attempt = user_userId req
       /\ Db.estado attempt = en_progreso
       /\ Db.set_estado u = Some finalizado
       /\ Db.set_finishedAt u = Some now
       /\ fst run = Ok (Http.json (attempt_value (Db.apply_update u attempt)))
       /\ db (snd run) = Db.examAttempt_update attemptId u (db s).
Proof.
  cbv zeta.
  set (P := fun run : Outcome Response * St =>
    (db (snd run) = db s /\ forall r, fst run = Ok r -> status r <> 200%Z)
    \/ exists attemptId attempt u,
         parseInt (JStr (params_attemptId req)) = Some attemptId
         /\ Db.examAttempt_findUnique attemptId (db s) = Some attempt
         /\ Db.userId attempt = user_userId req
         /\ Db.estado attempt = en_progreso
         /\ Db.set_estado u = Some finalizado
         /\ Db.set_finishedAt u = Some now
         /\ fst run = Ok (Http.json (attempt_value (Db.apply_update u attempt)))
         /\ db (snd run) = Db.examAttempt_update attemptId u (db s)).
  change (P (finish_handler executeCode parseInt now req s)).
  assert (Refused : forall (code : Z) (payload : JSValue) (s1 : St),
            db s1 = db s -> code <> 200%Z -> P (Ok (Http.respond code payload), s1)).
  { intros code payload s1 Hdb Hc. left. split; [exact Hdb|].
    intros r Hr. inversion Hr; subst r. exact Hc. }
  unfold finish_handler, Eff.bind at 1 2, prop, Eff.eval.
  destruct (Js.is_nullish (reqBody req)) eqn:Hbody.
  { left. destruct (reqBody req); try discriminate; simpl;
      (split; [reflexivity | intros r Hr; discriminate]). }
  rewrite !(JsFacts.get_prop_field _ Hbody).
  destruct (parseInt (JStr (params_attemptId req))) as [attemptId|] eqn:Hid;
    [|apply Refused; [reflexivity | discriminate]].
  unfold Eff.try_catch, Eff.bind at 1, Eff.gets at 1.
  destruct (Db.examAttempt_findUnique attemptId (db s)) as [attempt|] eqn:Hatt;
    [|apply Refused; [reflexivity | discriminate]].
  cbv beta iota.
  destruct (Db.userId attempt =? user_userId req)%Z eqn:Hu; cbn [negb];
    [|apply Refused; [reflexivity | discriminate]].
  destruct (JsString.eqb (Db.estado attempt) en_progreso) eqn:He; cbn [negb];
    [|apply Refused; [reflexivity | discriminate]].
  apply Z.eqb_eq in Hu. apply JsFacts.eqb_eq in He.
  assert (Done : forall (u : Db.UpdateData) (s1 : St),
            db s1 = db s ->
            Db.set_estado u = Some finalizado -> Db.set_finishedAt u = Some now ->
            P (match update_and_reply (World := World) attemptId u s1 with
               | (Ok a, s') => (Ok a, s')
               | (Throw e, s') =>
                   Eff.ret (Http.respond 500
                              (JObj [("error"%string, Msg.error_finalizando)])) s'
               end)).
  { intros u s1 Hdb H1 H2.
    rewrite (update_and_reply_run attemptId u attempt s1) by (rewrite Hdb; exact Hatt).
    right. exists attemptId, attempt, u. cbn [fst snd db]. rewrite Hdb.
    repeat split; assumption. }
  cbv zeta. unfold Eff.bind at 1, Eff.gets at 1.
  destruct (Db.exam_findUnique (Db.examId attempt) (db s)) as [attempt_exam|] eqn:Hexam;
    [|apply Refused; [reflexivity | discriminate]].
  cbv beta iota.
  destruct (JsString.eqb (Db.tipo attempt_exam) (JsString.lit "programming")) eqn:Ht.
  - unfold Eff.bind at 1, Eff.gets at 1. rewrite Hexam. cbv beta iota.
    unfold Eff.bind at 1, Eff.gets at 1.
    destruct (Db.examFile_findFirst _ _ _ _ (db s)) as [mainFile|] eqn:Hf;
      [|apply Refused; [reflexivity | discriminate]].
    cbv beta iota.
    destruct (Js.truthy (Db.testCases attempt_exam) && Js.is_array (Db.testCases attempt_exam)
              && Nat.ltb 0 (List.length (Js.array_items (Db.testCases attempt_exam))));
      [|apply Done; reflexivity].
    unfold Eff.bind at 1. unfold set_locals at 1, Eff.modify at 1. cbv beta iota.
    unfold Eff.bind at 1.
    match goal with
    | |- context [Eff.for_of ?l ?b ?s0] =>
        pose proof (DbFacts.for_of_keeps_db World Locals l b
                      (fun x => grade_case_keeps_db _ _ x) s0) as Hloop;
        destruct (Eff.for_of l b s0) as [[[]|e] s1]
    end; cbn [snd db] in Hloop.
    + unfold Eff.bind at 1, Eff.gets at 1. cbv beta iota.
      apply Done; [exact Hloop | reflexivity | reflexivity].
    + apply Refused; [exact Hloop | discriminate].
  - destruct (JsString.eqb (Db.tipo attempt_exam) (JsString.lit "multiple_choice")).
    + unfold Eff.bind at 1, Eff.gets at 1. rewrite Hexam. cbv beta iota.
      unfold Eff.bind at 1, Eff.gets at 1. cbv beta iota.
      destruct (Nat.ltb 0 (List.length (Db.exam_preguntas (Db.examId attempt) (db s))));
        apply Done; reflexivity.
    + apply Done; reflexivity.
Qed.

(** X3.  A finish request either finalizes its attempt or changes nothing
    in the database.  When the answer is not 200 -- a refusal, or the
    500 that follows a failure in the grading loop or in the service --
    the database is as it was before the request.  When the answer is
    200, the request came from the owner of an attempt that was
    [en_progreso]; that row has been updated with [estado]
    ['finalizado'] and [finishedAt] set to the time of the request, the
    rest of the database is as it was, and the answer is the updated
    row. *)
Theorem finish_all_or_nothing (req : Request) (s : St) :
  let run := finish_handler executeCode parseInt now req s in
  (db (snd run) = db s /\ forall r, fst run = Ok r -> status r <> 200%Z)
  \/ exists attemptId attempt u,
       parseInt (JStr (params_attemptId req)) = Some attemptId
       /\ Db.examAttempt_findUnique attemptId (db s) = Some attempt
       /\ Db.userId attempt = user_userId req
       /\ Db.estado attempt = en_progreso
       /\ Db.set_estado u = Some finalizado
       /\ Db.set_finishedAt u = Some now
       /\ fst run = Ok (Http.json (attempt_value (Db.apply_update u attempt)))
       /\ db (snd run) = Db.examAttempt_update attemptId u (db s).
Proof. exact (finish_outcome req s). Qed.

End FinishOutcome.

Section AttemptGuards.

Import ExamAttemptRoute.

Variable World : Type.
Variable executeCode : JSValue -> JSValue -> JSValue -> World -> Outcome JSValue * World.
Variable parseInt : JSValue -> option Z.
Variable now : Z.

Abbreviation St := (State World Locals).

Lemma eqb_false (a b : JsString.t) : a <> b -> JsString.eqb a b = false.
Proof.
  intros H. destruct (JsString.eqb a b) eqn:E; [|reflexivity].
  apply JsFacts.eqb_eq in E. contradiction.
Qed.

(** Both handlers stop at the first guard that fails, with the same
    answers, and leave the state as it is. *)
Lemma guards_run (req : Request) (s : St) (attemptId : Z) :
  Js.is_nullish (reqBody req) = false ->
  parseInt (JStr (params_attemptId req)) = Some attemptId ->
  let refused code msg :=
    finish_handler executeCode parseInt now req s
    = (Ok (Http.respond code (JObj [("error"%string, msg)])), s)
    /\ SaveCodeRoute.save_code_handler parseInt req s
       = (Ok (Http.respond code (JObj [("error"%string, msg)])), s) in
  (Db.examAttempt_findUnique attemptId (db s) = None -> refused 404%Z Msg.no_encontrado)
  /\ forall attempt,
       Db.examAttempt_findUnique attemptId (db s) = Some attempt ->
       (Db.userId attempt <> user_userId req -> refused 403%Z Msg.no_autorizado)
       /\ (Db.userId attempt = user_userId req ->
           Db.estado attempt <> en_progreso -> refused 400%Z Msg.ya_finalizado).
Proof.
  intros Hbody Hid. cbv zeta.
  assert (Start : forall (k : M St Response) (k' : M St Response),
            finish_handler executeCode parseInt now req s = finish_handler executeCode parseInt now req s).
  { reflexivity. }
  clear Start.
  split.
  - intros Hatt. split.
    + unfold finish_handler, Eff.bind at 1 2, prop, Eff.eval.
      rewrite !(JsFacts.get_prop_field _ Hbody), Hid.
      unfold Eff.try_catch, Eff.bind at 1, Eff.gets at 1. rewrite Hatt. reflexivity.
    + unfold SaveCodeRoute.save_code_handler, Eff.bind at 1, prop, Eff.eval.
      rewrite !(JsFacts.get_prop_field _ Hbody), Hid.
      unfold Eff.try_catch, Eff.bind at 1, Eff.gets at 1. rewrite Hatt. reflexivity.
  - intros attempt Hatt. split.
    + intros Hu. apply Z.eqb_neq in Hu. split.
      * unfold finish_handler, Eff.bind at 1 2, prop, Eff.eval.
        rewrite !(JsFacts.get_prop_field _ Hbody), Hid.
        unfold Eff.try_catch, Eff.bind at 1, Eff.gets at 1. rewrite Hatt. cbv beta iota.
        rewrite Hu. reflexivity.
      * unfold SaveCodeRoute.save_code_handler, Eff.bind at 1, prop, Eff.eval.
        rewrite !(JsFacts.get_prop_field _ Hbody), Hid.
        unfold Eff.try_catch, Eff.bind at 1, Eff.gets at 1. rewrite Hatt. cbv beta iota.
        rewrite Hu. reflexivity.
    + intros Hu He. apply eqb_false in He. split.
      * unfold finish_handler, Eff.bind at 1 2, prop, Eff.eval.
        rewrite !(JsFacts.get_prop_field _ Hbody), Hid.
        unfold Eff.try_catch, Eff.bind at 1, Eff.gets at 1. rewrite Hatt. cbv beta iota.
        rewrite Hu, Z.eqb_refl, He. reflexivity.
      * unfold SaveCodeRoute.save_code_handler, Eff.bind at 1, prop, Eff.eval.
        rewrite !(JsFacts.get_prop_field _ Hbody), Hid.
        unfold Eff.try_catch, Eff.bind at 1, Eff.gets at 1. rewrite Hatt. cbv beta iota.
        rewrite Hu, Z.eqb_refl, He. reflexivity.
Qed.

(** X4.  PUT /:attemptId/finish and PUT /:attemptId/save-code share their
    guards: an attempt id that is not a number is answered 400, an
    unknown attempt 404, an attempt of another user 403 and an attempt
    that is no longer [en_progreso] 400; save-code also answers 400 for
    an attempt of an exam that is not a programming exam.  In each case
    the state is left as it was. *)
Theorem attempt_guards_refuse (req : Request) (s : St) :
  Js.is_nullish (reqBody req) = false ->
  let refused code msg :=
    finish_handler executeCode parseInt now req s
    = (Ok (Http.respond code (JObj [("error"%string, msg)])), s)
    /\ SaveCodeRoute.save_code_handler parseInt req s
       = (Ok (Http.respond code (JObj [("error"%string, msg)])), s) in
  (parseInt (JStr (params_attemptId req)) = None -> refused 400%Z Msg.id_invalido)
  /\ forall attemptId,
       parseInt (JStr (params_attemptId req)) = Some attemptId ->
       (Db.examAttempt_findUnique attemptId (db s) = None -> refused 404%Z Msg.no_encontrado)
       /\ forall attempt,
            Db.examAttempt_findUnique attemptId (db s) = Some attempt ->
            (Db.userId attempt <> user_userId req -> refused 403%Z Msg.no_autorizado)
            /\ (Db.userId attempt = user_userId req ->
                Db.estado attempt <> en_progreso -> refused 400%Z Msg.ya_finalizado)
            /\ (Db.userId attempt = user_userId req ->
                Db.estado attempt = en_progreso ->
                forall exam,
                  Db.exam_findUnique (Db.examId attempt) (db s) = Some exam ->
                  Db.tipo exam <> JsString.lit "programming" ->
                  SaveCodeRoute.save_code_handler parseInt req s
                  = (Ok (Http.respond 400
                           (JObj [("error"%string, SaveCodeRoute.Msg.solo_programacion)])), s)).
Proof.
  intros Hbody. cbv zeta. split.
  - intros Hid. split.
    + unfold finish_handler, Eff.bind at 1 2, prop, Eff.eval.
      rewrite !(JsFacts.get_prop_field _ Hbody), Hid. reflexivity.
    + unfold SaveCodeRoute.save_code_handler, Eff.bind at 1, prop, Eff.eval.
      rewrite !(JsFacts.get_prop_field _ Hbody), Hid. reflexivity.
  - intros attemptId Hid.
    destruct (guards_run req s attemptId Hbody Hid) as [H404 Hrest].
    split; [exact H404|]. intros attempt Hatt.
    destruct (Hrest attempt Hatt) as [H403 H400].
    split; [exact H403|]. split; [exact H400|].
    intros Hu He exam Hexam Ht. apply eqb_false in Ht.
    unfold SaveCodeRoute.save_code_handler, Eff.bind at 1, prop, Eff.eval.
    rewrite !(JsFacts.get_prop_field _ Hbody), Hid.
    unfold Eff.try_catch, Eff.bind at 1, Eff.gets at 1. rewrite Hatt. cbv beta iota.
    rewrite Hu, Z.eqb_refl, He, JsFacts.eqb_refl. cbn [negb].
    unfold Eff.bind at 1, Eff.gets at 1. rewrite Hexam. cbv beta iota.
    rewrite Ht. reflexivity.
Qed.

End AttemptGuards.

(** ** Outcomes of save-code and finish *)

Section AttemptOutcomes.

Import Answer ExamAttemptRoute.

Variable World : Type.
Variable executeCode : JSValue -> JSValue -> JSValue -> World -> Outcome JSValue * World.
Variable parseInt : JSValue -> option Z.
Variable now : Z.

Abbreviation St := (State World Locals).

Lemma code_update_sets_code_only (c : JSValue) (u : Db.UpdateData) :
  SaveCodeRoute.code_update c = Ok u ->
  Db.set_finishedAt u = None /\ Db.set_estado u = None /\ Db.set_respuestas u = None
  /\ Db.set_puntaje u = None /\ Db.set_testResults u = None
  /\ Db.set_codigoProgramacion u
     = (if Js.strict_eq c JUndefined then None else Some c).
Proof.
  destruct c; simpl; intros H; inversion H; repeat split.
Qed.

Lemma save_outcome (req : Request) (s : St) :
  let run := SaveCodeRoute.save_code_handler parseInt req s in
  (svc (snd run) = svc s /\ calls (snd run) = calls s /\ locals (snd run) = locals s)
  /\ ((db (snd run) = db s /\ forall r, fst run = Ok r -> status r <> 200%Z)
      \/ exists attemptId attempt exam u,
           parseInt (JStr (params_attemptId req)) = Some attemptId
           /\ Db.examAttempt_findUnique attemptId (db s) = Some attempt
           /\ Db.userId attempt = user_userId req
           /\ Db.estado attempt = en_progreso
           /\ Db.exam_findUnique (Db.examId attempt) (db s) = Some exam
           /\ Db.tipo exam = JsString.lit "programming"
           /\ SaveCodeRoute.code_update (Js.field (reqBody req) "codigoProgramacion") = Ok u
           /\ fst run = Ok (Http.json (JObj [("message"%string, SaveCodeRoute.Msg.guardado);
                                             ("attempt"%string,
                                               attempt_value (Db.apply_update u attempt))]))
           /\ db (snd run) = Db.examAttempt_update attemptId u (db s)).
Proof.
  cbv zeta.
  set (P := fun run : Outcome Response * St =>
    (svc (snd run) = svc s /\ calls (snd run) = calls s /\ locals (snd run) = locals s)
    /\ ((db (snd run) = db s /\ forall r, fst run = Ok r -> status r <> 200%Z)
        \/ exists attemptId attempt exam u,
             parseInt (JStr (params_attemptId req)) = Some attemptId
             /\ Db.examAttempt_findUnique attemptId (db s) = Some attempt
             /\ Db.userId attempt = user_userId req
             /\ Db.estado attempt = en_progreso
             /\ Db.exam_findUnique (Db.examId attempt) (db s) = Some exam
             /\ Db.tipo exam = JsString.lit "programming"
             /\ SaveCodeRoute.code_update (Js.field (reqBody req) "codigoProgramacion") = Ok u
             /\ fst run = Ok (Http.json (JObj [("message"%string, SaveCodeRoute.Msg.guardado);
                                               ("attempt"%string,
                                                 attempt_value (Db.apply_update u attempt))]))
             /\ db (snd run) = Db.examAttempt_update attemptId u (db s))).
  change (P (SaveCodeRoute.save_code_handler parseInt req s)).
  assert (Refused : forall (code : Z) (payload : JSValue),
            code <> 200%Z -> P (Ok (Http.respond code payload), s)).
  { intros code payload Hc. split; [repeat split|]. left. split; [reflexivity|].
    intros r Hr. inversion Hr; subst r. exact Hc. }
  unfold SaveCodeRoute.save_code_handler, Eff.bind at 1, prop, Eff.eval.
  destruct (Js.is_nullish (reqBody req)) eqn:Hbody.
  { split; [destruct (reqBody req); try discriminate; repeat split|].
    left. destruct (reqBody req); try discriminate; simpl;
      (split; [reflexivity | intros r Hr; discriminate]). }
  rewrite !(JsFacts.get_prop_field _ Hbody).
  destruct (parseInt (JStr (params_attemptId req))) as [attemptId|] eqn:Hid;
    [|apply Refused; discriminate].
  unfold Eff.try_catch, Eff.bind at 1, Eff.gets at 1.
  destruct (Db.examAttempt_findUnique attemptId (db s)) as [attempt|] eqn:Hatt;
    [|apply Refused; discriminate].
  cbv beta iota.
  destruct (Db.userId attempt =? user_userId req)%Z eqn:Hu; cbn [negb];
    [|apply Refused; discriminate].
  destruct (JsString.eqb (Db.estado attempt) en_progreso) eqn:He; cbn [negb];
    [|apply Refused; discriminate].
  apply Z.eqb_eq in Hu. apply JsFacts.eqb_eq in He.
  unfold Eff.bind at 1, Eff.gets at 1.
  destruct (Db.exam_findUnique (Db.examId attempt) (db s)) as [exam|] eqn:Hexam;
    [|apply Refused; discriminate].
  cbv beta iota.
  destruct (JsString.eqb (Db.tipo exam) (JsString.lit "programming")) eqn:Ht; cbn [negb];
    [|apply Refused; discriminate].
  apply JsFacts.eqb_eq in Ht.
  unfold Eff.bind at 1. cbv beta.
  destruct (SaveCodeRoute.code_update (Js.field (reqBody req) "codigoProgramacion"))
    as [u|e] eqn:Hcu; [|apply Refused; discriminate].
  unfold Eff.bind, Eff.modify, Eff.gets, Eff.ret. cbn [db].
  rewrite (ExamAttemptFacts.findUnique_update attemptId u (db s) attempt Hatt).
  split; [repeat split|]. right.
  exists attemptId, attempt, exam, u. cbn [fst snd db]. repeat split; assumption.
Qed.

(** X5.  PUT /:attemptId/save-code never calls the execution service, and
    either stores the code or changes nothing.  When the answer is not
    200 the database is as it was.  When it is 200 the request came
    from the owner of an attempt [en_progreso] of a programming exam;
    the update sets no column but [codigoProgramacion] -- to the value
    of the body, or to nothing when the body has none -- so the attempt
    is still [en_progreso], and the answer carries the updated row. *)
Theorem save_code_stores_only_the_code (req : Request) (s : St) :
  let run := SaveCodeRoute.save_code_handler parseInt req s in
  let c := Js.field (reqBody req) "codigoProgramacion" in
  (svc (snd run) = svc s /\ calls (snd run) = calls s)
  /\ ((db (snd run) = db s /\ forall r, fst run = Ok r -> status r <> 200%Z)
      \/ exists attemptId attempt exam u,
           parseInt (JStr (params_attemptId req)) = Some attemptId
           /\ Db.examAttempt_findUnique attemptId (db s) = Some attempt
           /\ Db.userId attempt = user_userId req
           /\ Db.estado attempt = en_progreso
           /\ Db.exam_findUnique (Db.examId attempt) (db s) = Some exam
           /\ Db.tipo exam = JsString.lit "programming"
           /\ (Db.set_finishedAt u = None /\ Db.set_estado u = None
               /\ Db.set_respuestas u = None /\ Db.set_puntaje u = None
               /\ Db.set_testResults u = None
               /\ Db.set_codigoProgramacion u
                  = (if Js.strict_eq c JUndefined then None else Some c))
           /\ Db.estado (Db.apply_update u attempt) = en_progreso
           /\ fst run = Ok (Http.json (JObj [("message"%string, SaveCodeRoute.Msg.guardado);
                                             ("attempt"%string,
                                               attempt_value (Db.apply_update u attempt))]))
           /\ db (snd run) = Db.examAttempt_update attemptId u (db s)).
Proof.
  cbv zeta. destruct (save_outcome req s) as [(Hs & Hc & _) [H|H]].
  - split; [split; assumption|]. left. exact H.
  - split; [split; assumption|]. right.
    destruct H as (attemptId & attempt & exam & u & H1 & H2 & H3 & H4 & H5 & H6 & H7 & H8 & H9).
    exists attemptId, attempt, exam, u.
    pose proof (code_update_sets_code_only _ _ H7) as Hu.
    repeat split; try assumption; try apply Hu.
    unfold Db.apply_update. cbn [Db.estado].
    destruct Hu as (_ & -> & _). exact H4.
Qed.

(** X6.  Neither finish nor save-code touches the exams, the questions or
    the files, nor any attempt other than the one the request names. *)
Theorem attempt_routes_touch_one_row (req : Request) (s : St) :
  let after_finish := db (snd (finish_handler executeCode parseInt now req s)) in
  let after_save := db (snd (SaveCodeRoute.save_code_handler parseInt req s)) in
  (Db.exams after_finish = Db.exams (db s)
   /\ Db.preguntas after_finish = Db.preguntas (db s)
   /\ Db.examFiles after_finish = Db.examFiles (db s)
   /\ forall i, parseInt (JStr (params_attemptId req)) <> Some i ->
        Db.examAttempt_findUnique i after_finish = Db.examAttempt_findUnique i (db s))
  /\ (Db.exams after_save = Db.exams (db s)
      /\ Db.preguntas after_save = Db.preguntas (db s)
      /\ Db.examFiles after_save = Db.examFiles (db s)
      /\ forall i, parseInt (JStr (params_attemptId req)) <> Some i ->
           Db.examAttempt_findUnique i after_save = Db.examAttempt_findUnique i (db s)).
Proof.
  cbv zeta. split.
  - destruct (finish_outcome World executeCode parseInt now req s)
      as [[-> _]|(attemptId & attempt & u & Hid & _ & _ & _ & _ & _ & _ & ->)].
    + repeat split.
    + destruct (DbFacts.update_frame attemptId u (db s)) as (H1 & H2 & H3 & H4).
      repeat split; try assumption.
      intros i Hi. apply H4. intros ->. apply Hi. exact Hid.
  - destruct (save_outcome req s)
      as [_ [[-> _]|(attemptId & attempt & exam & u & Hid & _ & _ & _ & _ & _ & _ & _ & ->)]].
    + repeat split.
    + destruct (DbFacts.update_frame attemptId u (db s)) as (H1 & H2 & H3 & H4).
      repeat split; try assumption.
      intros i Hi. apply H4. intros ->. apply Hi. exact Hid.
Qed.

End AttemptOutcomes.

(** ** Finishing without test cases, and multiple-choice exams *)

Section UngradedFinish.

Import ExamAttemptRoute.

Variable World : Type.
Variable executeCode : JSValue -> JSValue -> JSValue -> World -> Outcome JSValue * World.
Variable parseInt : JSValue -> option Z.
Variable now : Z.

Abbreviation St := (State World Locals).

(** [updateData] of a programming attempt that is not graded. *)
Lemma finish_ungraded (req : Request) (s : St)
    (attemptId : Z) (attempt : Db.ExamAttempt) (exam : Db.Exam) (mainFile : Db.ExamFile) :
  programming_finish parseInt req (db s) attemptId attempt exam ->
  Db.examFile_findFirst (Db.examId attempt) (user_userId req)
    (mainFileName exam) (JsString.lit "manual") (db s) = Some mainFile ->
  Js.array_items (Db.testCases exam) = [] ->
  finish_handler executeCode parseInt now req s =
  (let u := {| Db.set_finishedAt := Some now; Db.set_estado := Some finalizado;
               Db.set_respuestas := None;
               Db.set_codigoProgramacion := Some (Js.or_else (Db.content mainFile) (Js.str ""));
               Db.set_puntaje := None; Db.set_testResults := None |} in
   (Ok (Http.json (attempt_value (Db.apply_update u attempt))),
    {| svc := svc s; calls := calls s;
       db := Db.examAttempt_update attemptId u (db s); locals := locals s |})).
Proof.
  intros (Hbody & Hid & Hatt & Huser & Hest & Hex & Htipo) Hfile Htcs.
  unfold finish_handler, Eff.bind at 1 2, prop, Eff.eval.
  rewrite !(JsFacts.get_prop_field _ Hbody), Hid.
  unfold Eff.try_catch, Eff.bind at 1, Eff.gets at 1.
  rewrite Hatt. cbv beta iota.
  rewrite Huser, Z.eqb_refl, Hest, JsFacts.eqb_refl. cbn [negb]. cbv beta iota zeta.
  unfold Eff.bind at 1, Eff.gets at 1. rewrite Hex. cbv beta iota.
  rewrite Htipo, JsFacts.eqb_refl. cbv beta iota.
  unfold Eff.bind at 1, Eff.gets at 1. rewrite Hex. cbv beta iota.
  unfold Eff.bind at 1, Eff.gets at 1. rewrite Hfile. cbv beta iota.
  rewrite Htcs. cbn [List.length Nat.ltb Nat.leb]. rewrite !Bool.andb_false_r.
  cbn [Db.set_finishedAt Db.set_estado Db.set_respuestas Db.set_codigoProgramacion
       Db.set_puntaje Db.set_testResults].
  rewrite (update_and_reply_run World attemptId _ attempt s Hatt). reflexivity.
Qed.

(** X7.  A programming exam whose [testCases] is not an array with an
    element -- [null], any value that is not an array, or the empty
    array -- is finished without a call to the execution service: the
    attempt is finalized with the saved main file as its code, and its
    [puntaje] and [testResults] stay as they were. *)
Theorem finish_without_test_cases (req : Request) (s : St)
    (attemptId : Z) (attempt : Db.ExamAttempt) (exam : Db.Exam) (mainFile : Db.ExamFile) :
  programming_finish parseInt req (db s) attemptId attempt exam ->
  Db.examFile_findFirst (Db.examId attempt) (user_userId req)
    (mainFileName exam) (JsString.lit "manual") (db s) = Some mainFile ->
  Js.array_items (Db.testCases exam) = [] ->
  exists updated s',
    finish_handler executeCode parseInt now req s
    = (Ok (Http.json (attempt_value updated)), s')
    /\ (svc s' = svc s /\ calls s' = calls s)
    /\ Db.examAttempt_findUnique attemptId (db s') = Some updated
    /\ Db.estado updated = finalizado
    /\ Db.finishedAt updated = Some now
    /\ Db.codigoProgramacion updated = Js.or_else (Db.content mainFile) (Js.str "")
    /\ Db.puntaje updated = Db.puntaje attempt
    /\ Db.testResults updated = Db.testResults attempt
    /\ Db.respuestas updated = Db.respuestas attempt.
Proof.
  intros Hreq Hfile Htcs.
  rewrite (finish_ungraded req s attemptId attempt exam mainFile Hreq Hfile Htcs).
  cbv zeta. destruct Hreq as (_ & _ & Hatt & _).
  do 2 eexists. split; [reflexivity|].
  split; [split; reflexivity|].
  split; [cbn [db]; apply ExamAttemptFacts.findUnique_update; exact Hatt|].
  repeat split.
Qed.

Lemma count_correctas_le (respuestas : JSValue) (ps : list Db.Pregunta) (index : nat) :
  count_correctas respuestas ps index <= List.length ps.
Proof.
  revert index. induction ps as [|p r IH]; intros index; simpl; [lia|].
  specialize (IH (S index)).
  destruct (negb _ && _); lia.
Qed.

Lemma count_correctas_nullish (respuestas : JSValue) (ps : list Db.Pregunta) (index : nat) :
  Js.is_nullish respuestas = true -> count_correctas respuestas ps index = 0.
Proof.
  intros H. revert index. induction ps as [|p r IH]; intros index; simpl; [reflexivity|].
  rewrite H, IH. reflexivity.
Qed.

(** The counter of the [forEach] loop is the number of questions
    whose answer is there and is the right one. *)
Lemma count_correctas_filter (respuestas : JSValue) (ps : list Db.Pregunta) (index : nat) :
  count_correctas respuestas ps index
  = List.length
      (filter (fun ip : nat * Db.Pregunta =>
                 negb (Js.strict_eq
                         (if Js.is_nullish respuestas then JUndefined
                          else Js.opt_index respuestas (fst ip)) JUndefined)
                 && Js.strict_eq
                      (if Js.is_nullish respuestas then JUndefined
                       else Js.opt_index respuestas (fst ip)) (Db.correcta (snd ip)))
              (combine (seq index (List.length ps)) ps)).
Proof.
  revert index. induction ps as [|p r IH]; intros index; simpl; [reflexivity|].
  rewrite IH. destruct (negb _ && _); reflexivity.
Qed.

(** X8.  Finishing an attempt of a multiple-choice exam stores
    [respuestas || {}] and never calls the execution service.  With at
    least one question the [puntaje] is the double
    [correctas / total * 100] (quotient and product of IEEE 754
    doubles), where [total] is the number of questions and [correctas]
    the number of questions whose answer [respuestas?.[index]] is not
    [undefined] and is [===] to the question's [correcta]; [correctas]
    is at most [total] and is 0 when the body carries no [respuestas].
    With no question the [puntaje] is left as it was.  The code and the
    test results of the attempt are left as they were. *)
Theorem multiple_choice_finish (req : Request) (s : St)
    (attemptId : Z) (attempt : Db.ExamAttempt) (exam : Db.Exam) :
  Js.is_nullish (reqBody req) = false ->
  parseInt (JStr (params_attemptId req)) = Some attemptId ->
  Db.examAttempt_findUnique attemptId (db s) = Some attempt ->
  Db.userId attempt = user_userId req ->
  Db.estado attempt = en_progreso ->
  Db.exam_findUnique (Db.examId attempt) (db s) = Some exam ->
  Db.tipo exam = JsString.lit "multiple_choice" ->
  let respuestas := Js.field (reqBody req) "respuestas" in
  let preguntas := Db.exam_preguntas (Db.examId attempt) (db s) in
  let correctas :=
    List.length
      (filter (fun ip : nat * Db.Pregunta =>
                 negb (Js.strict_eq
                         (if Js.is_nullish respuestas then JUndefined
                          else Js.opt_index respuestas (fst ip)) JUndefined)
                 && Js.strict_eq
                      (if Js.is_nullish respuestas then JUndefined
                       else Js.opt_index respuestas (fst ip)) (Db.correcta (snd ip)))
              (combine (seq 0 (List.length preguntas)) preguntas)) in
  let number (n : nat) := PrimFloat.of_uint63 (Uint63.of_Z (Z.of_nat n)) in
  let u := {| Db.set_finishedAt := Some now; Db.set_estado := Some finalizado;
              Db.set_respuestas := Some (Js.or_else respuestas (JObj []));
              Db.set_codigoProgramacion := None;
              Db.set_puntaje :=
                match preguntas with
                | [] => None
                | _ :: _ =>
                    Some (JNum (number correctas / number (List.length preguntas)
                                * 100)%float)
                end;
              Db.set_testResults := None |} in
  finish_handler executeCode parseInt now req s
  = (Ok (Http.json (attempt_value (Db.apply_update u attempt))),
     {| svc := svc s; calls := calls s;
        db := Db.examAttempt_update attemptId u (db s); locals := locals s |})
  /\ correctas <= List.length preguntas
  /\ (Js.is_nullish respuestas = true -> correctas = 0).
Proof.
  intros Hbody Hid Hatt Huser Hest Hex Htipo. cbv zeta.
  rewrite <- (count_correctas_filter (Js.field (reqBody req) "respuestas")
                (Db.exam_preguntas (Db.examId attempt) (db s)) 0).
  split; [|split; [apply count_correctas_le | apply count_correctas_nullish]].
  unfold finish_handler, Eff.bind at 1 2, prop, Eff.eval.
  rewrite !(JsFacts.get_prop_field _ Hbody), Hid.
  unfold Eff.try_catch, Eff.bind at 1, Eff.gets at 1.
  rewrite Hatt. cbv beta iota.
  rewrite Huser, Z.eqb_refl, Hest, JsFacts.eqb_refl. cbn [negb]. cbv beta iota zeta.
  unfold Eff.bind at 1, Eff.gets at 1. rewrite Hex. cbv beta iota.
  rewrite Htipo.
  replace (JsString.eqb (JsString.lit "multiple_choice") (JsString.lit "programming"))
    with false by reflexivity.
  rewrite JsFacts.eqb_refl. cbv beta iota.
  unfold Eff.bind at 1, Eff.gets at 1. rewrite Hex. cbv beta iota.
  unfold Eff.bind at 1, Eff.gets at 1. cbv beta iota.
  cbn [Db.set_finishedAt Db.set_estado Db.set_respuestas Db.set_codigoProgramacion
       Db.set_puntaje Db.set_testResults].
  destruct (Db.exam_preguntas (Db.examId attempt) (db s)) as [|p ps];
    cbn [List.length Nat.ltb Nat.leb]; cbv beta iota;
    rewrite (update_and_reply_run World attemptId _ attempt s Hatt); reflexivity.
Qed.

End UngradedFinish.

(** ** Requests that follow one another *)

Section AttemptSequences.

Import ExamAttemptRoute.

Variable World : Type.
Variable executeCode : JSValue -> JSValue -> JSValue -> World -> Outcome JSValue * World.
Variable parseInt : JSValue -> option Z.
Variable now : Z.

Abbreviation St := (State World Locals).

(** X9.  Once a finish request has been answered 200, the attempt is
    closed: whatever the database holds besides, a later finish or
    save-code request of the same user for the same attempt is answered
    400 ['El intento ya fue finalizado'] and changes nothing. *)
Theorem finished_attempt_stays_closed (req req' : Request) (s s' : St) (r : Response)
    (attemptId later : Z) :
  fst (finish_handler executeCode parseInt now req s) = Ok r ->
  status r = 200%Z ->
  parseInt (JStr (params_attemptId req)) = Some attemptId ->
  Db.examAttempt_findUnique attemptId (db s')
  = Db.examAttempt_findUnique attemptId
      (db (snd (finish_handler executeCode parseInt now req s))) ->
  params_attemptId req' = params_attemptId req ->
  user_userId req' = user_userId req ->
  Js.is_nullish (reqBody req') = false ->
  finish_handler executeCode parseInt later req' s'
  = (Ok (Http.respond 400 (JObj [("error"%string, Msg.ya_finalizado)])), s')
  /\ SaveCodeRoute.save_code_handler parseInt req' s'
     = (Ok (Http.respond 400 (JObj [("error"%string, Msg.ya_finalizado)])), s').
Proof.
  intros Hr H200 Hparse Hrow Hparams Huser' Hbody'.
  destruct (finish_outcome World executeCode parseInt now req s)
    as [[_ Hno]|(i & attempt & u & Hid & Hatt & Hu & _ & Hest & _ & _ & Hdb)].
  { exfalso. exact (Hno r Hr H200). }
  rewrite Hparse in Hid. inversion Hid; subst i.
  rewrite Hdb in Hrow.
  rewrite (ExamAttemptFacts.findUnique_update attemptId u (db s) attempt Hatt) in Hrow.
  assert (Hid' : parseInt (JStr (params_attemptId req')) = Some attemptId)
    by (rewrite Hparams; exact Hparse).
  destruct (guards_run World executeCode parseInt later req' s' attemptId Hbody' Hid')
    as [_ Hguards].
  destruct (Hguards _ Hrow) as [_ Hclosed].
  apply Hclosed.
  - cbn [Db.apply_update Db.userId]. congruence.
  - cbn [Db.apply_update Db.estado]. rewrite Hest. cbn [Db.or_keep]. discriminate.
Qed.

Lemma apply_update_absorbs (u u1 : Db.UpdateData) (a : Db.ExamAttempt) (c : JSValue) :
  Db.set_finishedAt u1 = None -> Db.set_estado u1 = None -> Db.set_respuestas u1 = None ->
  Db.set_puntaje u1 = None -> Db.set_testResults u1 = None ->
  Db.set_codigoProgramacion u = Some c ->
  Db.apply_update u (Db.apply_update u1 a) = Db.apply_update u a.
Proof.
  intros H1 H2 H3 H4 H5 H6. unfold Db.apply_update.
  cbn [Db.id Db.userId Db.examId Db.estado Db.finishedAt Db.respuestas
       Db.codigoProgramacion Db.puntaje Db.testResults].
  rewrite H1, H2, H3, H4, H5, H6. reflexivity.
Qed.

Lemma update_absorbs (i : Z) (u u1 : Db.UpdateData) (d : Db.t) :
  (forall a, Db.apply_update u (Db.apply_update u1 a) = Db.apply_update u a) ->
  Db.examAttempt_update i u (Db.examAttempt_update i u1 d) = Db.examAttempt_update i u d.
Proof.
  intros H. unfold Db.examAttempt_update.
  cbn [Db.exams Db.preguntas Db.examFiles Db.examAttempts].
  f_equal. rewrite map_map. apply map_ext. intros a.
  destruct (Db.id a =? i)%Z eqn:E.
  - cbn [Db.apply_update Db.id]. rewrite E. apply H.
  - rewrite E. reflexivity.
Qed.

(** X10.  What save-code stored plays no part in a finish.  For a programming
    exam with a saved main file, finishing after a save-code request
    for the same attempt -- accepted or refused -- gives the same
    answer, the same calls to the service and the same final database
    as finishing without it: the code column is overwritten with the
    content of the main file. *)
Theorem saved_code_never_reaches_the_grade (req req' : Request) (s : St)
    (attemptId : Z) (attempt : Db.ExamAttempt) (exam : Db.Exam) (mainFile : Db.ExamFile) :
  programming_finish parseInt req (db s) attemptId attempt exam ->
  Db.examFile_findFirst (Db.examId attempt) (user_userId req)
    (mainFileName exam) (JsString.lit "manual") (db s) = Some mainFile ->
  throws_errors executeCode ->
  Forall (fun testCase => Js.is_nullish testCase = false)
    (Js.array_items (Db.testCases exam)) ->
  params_attemptId req' = params_attemptId req ->
  finish_handler executeCode parseInt now req
    (snd (SaveCodeRoute.save_code_handler parseInt req' s))
  = finish_handler executeCode parseInt now req s.
Proof.
  intros Hreq Hfile Hthrow Hall Hparams.
  destruct (save_outcome World parseInt req' s) as [(Hsvc & Hcalls & Hloc) Hdb].
  set (s1 := snd (SaveCodeRoute.save_code_handler parseInt req' s)) in *.
  assert (Same : exists u1,
            db s1 = Db.examAttempt_update attemptId u1 (db s)
            /\ Db.set_finishedAt u1 = None /\ Db.set_estado u1 = None
            /\ Db.set_respuestas u1 = None /\ Db.set_puntaje u1 = None
            /\ Db.set_testResults u1 = None).
  { destruct Hdb as [[Hdb _]|(i & a & e & u1 & Hid' & _ & _ & _ & _ & _ & Hcu & _ & Hdb)].
    - exists {| Db.set_finishedAt := None; Db.set_estado := None; Db.set_respuestas := None;
                Db.set_codigoProgramacion := None; Db.set_puntaje := None;
                Db.set_testResults := None |}.
      split; [|repeat split]. rewrite Hdb.
      unfold Db.examAttempt_update. destruct (db s) as [ex pr fi ats]. cbn.
      f_equal. rewrite <- (map_id ats) at 1. apply map_ext. intros a.
      destruct (Db.id a =? attemptId)%Z; [destruct a|]; reflexivity.
    - exists u1. destruct Hreq as (_ & Hid & _). rewrite Hparams, Hid in Hid'.
      inversion Hid'; subst i.
      split; [exact Hdb|].
      destruct (code_update_sets_code_only _ _ Hcu) as (? & ? & ? & ? & ? & _).
      repeat split; assumption. }
  destruct Same as (u1 & Hdb1 & N1 & N2 & N3 & N4 & N5).
  assert (Hreq1 : programming_finish parseInt req (db s1) attemptId
                    (Db.apply_update u1 attempt) exam).
  { destruct Hreq as (Hbody & Hid & Hatt & Huser & Hest & Hex & Htipo).
    repeat split; try assumption.
    - rewrite Hdb1. apply ExamAttemptFacts.findUnique_update. exact Hatt.
    - cbn [Db.apply_update Db.estado]. rewrite N2. exact Hest.
    - rewrite Hdb1. exact Hex. }
  assert (Hfile1 : Db.examFile_findFirst (Db.examId (Db.apply_update u1 attempt))
                     (user_userId req) (mainFileName exam) (JsString.lit "manual") (db s1)
                   = Some mainFile).
  { rewrite Hdb1. exact Hfile. }
  destruct (Db.testCases exam) as [| |b|f|str|[|t0 r]|props] eqn:Htcs;
    try (rewrite (finish_ungraded World executeCode parseInt now req s1 attemptId
                    _ exam mainFile Hreq1 Hfile1) by (rewrite Htcs; reflexivity);
         rewrite (finish_ungraded World executeCode parseInt now req s attemptId
                    _ exam mainFile Hreq Hfile) by (rewrite Htcs; reflexivity);
         cbv zeta; rewrite Hsvc, Hcalls, Hloc, Hdb1;
         rewrite (update_absorbs attemptId _ u1 (db s))
           by (intros a; eapply apply_update_absorbs; solve [eassumption | reflexivity]);
         erewrite (apply_update_absorbs _ u1 attempt) by solve [eassumption | reflexivity];
         reflexivity).
  cbn [Js.array_items] in Hall.
  rewrite (ExamAttemptFacts.finish_graded World executeCode parseInt now req s1 attemptId
             _ exam mainFile (t0 :: r) Hreq1 Hfile1 Htcs ltac:(discriminate) Hthrow Hall).
  rewrite (ExamAttemptFacts.finish_graded World executeCode parseInt now req s attemptId
             _ exam mainFile (t0 :: r) Hreq Hfile Htcs ltac:(discriminate) Hthrow Hall).
  cbv zeta. rewrite Hsvc, Hcalls, Hdb1.
  rewrite (update_absorbs attemptId _ u1 (db s))
    by (intros a; eapply apply_update_absorbs; solve [eassumption | reflexivity]).
  erewrite (apply_update_absorbs _ u1 attempt) by solve [eassumption | reflexivity].
  reflexivity.
Qed.

End AttemptSequences.

(** ** The single runs of [codeExecution.route.ts] *)

Section CodeRoutes.

Import Answer CodeExecutionRoute.

Variable World : Type.
Variable executeCode : JSValue -> JSValue -> JSValue -> World -> Outcome JSValue * World.
Variable validateSyntax : JSValue -> JSValue -> World -> Outcome JSValue * World.
Variable parseInt : JSValue -> option Z.

Abbreviation St := (State World Locals).

(** X11.  POST /run looks at the exam before it runs anything.  On a request
    that passes the two guards and carries a truthy [examId], an exam
    that does not exist is answered 404, an exam that is not a
    programming exam 400, and an [examId] that is not a number 500 (the
    query is rejected); in all three cases the service is not called
    and the state is left as it was. *)
Theorem run_checks_the_exam_first (reqBody code language : JSValue) (s : St) :
  Js.get_prop reqBody "code" = Ok code ->
  Js.get_prop reqBody "language" = Ok language ->
  Js.truthy code = true ->
  Js.includes supported language = true ->
  Js.truthy (Js.field reqBody "examId") = true ->
  let run := run_handler executeCode parseInt reqBody s in
  match parseInt (Js.field reqBody "examId") with
  | None =>
      exists details,
        run = (Ok (Http.respond 500 (JObj [("error"%string, Msg.error_ejecutar);
                                           ("details"%string, details)])), s)
  | Some i =>
      match Db.exam_findUnique i (db s) with
      | None =>
          run = (Ok (Http.respond 404 (JObj [("error"%string, Msg.examen_no_encontrado)])), s)
      | Some exam =>
          Db.tipo exam <> JsString.lit "programming" ->
          run = (Ok (Http.respond 400 (JObj [("error"%string, Msg.no_es_programacion)])), s)
      end
  end.
Proof.
  intros Hcode Hlang Tcode Tlang Texam. cbv zeta.
  destruct (JsFacts.get_prop_ok _ _ _ Hcode) as [Hbody ->].
  destruct (JsFacts.get_prop_ok _ _ _ Hlang) as [_ ->].
  destruct (parseInt (Js.field reqBody "examId")) as [i|] eqn:Hi;
    [destruct (Db.exam_findUnique i (db s)) as [exam|] eqn:Hexam;
       [intros Ht; apply eqb_false in Ht|]
    |eexists];
    unfold run_handler, Eff.try_catch, Eff.bind at 1 2 3 4, prop, Eff.eval;
    rewrite !(JsFacts.get_prop_field _ Hbody);
    rewrite Tcode, (CodeExecutionFacts.includes_truthy _ Tlang), Tlang, Texam;
    cbn [negb orb]; cbv zeta; unfold Eff.bind at 1, find_exam; rewrite Hi.
  - unfold Eff.gets at 1. rewrite Hexam, Ht. reflexivity.
  - unfold Eff.gets at 1. rewrite Hexam. reflexivity.
  - reflexivity.
Qed.

(** X12.  POST /run on a request that passes the guards, with no [examId] or
    with the id of a programming exam, calls the service exactly once,
    with [input || ''] as the input.  A result is reported with status
    200 and [success: true], also when the result carries an error; a
    rejection of the service is answered 500 with the message of the
    error as [details]. *)
Theorem run_executes_once (reqBody code language : JSValue) (s : St) :
  Js.get_prop reqBody "code" = Ok code ->
  Js.get_prop reqBody "language" = Ok language ->
  Js.truthy code = true ->
  Js.includes supported language = true ->
  (Js.truthy (Js.field reqBody "examId") = false
   \/ exists i exam,
        parseInt (Js.field reqBody "examId") = Some i
        /\ Db.exam_findUnique i (db s) = Some exam
        /\ Db.tipo exam = JsString.lit "programming") ->
  let call := options (Js.or_else (Js.field reqBody "input") (Js.str "")) in
  let run := run_handler executeCode parseInt reqBody s in
  calls (snd run) = calls s ++ [ExecuteCode code language call]
  /\ (forall result,
        fst (executeCode code language call (svc s)) = Ok result ->
        Js.is_nullish result = false ->
        fst run = Ok (Http.json (JObj [("success", JBool true);
                                       ("output", Js.field result "output");
                                       ("error", Js.field result "error");
                                       ("exitCode", Js.field result "exitCode");
                                       ("executionTime",
                                         Js.field result "executionTime")]%string)))
  /\ (forall err,
        fst (executeCode code language call (svc s)) = Throw err ->
        Js.is_nullish err = false ->
        fst run = Ok (Http.respond 500 (JObj [("error", Msg.error_ejecutar);
                                              ("details", Js.field err "message")]%string))).
Proof.
  intros Hcode Hlang Tcode Tlang Hgate. cbv zeta.
  destruct (JsFacts.get_prop_ok _ _ _ Hcode) as [Hbody Ecode].
  destruct (JsFacts.get_prop_ok _ _ _ Hlang) as [_ Elang].
  set (call := options (Js.or_else (Js.field reqBody "input") (Js.str ""))).
  set (P := fun run : Outcome Response * St =>
    calls (snd run) = calls s ++ [ExecuteCode code language call]
    /\ (forall result,
          fst (executeCode code language call (svc s)) = Ok result ->
          Js.is_nullish result = false ->
          fst run = Ok (Http.json (JObj [("success", JBool true);
                                         ("output", Js.field result "output");
                                         ("error", Js.field result "error");
                                         ("exitCode", Js.field result "exitCode");
                                         ("executionTime",
                                           Js.field result "executionTime")]%string)))
    /\ (forall err,
          fst (executeCode code language call (svc s)) = Throw err ->
          Js.is_nullish err = false ->
          fst run = Ok (Http.respond 500
                          (JObj [("error", Msg.error_ejecutar);
                                 ("details", Js.field err "message")]%string)))).
  change (P (run_handler executeCode parseInt reqBody s)).
  unfold run_handler, Eff.try_catch, Eff.bind at 1 2 3 4, prop, Eff.eval.
  rewrite !(JsFacts.get_prop_field _ Hbody), <- Ecode, <- Elang.
  rewrite Tcode, (CodeExecutionFacts.includes_truthy _ Tlang), Tlang.
  cbn [negb orb]. cbv zeta. fold call.
  assert (Run : P (match
                     Eff.bind (await_executeCode executeCode (L := Locals) code language call)
                       (fun result =>
                          Eff.bind (fun s0 : St => (Js.get_prop result "output", s0))
                            (fun output =>
                               Eff.bind (fun s0 : St => (Js.get_prop result "error", s0))
                                 (fun error =>
                                    Eff.bind
                                      (fun s0 : St => (Js.get_prop result "exitCode", s0))
                                      (fun exitCode =>
                                         Eff.bind
                                           (fun s0 : St =>
                                              (Js.get_prop result "executionTime", s0))
                                           (fun executionTime =>
                                              Eff.ret
                                                (Http.json
                                                   (JObj [("success", JBool true);
                                                          ("output", output);
                                                          ("error", error);
                                                          ("exitCode", exitCode);
                                                          ("executionTime",
                                                            executionTime)]%string)))))))
                       s
                   with
                   | (Ok a, s') => (Ok a, s')
                   | (Throw e, s') =>
                       Eff.bind (fun s0 : St => (Js.get_prop e "message", s0))
                         (fun details =>
                            Eff.ret (Http.respond 500
                                       (JObj [("error", Msg.error_ejecutar);
                                              ("details", details)]%string))) s'
                   end)).
  { unfold P, Eff.bind, await_executeCode, Eff.ret.
    destruct (executeCode code language call (svc s)) as [[result|err] w]; cbn [fst snd].
    - destruct (Js.is_nullish result) eqn:Hn.
      + destruct result; try discriminate; cbn [Js.get_prop Js.cannot_read Js.type_error
                                                 Js.lookup String.eqb Ascii.eqb Bool.eqb];
          (split; [reflexivity|]); (split; [intros r Hr; inversion Hr; subst r; discriminate|]);
          intros err Herr; discriminate.
      + rewrite !(JsFacts.get_prop_field _ Hn). cbn [fst snd calls].
        split; [reflexivity|]. split; [intros r Hr _; inversion Hr; reflexivity|].
        intros err Herr; discriminate.
    - destruct (Js.is_nullish err) eqn:Hn.
      + destruct err; try discriminate; cbn [Js.get_prop fst snd calls];
          (split; [reflexivity|]); (split; [intros r Hr; discriminate|]);
          intros e He He'; inversion He; subst e; discriminate.
      + rewrite (JsFacts.get_prop_field _ Hn). cbn [fst snd calls].
        split; [reflexivity|]. split; [intros r Hr; discriminate|].
        intros e He _; inversion He; reflexivity. }
  destruct Hgate as [Hno|(i & exam & Hi & Hexam & Htipo)].
  - rewrite Hno. exact Run.
  - destruct (Js.truthy (Js.field reqBody "examId")); [|exact Run].
    unfold Eff.bind at 1, find_exam. rewrite Hi. unfold Eff.gets at 1.
    rewrite Hexam, Htipo, JsFacts.eqb_refl. cbn [negb]. exact Run.
Qed.



(** X14.  POST /validate on a request with a truthy [code] and [language]
    calls [validateSyntax] exactly once and never [executeCode].  A
    result is answered 200 with its [valid] and [errors]; a rejection
    is answered 500 with the message of the error as [details]. *)
Theorem validate_asks_the_validator_once (reqBody code language : JSValue) (s : St) :
  Js.get_prop reqBody "code" = Ok code ->
  Js.get_prop reqBody "language" = Ok language ->
  Js.truthy code = true ->
  Js.truthy language = true ->
  let run := validate_handler validateSyntax reqBody s in
  calls (snd run) = calls s ++ [ValidateSyntax code language]
  /\ (forall result,
        fst (validateSyntax code language (svc s)) = Ok result ->
        Js.is_nullish result = false ->
        fst run = Ok (Http.json (JObj [("valid", Js.field result "valid");
                                       ("errors", Js.field result "errors")]%string)))
  /\ (forall err,
        fst (validateSyntax code language (svc s)) = Throw err ->
        Js.is_nullish err = false ->
        fst run = Ok (Http.respond 500 (JObj [("error", Msg.error_validar);
                                              ("details", Js.field err "message")]%string))).
Proof.
  intros Hcode Hlang Tcode Tlang. cbv zeta.
  destruct (JsFacts.get_prop_ok _ _ _ Hcode) as [Hbody Ecode].
  destruct (JsFacts.get_prop_ok _ _ _ Hlang) as [_ Elang].
  set (P := fun run : Outcome Response * St =>
    calls (snd run) = calls s ++ [ValidateSyntax code language]
    /\ (forall result,
          fst (validateSyntax code language (svc s)) = Ok result ->
          Js.is_nullish result = false ->
          fst run = Ok (Http.json (JObj [("valid", Js.field result "valid");
                                         ("errors", Js.field result "errors")]%string)))
    /\ (forall err,
          fst (validateSyntax code language (svc s)) = Throw err ->
          Js.is_nullish err = false ->
          fst run = Ok (Http.respond 500
                          (JObj [("error", Msg.error_validar);
                                 ("details", Js.field err "message")]%string)))).
  change (P (validate_handler validateSyntax reqBody s)).
  unfold validate_handler, Eff.try_catch, Eff.bind at 1 2, prop, Eff.eval.
  rewrite !(JsFacts.get_prop_field _ Hbody), <- Ecode, <- Elang.
  rewrite Tcode, Tlang. cbn [negb orb].
  unfold P, Eff.bind, await_validateSyntax, Eff.ret.
  destruct (validateSyntax code language (svc s)) as [[result|err] w]; cbn [fst snd].
  - destruct (Js.is_nullish result) eqn:Hn.
    + destruct result; try discriminate; cbn [Js.get_prop Js.cannot_read Js.type_error
                                               Js.lookup String.eqb Ascii.eqb Bool.eqb];
        (split; [reflexivity|]); (split; [intros r Hr; inversion Hr; subst r; discriminate|]);
        intros err Herr; discriminate.
    + rewrite !(JsFacts.get_prop_field _ Hn). cbn [fst snd calls].
      split; [reflexivity|]. split; [intros r Hr _; inversion Hr; reflexivity|].
      intros err Herr; discriminate.
  - destruct (Js.is_nullish err) eqn:Hn.
    + destruct err; try discriminate; cbn [Js.get_prop fst snd calls];
        (split; [reflexivity|]); (split; [intros r Hr; discriminate|]);
        intros e He He'; inversion He; subst e; discriminate.
    + rewrite (JsFacts.get_prop_field _ Hn). cbn [fst snd calls].
      split; [reflexivity|]. split; [intros r Hr; discriminate|].
      intros e He _; inversion He; reflexivity.
Qed.

Lemma execute_case_keeps_db (code language testCase : JSValue) :
  keeps_db (execute_case executeCode code language testCase).
Proof.
  unfold execute_case, output_matches, push, increment_passedTests.
  apply DbFacts.try_catch_keeps_db; [|intros e];
    repeat first
      [ apply DbFacts.bind_keeps_db; [|intros ?]
      | apply DbFacts.prop_keeps_db
      | apply DbFacts.eval_keeps_db
      | apply DbFacts.ret_keeps_db
      | apply DbFacts.set_locals_keeps_db
      | apply DbFacts.await_executeCode_keeps_db
      | match goal with |- keeps_db (if ?c then _ else _) => destruct c end ].
Qed.

(** X15.  The three routes of [codeExecution.route.ts] only read the
    database: whatever the request and however the service behaves,
    the database after the request is the database before it. *)
Theorem code_execution_routes_keep_db (reqBody : JSValue) (s : St) :
  db (snd (run_handler executeCode parseInt reqBody s)) = db s
  /\ db (snd (validate_handler validateSyntax reqBody s)) = db s
  /\ db (snd (execute_handler executeCode reqBody s)) = db s.
Proof.
  assert (K : forall A (m : M St A), keeps_db m -> forall s0, db (snd (m s0)) = db s0)
    by (intros A m H; exact H).
  repeat split; apply K; clear K.
  - unfold run_handler, find_exam.
    apply DbFacts.try_catch_keeps_db; [|intros e];
      repeat first
        [ apply DbFacts.bind_keeps_db; [|intros ?]
        | apply DbFacts.prop_keeps_db
        | apply DbFacts.ret_keeps_db
        | apply DbFacts.throw_keeps_db
        | apply DbFacts.gets_keeps_db
        | apply DbFacts.await_executeCode_keeps_db
        | match goal with |- keeps_db (if ?c then _ else _) => destruct c end
        | match goal with |- keeps_db (match ?c with Some _ => _ | None => _ end) =>
            destruct c end ].
  - unfold validate_handler.
    apply DbFacts.try_catch_keeps_db; [|intros e];
      repeat first
        [ apply DbFacts.bind_keeps_db; [|intros ?]
        | apply DbFacts.prop_keeps_db
        | apply DbFacts.ret_keeps_db
        | apply DbFacts.await_validateSyntax_keeps_db
        | match goal with |- keeps_db (if ?c then _ else _) => destruct c end ].
  - unfold execute_handler, single_run.
    apply DbFacts.try_catch_keeps_db; [|intros e];
      repeat first
        [ apply DbFacts.bind_keeps_db; [|intros ?]
        | apply DbFacts.prop_keeps_db
        | apply DbFacts.ret_keeps_db
        | apply DbFacts.gets_keeps_db
        | apply DbFacts.set_locals_keeps_db
        | apply DbFacts.await_executeCode_keeps_db
        | apply DbFacts.for_of_keeps_db; intros ?; apply execute_case_keeps_db
        | match goal with |- keeps_db (if ?c then _ else _) => destruct c end ].
Qed.


End CodeRoutes.

(** ** The further properties on concrete requests *)

Lemma scenario_validator_rejects_with_errors :
  Answer.validate_throws_errors Scenario.validator.
Proof. intros code language w e H. discriminate. Qed.

Lemma code_execution_routes_always_answer_witness :
  exists r,
    fst (CodeExecutionRoute.run_handler Scenario.flaky Scenario.parseInt
           (Campus.run_body "7" "5") Campus.route_start) = Ok r
    /\ In (status r) [500%Z; 200%Z; 400%Z; 404%Z].
Proof.
  exact (proj1 (code_execution_routes_always_answer Scenario.World Scenario.flaky
                  Scenario.validator Scenario.parseInt flaky_throws_errors
                  scenario_validator_rejects_with_errors
                  (Campus.run_body "7" "5") Campus.route_start)).
Defined.

Lemma attempt_routes_always_answer_witness :
  exists r,
    fst (SaveCodeRoute.save_code_handler Scenario.parseInt Scenario.finish_request
           Campus.start) = Ok r
    /\ In (status r) [500%Z; 200%Z; 400%Z; 403%Z; 404%Z].
Proof.
  refine (proj2 (attempt_routes_always_answer Scenario.World Scenario.echo
                   Scenario.parseInt 1000%Z Scenario.finish_request Campus.start _)).
  reflexivity.
Defined.

Lemma attempt_guards_refuse_witness :
  let req := Campus.request "2" 11 (Campus.answers [2; 0; 1]) in
  ExamAttemptRoute.finish_handler Scenario.echo Scenario.parseInt 1000%Z req Campus.start
  = (Ok (Http.respond 403 (JObj [("error"%string, ExamAttemptRoute.Msg.no_autorizado)])),
     Campus.start)
  /\ SaveCodeRoute.save_code_handler Scenario.parseInt req Campus.start
     = (Ok (Http.respond 403 (JObj [("error"%string, ExamAttemptRoute.Msg.no_autorizado)])),
        Campus.start).
Proof.
  cbv zeta.
  refine (proj1 (proj2 (proj2 (attempt_guards_refuse Scenario.World Scenario.echo
                                 Scenario.parseInt 1000%Z
                                 (Campus.request "2" 11 (Campus.answers [2; 0; 1]))
                                 Campus.start _)
                          2%Z _)
                   (Campus.attempt 2 8) _) _).
  - reflexivity.
  - reflexivity.
  - reflexivity.
  - simpl. lia.
Defined.

Lemma finish_without_test_cases_witness :
  exists updated s',
    ExamAttemptRoute.finish_handler Scenario.echo Scenario.parseInt 1000%Z
      (Campus.request "3" 10 (JObj [])) Campus.start
    = (Ok (Http.json (ExamAttemptRoute.attempt_value updated)), s')
    /\ (svc s' = svc Campus.start /\ calls s' = calls Campus.start)
    /\ Db.examAttempt_findUnique 3 (db s') = Some updated
    /\ Db.estado updated = ExamAttemptRoute.finalizado
    /\ Db.finishedAt updated = Some 1000%Z
    /\ Db.codigoProgramacion updated
       = Js.or_else (Db.content Campus.main_js) (Js.str "")
    /\ Db.puntaje updated = Db.puntaje (Campus.attempt 3 9)
    /\ Db.testResults updated = Db.testResults (Campus.attempt 3 9)
    /\ Db.respuestas updated = Db.respuestas (Campus.attempt 3 9).
Proof.
  refine (finish_without_test_cases Scenario.World Scenario.echo Scenario.parseInt 1000%Z
            (Campus.request "3" 10 (JObj [])) Campus.start 3%Z (Campus.attempt 3 9)
            Campus.ungraded Campus.main_js _ _ _).
  - repeat split.
  - reflexivity.
  - reflexivity.
Defined.

Lemma multiple_choice_finish_witness :
  fst (ExamAttemptRoute.finish_handler Scenario.echo Scenario.parseInt 1000%Z
         (Campus.request "2" 10 (Campus.answers [2; 1; 1])) Campus.start)
  = Ok (Http.json
          (ExamAttemptRoute.attempt_value
             {| Db.id := 2; Db.userId := 10; Db.examId := 8;
                Db.estado := ExamAttemptRoute.finalizado; Db.finishedAt := Some 1000%Z;
                Db.respuestas := JArr [JNum 2%float; JNum 1%float; JNum 1%float];
                Db.codigoProgramacion := JNull;
                Db.puntaje := JNum 0x1.0aaaaaaaaaaaap+6%float;
                Db.testResults := JNull |})).
Proof.
  refine (f_equal fst
            (proj1 (multiple_choice_finish Scenario.World Scenario.echo
                      Scenario.parseInt 1000%Z
                      (Campus.request "2" 10 (Campus.answers [2; 1; 1])) Campus.start
                      2%Z (Campus.attempt 2 8) Campus.quiz _ _ _ _ _ _ _)));
    reflexivity.
Defined.

Lemma finished_attempt_stays_closed_witness :
  let run := ExamAttemptRoute.finish_handler Scenario.echo Scenario.parseInt 1000%Z
               Scenario.finish_request (Scenario.finish_start [Scenario.new_main]) in
  ExamAttemptRoute.finish_handler Scenario.echo Scenario.parseInt 2000%Z
    Scenario.finish_request (snd run)
  = (Ok (Http.respond 400 (JObj [("error"%string, ExamAttemptRoute.Msg.ya_finalizado)])),
     snd run)
  /\ SaveCodeRoute.save_code_handler Scenario.parseInt Scenario.finish_request (snd run)
     = (Ok (Http.respond 400 (JObj [("error"%string, ExamAttemptRoute.Msg.ya_finalizado)])),
        snd run).
Proof.
  cbv zeta.
  refine (finished_attempt_stays_closed Scenario.World Scenario.echo Scenario.parseInt
            1000%Z Scenario.finish_request Scenario.finish_request
            (Scenario.finish_start [Scenario.new_main])
            (snd (ExamAttemptRoute.finish_handler Scenario.echo Scenario.parseInt 1000%Z
                    Scenario.finish_request (Scenario.finish_start [Scenario.new_main])))
            (Campus.answer_of
               (ExamAttemptRoute.finish_handler Scenario.echo Scenario.parseInt 1000%Z
                  Scenario.finish_request (Scenario.finish_start [Scenario.new_main])))
            1%Z 2000%Z _ _ _ _ _ _ _).
  - vm_compute. reflexivity.
  - vm_compute. reflexivity.
  - reflexivity.
  - reflexivity.
  - reflexivity.
  - reflexivity.
  - reflexivity.
Defined.

Lemma saved_code_never_reaches_the_grade_witness :
  ExamAttemptRoute.finish_handler Scenario.flaky Scenario.parseInt 1000%Z
    Scenario.finish_request
    (snd (SaveCodeRoute.save_code_handler Scenario.parseInt Scenario.finish_request
            (Scenario.finish_start [Scenario.new_main])))
  = ExamAttemptRoute.finish_handler Scenario.flaky Scenario.parseInt 1000%Z
      Scenario.finish_request (Scenario.finish_start [Scenario.new_main]).
Proof.
  refine (saved_code_never_reaches_the_grade Scenario.World Scenario.flaky Scenario.parseInt
            1000%Z Scenario.finish_request Scenario.finish_request
            (Scenario.finish_start [Scenario.new_main]) 1%Z Scenario.attempt1
            Scenario.exam7 Scenario.new_main _ _ flaky_throws_errors _ _).
  - exact (scenario_programming_finish [Scenario.new_main]).
  - reflexivity.
  - exact three_cases_are_objects.
  - reflexivity.
Defined.

Lemma run_checks_the_exam_first_witness :
  CodeExecutionRoute.run_handler Scenario.echo Scenario.parseInt
    (Campus.run_body "8" "5") Campus.route_start
  = (Ok (Http.respond 400 (JObj [("error"%string, Msg.no_es_programacion)])),
     Campus.route_start).
Proof.
  refine (run_checks_the_exam_first Scenario.World Scenario.echo Scenario.parseInt
            (Campus.run_body "8" "5") (Js.str "print(input())") (Js.str "python")
            Campus.route_start _ _ _ _ _ _).
  - reflexivity.
  - reflexivity.
  - reflexivity.
  - reflexivity.
  - reflexivity.
  - discriminate.
Defined.

Lemma run_executes_once_witness :
  calls (snd (CodeExecutionRoute.run_handler Scenario.echo Scenario.parseInt
                (Campus.run_body "7" "5") Campus.route_start))
  = calls Campus.route_start
    ++ [ExecuteCode (Js.str "print(input())") (Js.str "python")
          (CodeExecutionRoute.options
             (Js.or_else (Js.field (Campus.run_body "7" "5") "input") (Js.str "")))].
Proof.
  refine (proj1 (run_executes_once Scenario.World Scenario.echo Scenario.parseInt
                   (Campus.run_body "7" "5") (Js.str "print(input())") (Js.str "python")
                   Campus.route_start _ _ _ _ _)).
  - reflexivity.
  - reflexivity.
  - reflexivity.
  - reflexivity.
  - right. exists 7%Z, Scenario.exam7. repeat split.
Defined.


Lemma validate_asks_the_validator_once_witness :
  calls (snd (CodeExecutionRoute.validate_handler Scenario.validator
                (Scenario.plain_body "x = 1" "python") Scenario.route_start))
  = calls Scenario.route_start ++ [ValidateSyntax (Js.str "x = 1") (Js.str "python")].
Proof.
  refine (proj1 (validate_asks_the_validator_once Scenario.World Scenario.validator
                   (Scenario.plain_body "x = 1" "python") (Js.str "x = 1") (Js.str "python")
                   Scenario.route_start _ _ _ _)); reflexivity.
Defined.

